(** * potion_client.routes: a shallow embedding

    The development follows [potion_client/routes.py]: the schema
    attributes ([AttributeMapper], [Items], [OneOf]), links, the proxy
    hierarchy with its page iterator, and resources.

    Python values are an inductive type, exceptions an error type, and
    objects that the program mutates (proxies, resources) live in an
    explicit store threaded through a state-and-exception monad in which
    the store survives a raised exception, as it does in Python.  What the
    module imports but does not define (the JSON-Schema validator, the
    registry of special keys, the HTTP transport, helpers of [utils]) is
    gathered in the record [Runtime] and stays a parameter of every
    definition. *)

From Stdlib Require Import ZArith List String Ascii Bool Floats Uint63 DecimalString Lia.
Import ListNotations.
Local Open Scope string_scope.
Local Open Scope list_scope.

Set Implicit Arguments.
Set Warnings "-register-all".

(** ** Python values and exceptions *)

Inductive pyval : Type :=
| VNone
| VBool (b : bool)
| VInt (z : Z)
| VFloat (f : float)
| VStr (s : string)
| VList (l : list pyval)
| VTuple (l : list pyval)
| VDict (d : list (string * pyval))
| VObject (o : nat).

(** [VObject] stands for an object built by a collaborator (a resource
    made by the reference resolver, a date); only its identity is kept. *)

Inductive exn : Type :=
| TypeError
| ValueError
| KeyError
| IndexError
| AttributeError
| AssertionError
| NotImplementedError
| ZeroDivisionError
| OverflowError
| RecursionError
| StopIteration
| ValidationError
| TransportError
| OneOfException (errors : list exn)
| Unsupported.

(** [Unsupported] marks the few places where a call leaves the embedded
    fragment (a keyword argument or attribute name that collides with a
    member of the proxy classes, an integer too large for exact float
    arithmetic); the theorems exclude them by hypothesis. *)

Inductive result (A : Type) : Type :=
| Ok (a : A)
| Raise (e : exn).

Arguments Ok {A} a.
Arguments Raise {A} e.

Definition rbind {A B} (r : result A) (k : A -> result B) : result B :=
  match r with
  | Ok a => k a
  | Raise e => Raise e
  end.

Declare Scope py_scope.
Delimit Scope py_scope with py.
Notation "x <- c ;; k" := (rbind c (fun x => k))
  (at level 61, c at next level, right associativity) : py_scope.
Notation "' pat <- c ;; k" := (rbind c (fun x => match x with pat => k end))
  (at level 61, pat pattern, c at next level, right associativity) : py_scope.
Local Open Scope py_scope.

Section Traverse.
Variables A B : Type.
Variable f : A -> result B.

(** A list comprehension whose body may raise: elements are evaluated
    left to right and the first exception ends the comprehension. *)
Definition mapM : list A -> result (list B) :=
  fix go (l : list A) : result (list B) :=
    match l with
    | [] => Ok []
    | x :: t => y <- f x ;; ys <- go t ;; Ok (y :: ys)
    end.
End Traverse.

(** ** Dictionaries

    A Python [dict] keeps insertion order, and the program observes it
    ([values()], the first key of [properties]), so a dictionary is an
    association list with unique keys. *)

Section Dict.
Variable V : Type.

Fixpoint dict_get (d : list (string * V)) (k : string) : option V :=
  match d with
  | [] => None
  | (k', v) :: t => if String.eqb k k' then Some v else dict_get t k
  end.

Fixpoint dict_set (d : list (string * V)) (k : string) (v : V) : list (string * V) :=
  match d with
  | [] => [(k, v)]
  | (k', v') :: t =>
      if String.eqb k k' then (k', v) :: t else (k', v') :: dict_set t k v
  end.

Fixpoint dict_pop (d : list (string * V)) (k : string) : list (string * V) :=
  match d with
  | [] => []
  | (k', v') :: t =>
      if String.eqb k k' then t else (k', v') :: dict_pop t k
  end.

Definition dict_mem (d : list (string * V)) (k : string) : bool :=
  match dict_get d k with Some _ => true | None => false end.

Definition dict_keys (d : list (string * V)) : list string := map fst d.
Definition dict_values (d : list (string * V)) : list V := map snd d.

(** [d.update(other)] *)
Definition dict_update (d other : list (string * V)) : list (string * V) :=
  fold_left (fun acc kv => dict_set acc (fst kv) (snd kv)) other d.
End Dict.

(** ** Operations of the Python data model used by the module *)

Definition is_none (v : pyval) : bool :=
  match v with VNone => true | _ => false end.

Definition is_list (v : pyval) : bool :=
  match v with VList _ => true | _ => false end.

Definition truthy (v : pyval) : bool :=
  match v with
  | VNone => false
  | VBool b => b
  | VInt z => negb (Z.eqb z 0)
  | VFloat f => negb (PrimFloat.eqb f 0%float)
  | VStr s => negb (String.eqb s "")
  | VList l | VTuple l => match l with [] => false | _ => true end
  | VDict d => match d with [] => false | _ => true end
  | VObject _ => true
  end.

Definition is_str (s : string) (v : pyval) : bool :=
  match v with VStr s' => String.eqb s s' | _ => false end.

(** [key in container], for a string [key]. *)
Definition py_contains (key : string) (container : pyval) : result bool :=
  match container with
  | VDict d => Ok (dict_mem d key)
  | VList l | VTuple l => Ok (existsb (is_str key) l)
  | VStr s => Ok (match String.index 0 key s with Some _ => true | None => false end)
  | _ => Raise TypeError
  end.

(** [container[key]], for a string [key]. *)
Definition py_getitem (container : pyval) (key : string) : result pyval :=
  match container with
  | VDict d => match dict_get d key with Some v => Ok v | None => Raise KeyError end
  | _ => Raise TypeError
  end.

(** [obj.get(key, default)] *)
Definition py_get (obj : pyval) (key : string) (default : pyval) : result pyval :=
  match obj with
  | VDict d => Ok (match dict_get d key with Some v => v | None => default end)
  | _ => Raise AttributeError
  end.

(** [obj.items()] and [obj.keys()] *)
Definition py_items (obj : pyval) : result (list (string * pyval)) :=
  match obj with
  | VDict d => Ok d
  | _ => Raise AttributeError
  end.

Definition py_keys (obj : pyval) : result (list string) :=
  match obj with
  | VDict d => Ok (dict_keys d)
  | _ => Raise AttributeError
  end.

Fixpoint chars (s : string) : list pyval :=
  match s with
  | EmptyString => []
  | String c t => VStr (String c EmptyString) :: chars t
  end.

(** Iteration ([for x in v], [enumerate(v)]). *)
Definition py_iter (v : pyval) : result (list pyval) :=
  match v with
  | VList l | VTuple l => Ok l
  | VStr s => Ok (chars s)
  | VDict d => Ok (map (fun k => VStr k) (dict_keys d))
  | _ => Raise TypeError
  end.

(** [len(v)] *)
Definition py_len (v : pyval) : result Z :=
  match v with
  | VList l | VTuple l => Ok (Z.of_nat (List.length l))
  | VStr s => Ok (Z.of_nat (String.length s))
  | VDict d => Ok (Z.of_nat (List.length d))
  | _ => Raise TypeError
  end.

Definition startswith (p s : string) : bool := String.prefix p s.

(** ** Constants and the type table *)

(** Modelled from the spec: [constants.py] is not among the sources; the
    key names are those of the schema document in the spec (section 6). *)

Definition TYPE := "type".
Definition PROPERTIES := "properties".
Definition ITEMS := "items".
Definition ONE_OF := "oneOf".
Definition READ_ONLY := "readOnly".
Definition ADDITIONAL_PROPERTIES := "additionalProperties".
Definition DOC := "description".
Definition REF := "$ref".
Definition URI := "$uri".
Definition URL := "url".

(** The Python types the module tests for and calls. *)
Inductive pytype : Type :=
| TDict | TList | TStr | TInt | TFloat | TBool | TNoneType | TObject.

Definition pytype_eqb (a b : pytype) : bool :=
  match a, b with
  | TDict, TDict | TList, TList | TStr, TStr | TInt, TInt
  | TFloat, TFloat | TBool, TBool | TNoneType, TNoneType | TObject, TObject => true
  | _, _ => false
  end.

Definition type_in (t : pytype) (ts : list pytype) : bool :=
  existsb (pytype_eqb t) ts.

(** Modelled from the spec: [utils.type_for] is not among the sources.
    It maps a JSON-Schema type name, or a list of names, to the list of
    Python types (the attribute's "type set"). *)
Definition type_of_name (v : pyval) : result pytype :=
  match v with
  | VStr s =>
      if String.eqb s "object" then Ok TDict
      else if String.eqb s "array" then Ok TList
      else if String.eqb s "string" then Ok TStr
      else if String.eqb s "integer" then Ok TInt
      else if String.eqb s "number" then Ok TFloat
      else if String.eqb s "boolean" then Ok TBool
      else if String.eqb s "null" then Ok TNoneType
      else Raise KeyError
  | _ => Raise KeyError
  end.

Definition type_for (json_type : pyval) : result (list pytype) :=
  match json_type with
  | VStr _ => t <- type_of_name json_type ;; Ok [t]
  | VList l => mapM type_of_name l
  | _ => Raise TypeError
  end.

(** ** Collaborators *)

Record client : Type := { base_url : string }.

Record response : Type := {
  status_code : Z;
  headers : list (string * string);
  (** [res.links]: relation name to link description *)
  links : list (string * pyval);
  (** requests' [Response.links] is a property that parses the Link
      header anew on every access ([links_shared = false]); a response
      object that stores one dictionary has [links_shared = true]. *)
  links_shared : bool;
  (** [res.json()]; [None] when the body is not JSON *)
  json : option pyval
}.

Record http_request : Type := {
  rq_method : pyval;
  rq_url : string;
  rq_json : pyval;
  rq_params : pyval;
  rq_options : list (string * pyval)
}.

Record Runtime : Type := {
  (** the depth of nested calls the interpreter allows *)
  recursion_limit : nat;
  (** [jsonschema.validate(value, schema)]: [true] when it returns *)
  validate : pyval -> pyval -> bool;
  (** conversions between numbers and text made by the built-in
      constructors ([str(x)] of a value that is not a string, [int] and
      [float] of a string or of a float, anything of a [VObject]) *)
  builtin_conv : pytype -> pyval -> result pyval;
  (** [data_types.for_key(key).serialize(obj)] *)
  for_key_serialize : string -> pyval -> result pyval;
  (** [data_types.for_key(key).resolve(obj, client)] *)
  for_key_resolve : string -> pyval -> client -> result pyval;
  (** [utils.evaluate_ref(uri, client, obj)] *)
  evaluate_ref : pyval -> client -> pyval -> result pyval;
  (** [utils.parse_uri(uri)[-1]] *)
  parse_uri_last : pyval -> result pyval;
  (** [utils.params_to_dictionary(urlparse(url).query)] *)
  params_of_url : pyval -> result (list (string * pyval));
  (** [utils.dictionary_to_params(kwargs)] *)
  dictionary_to_params : list (string * pyval) -> pyval;
  (** [url.format] of the template against the attributes of a bound
      resource named by the route keys; the resource's raw data and
      identity are the two last arguments *)
  expand_template : string -> list string -> pyval -> pyval -> result string;
  (** [requests.request]: the reply to a request after the requests
      already made, oldest first *)
  transport : list http_request -> http_request -> result response
}.

(** Calling a Python type object on one argument ([self.types[0](obj)],
    [self.input_type(args[0])]). *)
Definition py_call (R : Runtime) (t : pytype) (v : pyval) : result pyval :=
  match t, v with
  | TNoneType, _ => Raise TypeError
  | TObject, _ => Raise TypeError
  | _, VObject _ => builtin_conv R t v
  | TBool, _ => Ok (VBool (truthy v))
  | TStr, VStr _ => Ok v
  | TStr, _ => builtin_conv R t v
  | TInt, VInt _ => Ok v
  | TInt, VBool b => Ok (VInt (if b then 1 else 0))
  | TInt, (VFloat _ | VStr _) => builtin_conv R t v
  | TInt, _ => Raise TypeError
  | TFloat, VFloat _ => Ok v
  | TFloat, (VInt _ | VBool _ | VStr _) => builtin_conv R t v
  | TFloat, _ => Raise TypeError
  | TList, (VList l | VTuple l) => Ok (VList l)
  | TList, VStr s => Ok (VList (chars s))
  | TList, VDict d => Ok (VList (map (fun k => VStr k) (dict_keys d)))
  | TList, _ => Raise TypeError
  | TDict, VDict _ => Ok v
  | TDict, (VList [] | VTuple []) => Ok (VDict [])
  | TDict, (VList _ | VTuple _) => builtin_conv R t v
  | TDict, _ => Raise TypeError
  end.

(** ** Schema attributes: [AttributeMapper], [Items], [OneOf]

    An attribute object carries its class, which [_parse_definition]
    reassigns ([self.__class__ = Items]); method calls dispatch on it. *)

Inductive klass : Type := AttributeMapper_cls | Items_cls | OneOf_cls.

(** Keys of [_attributes]: property names, or the positions that
    [OneOf._parse_definition] enumerates. *)
Inductive akey : Type :=
| AName (s : string)
| AIndex (n : nat).

Definition akey_is (s : string) (k : akey) : bool :=
  match k with AName s' => String.eqb s s' | AIndex _ => false end.

Inductive attr : Type := MkAttr {
  cls : klass;
  read_only : pyval;
  additional_properties : pyval;
  doc : pyval;
  definition : pyval;
  _attributes : list (akey * attr)
}.

Definition set_class (c : klass) (a : attr) : attr :=
  MkAttr c (read_only a) (additional_properties a) (doc a) (definition a) (_attributes a).

Definition set_definition (d : pyval) (a : attr) : attr :=
  MkAttr (cls a) (read_only a) (additional_properties a) (doc a) d (_attributes a).

Definition set_attributes (l : list (akey * attr)) (a : attr) : attr :=
  MkAttr (cls a) (read_only a) (additional_properties a) (doc a) (definition a) l.

Section AList.
Variable V : Type.

Fixpoint attrs_get (l : list (akey * V)) (name : string) : option V :=
  match l with
  | [] => None
  | (k, v) :: t => if akey_is name k then Some v else attrs_get t name
  end.

Definition akey_eqb (a b : akey) : bool :=
  match a, b with
  | AName s, AName s' => String.eqb s s'
  | AIndex n, AIndex n' => Nat.eqb n n'
  | _, _ => false
  end.

(** [self._attributes[key] = value] *)
Fixpoint attrs_set (l : list (akey * V)) (key : akey) (v : V) : list (akey * V) :=
  match l with
  | [] => [(key, v)]
  | (k, v') :: t =>
      if akey_eqb key k then (k, v) :: t else (k, v') :: attrs_set t key v
  end.
End AList.

(** [enumerate(l)] *)
Definition enumerate {A} (l : list A) : list (nat * A) :=
  combine (seq 0 (List.length l)) l.

(** [AttributeMapper(definition)]: [__init__] followed by
    [_parse_definition], which dispatches on the class just assigned.
    The fuel bounds the depth of nested constructor calls, as the
    interpreter's recursion limit does. *)
Fixpoint _parse_definition (fuel : nat) (self : attr) {struct fuel} : result attr :=
  match fuel with
  | O => Raise RecursionError
  | S fuel' =>
      let AttributeMapper_init (d : pyval) : result attr :=
        ro <- py_get d READ_ONLY (VBool false) ;;
        ap <- py_get d ADDITIONAL_PROPERTIES (VBool false) ;;
        dc <- py_get d DOC VNone ;;
        _parse_definition fuel' (MkAttr AttributeMapper_cls ro ap dc d []) in
      match cls self with
      | OneOf_cls =>
          (* OneOf._parse_definition *)
          defs <- py_iter (definition self) ;;
          kids <- mapM (fun id => a <- AttributeMapper_init (snd id) ;;
                                  Ok (AIndex (fst id), a)) (enumerate defs) ;;
          Ok (set_attributes
                (fold_left (fun acc ka => attrs_set acc (fst ka) (snd ka)) kids (_attributes self))
                self)
      | _ =>
          (* AttributeMapper._parse_definition, inherited by Items *)
          has_props <- py_contains PROPERTIES (definition self) ;;
          if has_props then
            props <- py_getitem (definition self) PROPERTIES ;;
            its <- py_items props ;;
            kids <- mapM (fun np => a <- AttributeMapper_init (snd np) ;;
                                    Ok (AName (fst np), a)) its ;;
            Ok (set_attributes
                  (fold_left (fun acc ka => attrs_set acc (fst ka) (snd ka)) kids (_attributes self))
                  self)
          else
            has_items <- py_contains ITEMS (definition self) ;;
            if has_items then
              d <- py_getitem (definition self) ITEMS ;;
              _parse_definition fuel' (set_class Items_cls (set_definition d self))
            else
              has_one_of <- py_contains ONE_OF (definition self) ;;
              if has_one_of then
                d <- py_getitem (definition self) ONE_OF ;;
                _parse_definition fuel' (set_class OneOf_cls (set_definition d self))
              else Ok self
      end
  end.

Definition AttributeMapper_init (fuel : nat) (definition : pyval) : result attr :=
  ro <- py_get definition READ_ONLY (VBool false) ;;
  ap <- py_get definition ADDITIONAL_PROPERTIES (VBool false) ;;
  dc <- py_get definition DOC VNone ;;
  _parse_definition fuel (MkAttr AttributeMapper_cls ro ap dc definition []).

(** [[x for x in all_types if x not in seen and not seen.add(x)]] *)
Fixpoint unique_types (seen all_types : list pytype) : list pytype :=
  match all_types with
  | [] => []
  | x :: t => if type_in x seen then unique_types seen t
              else x :: unique_types (x :: seen) t
  end.

(** The [types] property: [AttributeMapper.types], overridden by
    [OneOf.types]. *)
Fixpoint types (self : attr) : result (list pytype) :=
  match cls self with
  | OneOf_cls =>
      per_attr <- mapM (fun ka => types (snd ka)) (_attributes self) ;;
      Ok (unique_types [] (List.concat per_attr))
  | _ =>
      t <- py_get (definition self) TYPE (VStr "object") ;;
      type_for t
  end.

(** The [required] property. *)
Definition required (self : attr) : result bool :=
  ts <- types self ;; Ok (type_in TNoneType ts).

Definition AttributeMapper_empty_value (self : attr) : result pyval :=
  if truthy (read_only self) then Ok VNone
  else
    ts <- types self ;;
    if type_in TNoneType ts then Ok VNone
    else if type_in TDict ts then Ok (VDict [])
    else Ok VNone.

Definition Items_empty_value (self : attr) : result pyval :=
  ts <- types self ;;
  if type_in TNoneType ts then Ok VNone else Ok (VList []).

(** The [empty_value] property, as looked up on the object's class. *)
Definition empty_value (self : attr) : result pyval :=
  match cls self with
  | Items_cls => Items_empty_value self
  | _ => AttributeMapper_empty_value self
  end.

Section Attributes.
Variable R : Runtime.

(** A method of a nested attribute, already bound to it. *)
Definition serializer := pyval -> pyval -> result pyval.
Definition resolver := pyval -> client -> result pyval.

(** The loop of [AttributeMapper.serialize] over the keys. *)
Fixpoint serialize_keys (kids : list (akey * serializer)) (obj : pyval)
         (keys : list string) (value : list (string * pyval))
  : result (list (string * pyval)) :=
  match keys with
  | [] => Ok value
  | key :: rest =>
      val <- (if startswith "$" key then
                match for_key_serialize R key obj with
                | Raise NotImplementedError => py_get obj key VNone
                | r => r
                end
              else
                val <- py_get obj key VNone ;;
                match attrs_get kids key with
                | Some child => child val (VBool true)
                | None => Ok val
                end) ;;
      serialize_keys kids obj rest
        (if is_none val then value else dict_set value key val)
  end.

Definition attribute_names (kids : list (akey * serializer)) : list string :=
  flat_map (fun ka => match fst ka with AName s => [s] | AIndex _ => [] end) kids.

Definition AttributeMapper_serialize (self : attr) (kids : list (akey * serializer))
           (obj : pyval) (valid : pyval) : result pyval :=
  value <- (if is_none obj then empty_value self
            else
              ts <- types self ;;
              if type_in TDict ts then
                iterator <- (if truthy (additional_properties self)
                             then py_keys obj
                             else Ok (attribute_names kids)) ;;
                d <- serialize_keys kids obj iterator [] ;;
                Ok (VDict d)
              else
                match ts with
                | [] => Raise IndexError
                | t0 :: _ => py_call R t0 obj
                end) ;;
  if truthy valid then
    if validate R value (definition self) then Ok value
    else Raise ValidationError
  else Ok value.

(** The loop of [OneOf.serialize]: the first variant that returns ends
    it; an exception is appended to [errors]. *)
Fixpoint OneOf_try {A} (calls : list (result A)) (errors : list exn)
  : A + list exn :=
  match calls with
  | [] => inr errors
  | Ok v :: _ => inl v
  | Raise e :: rest => OneOf_try rest (errors ++ [e])
  end.

Definition OneOf_serialize (self : attr) (kids : list (akey * serializer))
           (obj : pyval) (valid : pyval) : result pyval :=
  if is_none obj then Ok VNone
  else
    match OneOf_try (map (fun ka => snd ka obj valid) kids) [] with
    | inl v => Ok v
    | inr errors =>
        req <- required self ;;
        if req then Raise (OneOfException errors)
        else Ok VNone
    end.

Definition Items_serialize (self : attr) (kids : list (akey * serializer))
           (iterable : pyval) (valid : pyval) : result pyval :=
  req <- (if is_none iterable then required self else Ok false) ;;
  if is_none iterable && req then Ok (VList [])
  else
    match iterable with
    | VList elements =>
        l <- mapM (fun element =>
                     AttributeMapper_serialize self kids element (definition self))
                  elements ;;
        Ok (VList l)
    | _ => Raise AssertionError
    end.

(** [attr.serialize(obj, valid)] *)
Fixpoint serialize (self : attr) : serializer :=
  let kids := map (fun ka => (fst ka, serialize (snd ka))) (_attributes self) in
  match cls self with
  | AttributeMapper_cls => AttributeMapper_serialize self kids
  | Items_cls => Items_serialize self kids
  | OneOf_cls => OneOf_serialize self kids
  end.

Definition AttributeMapper_resolve (self : attr) (obj : pyval) (c : client)
  : result pyval :=
  if is_none obj then empty_value self
  else
    has_props <- py_contains PROPERTIES (definition self) ;;
    if has_props then
      props <- py_getitem (definition self) PROPERTIES ;;
      keys <- py_keys props ;;
      match keys with
      | [] => Raise IndexError
      | key :: _ => for_key_resolve R key obj c
      end
    else Ok obj.

Definition OneOf_resolve (self : attr) (kids : list (akey * resolver))
           (obj : pyval) (c : client) : result pyval :=
  match OneOf_try (map (fun ka => snd ka obj c) kids) [] with
  | inl v => Ok v
  | inr errors => Raise (OneOfException errors)
  end.

Definition Items_resolve (self : attr) (iterable : pyval) (c : client)
  : result pyval :=
  (* [if list is None]: the built-in type [list] is compared, not the
     argument, so the guard is never taken *)
  let list_is_None := false in
  if list_is_None then empty_value self
  else
    elements <- py_iter iterable ;;
    l <- mapM (fun element => AttributeMapper_resolve self element c) elements ;;
    Ok (VList l).

(** [attr.resolve(obj, client)] *)
Fixpoint resolve (self : attr) : resolver :=
  let kids := map (fun ka => (fst ka, resolve (snd ka))) (_attributes self) in
  match cls self with
  | AttributeMapper_cls => AttributeMapper_resolve self
  | Items_cls => Items_resolve self
  | OneOf_cls => OneOf_resolve self kids
  end.
End Attributes.

(** ** Numbers

    [ListLinkProxy.__getitem__] compares, divides, multiplies and
    subtracts Python numbers.  The module is Python 3 (keyword-only
    arguments, annotations, [urllib.parse]), so [/] is true division and
    returns a [float].  Floats are the kernel's binary64 numbers; an
    integer enters float arithmetic exactly when its magnitude is at
    most 2^53, and larger ones are left out of the fragment. *)

Inductive num : Type :=
| NInt (z : Z)
| NFloat (f : float).

Definition as_num (v : pyval) : option num :=
  match v with
  | VInt z => Some (NInt z)
  | VBool b => Some (NInt (if b then 1 else 0))
  | VFloat f => Some (NFloat f)
  | _ => None
  end.

Definition float_of_Z (z : Z) : result float :=
  if (Z.abs z <=? 2 ^ 53)%Z then
    Ok (if (0 <=? z)%Z then PrimFloat.of_uint63 (Uint63.of_Z z)
        else PrimFloat.opp (PrimFloat.of_uint63 (Uint63.of_Z (- z))))
  else Raise Unsupported.

Definition to_float (n : num) : result float :=
  match n with
  | NInt z => float_of_Z z
  | NFloat f => Ok f
  end.

Definition numeric (v : pyval) : result num :=
  match v with
  | VObject _ => Raise Unsupported
  | _ => match as_num v with Some n => Ok n | None => Raise TypeError end
  end.

(** [a > b] *)
Definition py_gt (a b : pyval) : result bool :=
  x <- numeric a ;; y <- numeric b ;;
  match x, y with
  | NInt p, NInt q => Ok (Z.gtb p q)
  | _, _ => fx <- to_float x ;; fy <- to_float y ;; Ok (PrimFloat.ltb fy fx)
  end.

(** [a / b] *)
Definition py_truediv (a b : pyval) : result pyval :=
  x <- numeric a ;; y <- numeric b ;;
  fx <- to_float x ;; fy <- to_float y ;;
  if PrimFloat.eqb fy 0%float then Raise ZeroDivisionError
  else Ok (VFloat (PrimFloat.div fx fy)).

(** [a * b] and [a - b] on numbers *)
Definition py_mul (a b : pyval) : result pyval :=
  x <- numeric a ;; y <- numeric b ;;
  match x, y with
  | NInt p, NInt q => Ok (VInt (p * q))
  | _, _ => fx <- to_float x ;; fy <- to_float y ;; Ok (VFloat (PrimFloat.mul fx fy))
  end.

Definition py_sub (a b : pyval) : result pyval :=
  x <- numeric a ;; y <- numeric b ;;
  match x, y with
  | NInt p, NInt q => Ok (VInt (p - q))
  | _, _ => fx <- to_float x ;; fy <- to_float y ;; Ok (VFloat (PrimFloat.sub fx fy))
  end.

(** [seq[i]] for an integer [i]: negative positions count from the end. *)
Definition seq_index {A} (l : list A) (i : Z) : result A :=
  let n := Z.of_nat (List.length l) in
  let j := if (i <? 0)%Z then (i + n)%Z else i in
  if ((0 <=? j) && (j <? n))%Z
  then match nth_error l (Z.to_nat j) with Some x => Ok x | None => Raise IndexError end
  else Raise IndexError.

(** [container[index]] *)
Definition py_subscript (container index : pyval) : result pyval :=
  match container with
  | VList l | VTuple l =>
      match index with
      | VInt i => seq_index l i
      | VBool b => seq_index l (if b then 1 else 0)%Z
      | _ => Raise TypeError
      end
  | VStr s =>
      match index with
      | VInt i => seq_index (chars s) i
      | VBool b => seq_index (chars s) (if b then 1 else 0)%Z
      | _ => Raise TypeError
      end
  | VDict d =>
      match index with
      | VStr k => py_getitem container k
      | VList _ | VDict _ => Raise TypeError
      | _ => Raise KeyError
      end
  | _ => Raise TypeError
  end.

(** ** Routes and links *)

Record Route : Type := {
  path : string;
  keys : list string
}.

Definition is_instance (r : Route) : bool :=
  match keys r with [] => false | _ => true end.

Record Link : Type := {
  route : Route;
  method : pyval;
  schema : pyval;
  target_schema : pyval;
  request_kwargs : pyval
}.

(** A property that ends without [return] yields [None]: [Some t] is a
    type object, [None] Python's [None]. *)
Definition shape_type (fragment : pyval) : result (option pytype) :=
  has_type <- py_contains TYPE fragment ;;
  if has_type then
    t <- py_getitem fragment TYPE ;;
    ts <- type_for t ;;
    match ts with
    | [] => Raise IndexError
    | t0 :: _ => Ok (Some t0)
    end
  else
    has_ref <- py_contains REF fragment ;;
    if has_ref then
      r <- py_getitem fragment REF ;;
      if is_str "#" r then Ok (Some TObject) else Ok None
    else Ok (Some TNoneType).

Definition Link_return_type (self : Link) : result (option pytype) :=
  shape_type (target_schema self).

Definition Link_input_type (self : Link) : result (option pytype) :=
  shape_type (schema self).

(** ** The store *)

Inductive proxy_class : Type :=
| VoidLinkProxy_cls
| ListLinkProxy_cls
| ObjectLinkProxy_cls.

Record ResourceType : Type := {
  rt_client : client;
  (** [cls._attributes], in the order of the schema's properties *)
  rt_attributes : list (string * attr);
  (** [cls._instance_links] *)
  rt_instance_links : list (string * Link);
  (** the class attributes that hold [LinkProxy(link)] *)
  rt_accessors : list (string * Link)
}.

Inductive binding : Type :=
| BType (t : ResourceType)
| BInstance (r : nat).

(** What [setattr] stores on a proxy: the closure made by [_proxy] for
    a property, or the proxy built for a relation. *)
Inductive member : Type :=
| Accessor (owner : nat) (prop : string)
| Relation (p : nat).

Record proxy : Type := {
  p_cls : proxy_class;
  _link : Link;
  _binding : binding;
  (** [_attributes] is a dictionary shared between a proxy and the
      proxies its accessors build: a reference into [dicts] *)
  p_attributes : nat;
  _kwargs : list (string * pyval);
  p_members : list (string * member);
  _collection : pyval;
  _total : Z;
  _links : list (string * nat)
}.

Record resource : Type := {
  r_type : ResourceType;
  _id : pyval;
  _instance : pyval;
  (** the proxies that [_create_proxies] stores on the instance *)
  r_members : list (string * nat)
}.

Record iterator : Type := {
  _slice_link : member;
  pointer : Z;
  total : Z
}.

Record world : Type := {
  proxies : list proxy;
  dicts : list (list (string * attr));
  resources : list resource;
  iterators : list iterator;
  (** the requests sent so far, oldest first *)
  requests : list http_request
}.

(** ** The monad of the program's effects

    A computation transforms the store and returns a value or raises;
    what it wrote before raising stays written. *)

Definition M (A : Type) : Type := world -> world * result A.

Definition ret {A} (a : A) : M A := fun w => (w, Ok a).
Definition raise {A} (e : exn) : M A := fun w => (w, Raise e).

Definition bind {A B} (c : M A) (k : A -> M B) : M B :=
  fun w =>
    match c w with
    | (w', Ok a) => k a w'
    | (w', Raise e) => (w', Raise e)
    end.

Notation "'let*' x ':=' c 'in' k" := (bind c (fun x => k))
  (at level 10, x name, c at level 100, k at level 200) : py_scope.
Notation "c ';;;' k" := (bind c (fun _ => k))
  (at level 62, right associativity) : py_scope.

Definition lift {A} (r : result A) : M A := fun w => (w, r).

Definition assert_ (b : bool) : M unit :=
  if b then ret tt else raise AssertionError.

(** [try: body except KeyError: handler] *)
Definition try_except_KeyError {A} (body handler : M A) : M A :=
  fun w =>
    match body w with
    | (w', Raise KeyError) => handler w'
    | r => r
    end.

(** A [for] loop whose body has effects. *)
Section ForEach.
Variable A : Type.
Variable body : A -> M unit.

Definition for_each : list A -> M unit :=
  fix go (l : list A) : M unit :=
    match l with
    | [] => ret tt
    | x :: t => body x ;;; go t
    end.
End ForEach.

Definition update_nth {A} (n : nat) (f : A -> A) (l : list A) : list A :=
  (fix go (n : nat) (l : list A) : list A :=
     match l, n with
     | [], _ => []
     | x :: t, O => f x :: t
     | x :: t, S n' => x :: go n' t
     end) n l.

(** Reading and writing objects of the store.  A reference the program
    holds always names an allocated object; a dangling one is outside the
    fragment. *)
Definition get_proxy (p : nat) : M proxy :=
  fun w => (w, match nth_error (proxies w) p with
               | Some o => Ok o
               | None => Raise Unsupported
               end).

Definition modify_proxy (p : nat) (f : proxy -> proxy) : M unit :=
  fun w => ({| proxies := update_nth p f (proxies w);
               dicts := dicts w;
               resources := resources w;
               iterators := iterators w;
               requests := requests w |}, Ok tt).

Definition alloc_proxy (o : proxy) : M nat :=
  fun w => ({| proxies := proxies w ++ [o];
               dicts := dicts w;
               resources := resources w;
               iterators := iterators w;
               requests := requests w |}, Ok (List.length (proxies w))).

Definition get_dict (d : nat) : M (list (string * attr)) :=
  fun w => (w, match nth_error (dicts w) d with
               | Some o => Ok o
               | None => Raise Unsupported
               end).

Definition modify_dict (d : nat) (f : list (string * attr) -> list (string * attr)) : M unit :=
  fun w => ({| proxies := proxies w;
               dicts := update_nth d f (dicts w);
               resources := resources w;
               iterators := iterators w;
               requests := requests w |}, Ok tt).

Definition alloc_dict (o : list (string * attr)) : M nat :=
  fun w => ({| proxies := proxies w;
               dicts := dicts w ++ [o];
               resources := resources w;
               iterators := iterators w;
               requests := requests w |}, Ok (List.length (dicts w))).

Definition get_resource (r : nat) : M resource :=
  fun w => (w, match nth_error (resources w) r with
               | Some o => Ok o
               | None => Raise Unsupported
               end).

Definition modify_resource (r : nat) (f : resource -> resource) : M unit :=
  fun w => ({| proxies := proxies w;
               dicts := dicts w;
               resources := update_nth r f (resources w);
               iterators := iterators w;
               requests := requests w |}, Ok tt).

Definition get_iterator (i : nat) : M iterator :=
  fun w => (w, match nth_error (iterators w) i with
               | Some o => Ok o
               | None => Raise Unsupported
               end).

Definition modify_iterator (i : nat) (f : iterator -> iterator) : M unit :=
  fun w => ({| proxies := proxies w;
               dicts := dicts w;
               resources := resources w;
               iterators := update_nth i f (iterators w);
               requests := requests w |}, Ok tt).

Definition alloc_iterator (o : iterator) : M nat :=
  fun w => ({| proxies := proxies w;
               dicts := dicts w;
               resources := resources w;
               iterators := iterators w ++ [o];
               requests := requests w |}, Ok (List.length (iterators w))).

(** Sending a request: the transport answers from the history, and the
    request joins it. *)
Definition send (R : Runtime) (rq : http_request) : M response :=
  fun w => ({| proxies := proxies w;
               dicts := dicts w;
               resources := resources w;
               iterators := iterators w;
               requests := requests w ++ [rq] |}, transport R (requests w) rq).

(** Field updates *)
Definition set_kwargs (k : list (string * pyval)) (o : proxy) : proxy :=
  {| p_cls := p_cls o; _link := _link o; _binding := _binding o;
     p_attributes := p_attributes o; _kwargs := k; p_members := p_members o;
     _collection := _collection o; _total := _total o; _links := _links o |}.

Definition set_members (m : list (string * member)) (o : proxy) : proxy :=
  {| p_cls := p_cls o; _link := _link o; _binding := _binding o;
     p_attributes := p_attributes o; _kwargs := _kwargs o; p_members := m;
     _collection := _collection o; _total := _total o; _links := _links o |}.

Definition set_collection (c : pyval) (o : proxy) : proxy :=
  {| p_cls := p_cls o; _link := _link o; _binding := _binding o;
     p_attributes := p_attributes o; _kwargs := _kwargs o; p_members := p_members o;
     _collection := c; _total := _total o; _links := _links o |}.

Definition set_total (t : Z) (o : proxy) : proxy :=
  {| p_cls := p_cls o; _link := _link o; _binding := _binding o;
     p_attributes := p_attributes o; _kwargs := _kwargs o; p_members := p_members o;
     _collection := _collection o; _total := t; _links := _links o |}.

Definition set_links (l : list (string * nat)) (o : proxy) : proxy :=
  {| p_cls := p_cls o; _link := _link o; _binding := _binding o;
     p_attributes := p_attributes o; _kwargs := _kwargs o; p_members := p_members o;
     _collection := _collection o; _total := _total o; _links := l |}.

Definition set_id (i : pyval) (r : resource) : resource :=
  {| r_type := r_type r; _id := i; _instance := _instance r; r_members := r_members r |}.

Definition set_instance (i : pyval) (r : resource) : resource :=
  {| r_type := r_type r; _id := _id r; _instance := i; r_members := r_members r |}.

(** ** Resources, first part: [valid_instance] *)

(** The [valid_instance] property.  [self._instance.get] is looked up
    before its arguments are evaluated. *)
Definition valid_instance (self : resource) : result pyval :=
  let step (acc : result (list (string * pyval))) (ka : string * attr) :=
    instance <- acc ;;
    let (key, attr) := ka in
    d <- py_items (_instance self) ;;
    dflt <- empty_value attr ;;
    let value := match dict_get d key with Some v => v | None => dflt end in
    if negb (truthy (read_only attr)) && negb (is_none value)
    then Ok (dict_set instance key value)
    else Ok instance in
  instance <- fold_left step (rt_attributes (r_type self)) (Ok []) ;;
  Ok (VDict instance).

(** ** Calling a link *)

(** A positional argument of a call: a value, or a resource object. *)
Inductive arg : Type :=
| AVal (v : pyval)
| ARes (r : nat).

Fixpoint strip_slash (url : string) : string :=
  match url with
  | EmptyString => EmptyString
  | String c EmptyString => if Ascii.eqb c "/"%char then EmptyString else url
  | String c t => String c (strip_slash t)
  end.

Section MapM.
Variables A B : Type.
Variable f : A -> M B.

Definition mapM_M : list A -> M (list B) :=
  fix go (l : list A) : M (list B) :=
    match l with
    | [] => ret []
    | x :: t => let* y := f x in let* ys := go t in ret (y :: ys)
    end.
End MapM.

Definition binding_client (b : binding) : M client :=
  match b with
  | BType t => ret (rt_client t)
  | BInstance r => let* o := get_resource r in ret (rt_client (r_type o))
  end.

Section Links.
Variable R : Runtime.

Definition generate_url (self : Link) (b : binding) : M string :=
  let* c := binding_client b in
  let url := String.append (base_url c) (path (route self)) in
  let* url := match b with
              | BInstance r =>
                  let* o := get_resource r in
                  lift (expand_template R url (keys (route self)) (_instance o) (_id o))
              | BType _ => ret url
              end in
  ret (strip_slash url).

(** An argument that is a resource is replaced by its writable
    projection. *)
Definition unwrap (a : arg) : M pyval :=
  match a with
  | ARes r => let* o := get_resource r in lift (valid_instance o)
  | AVal v => ret v
  end.

Definition _process_args (self : Link) (args : list arg) : M pyval :=
  let* input_type := lift (Link_input_type self) in
  match input_type with
  | Some TList =>
      let* l := mapM_M unwrap args in ret (VList l)
  | Some TDict | Some TObject =>
      match args with
      | [a] => unwrap a
      | [] => ret VNone
      | _ => raise AttributeError
      end
  | Some TFloat | Some TInt | Some TStr | Some TBool =>
      match args, input_type with
      | [AVal v], Some t => lift (py_call R t v)
      | [ARes _], Some TBool => ret (VBool true)
      | [ARes _], Some TStr => raise Unsupported
      | [ARes _], _ => raise TypeError
      | [], _ => ret VNone
      | _, _ => raise AttributeError
      end
  | _ => ret VNone
  end.

(** Modelled from the spec: [utils.validate_response_status] is not
    among the sources; a status outside 2xx is a transport error. *)
Definition validate_response_status (res : response) : M unit :=
  if ((200 <=? status_code res) && (status_code res <? 300))%Z
  then ret tt else raise TransportError.

(** [Link.__call__]: positional arguments, the keyword-only [binding]
    and [handler], and the remaining keyword arguments *)
Definition Link_call (self : Link) (args : list arg) (b : binding)
           (handler : response -> M pyval) (kwargs : list (string * pyval)) : M pyval :=
  if dict_mem kwargs "binding" || dict_mem kwargs "handler" then raise TypeError
  else
    let* url := generate_url self b in
    let params := dictionary_to_params R kwargs in
    let* body := _process_args self args in
    let* options := match request_kwargs self with
                    | VDict d =>
                        if existsb (dict_mem d) ["method"; "url"; "json"; "params"]
                        then raise TypeError else ret d
                    | _ => raise TypeError
                    end in
    let* res := send R {| rq_method := method self; rq_url := url; rq_json := body;
                          rq_params := params; rq_options := options |} in
    validate_response_status res ;;;
    handler res.
End Links.

(** ** The proxy hierarchy *)

(** Names that [setattr] must not receive: they would replace a field
    or a method of the proxy classes.  Such schemas and relations are
    left out of the fragment. *)
Definition class_members : list string :=
  ["serialize_attribute_value"; "handler"; "bind"; "return_type"; "slice_size"].

Definition reserved_name (n : string) : bool :=
  startswith "_" n || existsb (String.eqb n) class_members.

Definition proxy_setattr (self : nat) (name : string) (m : member) : M unit :=
  if reserved_name name then raise Unsupported
  else modify_proxy self (fun o => set_members (dict_set (p_members o) name m) o).

(** The [return_type] property of [LinkProxy]: the class of the bound
    proxy. *)
Definition LinkProxy_return_type (link : Link) : result proxy_class :=
  t <- Link_return_type link ;;
  match t with
  | Some TList => Ok ListLinkProxy_cls
  | Some TNoneType => Ok VoidLinkProxy_cls
  | _ => Ok ObjectLinkProxy_cls
  end.

Definition res_json (res : response) : result pyval :=
  match json res with
  | Some v => Ok v
  | None => Raise ValueError
  end.

(** The built-in [len] applied to the result of a [__len__] method. *)
Definition builtin_len (n : Z) : M Z :=
  if (n <? 0)%Z then raise ValueError
  else if (2 ^ 63 - 1 <? n)%Z then raise OverflowError
  else ret n.

(** [isinstance(binding, (Resource, type(Resource)))]: [type(Resource)]
    is [type], so a resource type passes as well as a resource. *)
Definition is_resource_or_type (b : binding) : bool :=
  match b with
  | BType _ | BInstance _ => true
  end.

Section Proxies.
Variable R : Runtime.

Definition _parse_schema (self : nat) : M unit :=
  let* o := get_proxy self in
  let* has_props := lift (py_contains PROPERTIES (schema (_link o))) in
  if has_props then
    let* properties := lift (py_getitem (schema (_link o)) PROPERTIES) in
    let* props := lift (py_keys properties) in
    for_each (fun prop =>
                let* d := lift (py_getitem properties prop) in
                let* a := lift (AttributeMapper_init (recursion_limit R) d) in
                modify_dict (p_attributes o) (fun attrs => dict_set attrs prop a) ;;;
                proxy_setattr self prop (Accessor self prop))
             props
  else ret tt.

(** [cls(link=link, binding=binding, attributes=attributes, **kwargs)]
    for a bound proxy class: the chain of [__init__] methods.
    [attributes] is the dictionary handed over, if any. *)
Definition construct (c : proxy_class) (link : Link) (b : binding)
           (attributes : option nat) (kwargs : list (string * pyval)) : M nat :=
  if dict_mem kwargs "link" || dict_mem kwargs "binding" then raise TypeError
  else if dict_mem kwargs "attributes" then
    match attributes with Some _ => raise TypeError | None => raise Unsupported end
  else if dict_mem kwargs "links" &&
          match c with ListLinkProxy_cls => true | _ => false end
  then raise Unsupported
  else
    (* ObjectLinkProxy.__init__ *)
    match c with
    | ObjectLinkProxy_cls => assert_ (is_resource_or_type b)
    | _ => ret tt
    end ;;;
    (* LinkProxy.__init__: [attributes or {}] *)
    let* d := match attributes with
              | Some d =>
                  let* content := get_dict d in
                  match content with
                  | [] => alloc_dict []
                  | _ => ret d
                  end
              | None => alloc_dict []
              end in
    let* self := alloc_proxy {| p_cls := c; _link := link; _binding := b;
                                p_attributes := d; _kwargs := kwargs;
                                p_members := []; _collection := VNone;
                                _total := 0; _links := [] |} in
    (* BoundedLinkProxy.__init__ *)
    _parse_schema self ;;;
    ret self.

(** [LinkProxy(link).bind(instance)] *)
Definition bind_proxy (link : Link) (instance : binding) : M nat :=
  let* c := lift (LinkProxy_return_type link) in
  construct c link instance None [].

Definition serialize_attribute_value (self : nat) (key : string) (value : pyval)
  : M pyval :=
  let* o := get_proxy self in
  let* attrs := get_dict (p_attributes o) in
  match dict_get attrs key with
  | Some a => lift (serialize R a value (VBool true))
  | None => ret value
  end.

(** The closure [new_proxy] that [_proxy(prop)] returns, called with
    positional arguments [args] and keyword arguments [kwargs].
    [new_kwargs] is the dictionary [self._kwargs] itself. *)
Definition new_proxy (self : nat) (prop : string)
           (args : list pyval) (kwargs : list (string * pyval)) : M nat :=
  let* val := match args with
              | [] => ret (VDict kwargs)
              | [v] => assert_ (Nat.eqb (List.length kwargs) 0) ;;; ret v
              | _ => assert_ (Nat.eqb (List.length kwargs) 0) ;;; ret (VTuple args)
              end in
  let* o := get_proxy self in
  let* attrs := get_dict (p_attributes o) in
  let* val := match dict_get attrs prop with
              | Some a => lift (serialize R a val (VBool true))
              | None => ret val
              end in
  modify_proxy self (fun o => set_kwargs (dict_set (_kwargs o) prop val) o) ;;;
  let* o := get_proxy self in
  let* c := lift (LinkProxy_return_type (_link o)) in
  construct c (_link o) (_binding o) (Some (p_attributes o)) (_kwargs o).

(** [ListLinkProxy._create_link] for a link description of the
    response, which is never a [LinkProxy]. *)
Definition _create_link (self : nat) (name : string) (link : pyval) : M unit :=
  let* u := lift (py_getitem link URL) in
  let* params := lift (params_of_url R u) in
  for_each (fun kv =>
              let* v := serialize_attribute_value self (fst kv) (snd kv) in
              modify_proxy self (fun o => set_kwargs (dict_set (_kwargs o) (fst kv) v) o))
           params ;;;
  let* o := get_proxy self in
  let* q := construct ListLinkProxy_cls (_link o) (_binding o) None (_kwargs o) in
  proxy_setattr self name (Relation q) ;;;
  modify_proxy self (fun o => set_links (dict_set (_links o) name q) o).

Definition ListLinkProxy_handler (self : nat) (res : response) : M pyval :=
  try_except_KeyError
    (let* h := lift (match dict_get (headers res) "X-Total-Count" with
                     | Some h => Ok h
                     | None => Raise KeyError
                     end) in
     let* n := lift (py_call R TInt (VStr h)) in
     let* t := match n with VInt z => ret z | _ => raise Unsupported end in
     modify_proxy self (set_total t) ;;;
     (* [res.links.pop("self", None)] *)
     let relations := if links_shared res then dict_pop (links res) "self"
                      else links res in
     for_each (fun nl => _create_link self (fst nl) (snd nl)) relations)
    (let* body := lift (res_json res) in
     let* n := lift (py_len body) in
     modify_proxy self (set_total n)) ;;;
  lift (res_json res).

(** [self.handler], as looked up on the proxy's class. *)
Definition handler (self : nat) (res : response) : M pyval :=
  let* o := get_proxy self in
  match p_cls o with
  | VoidLinkProxy_cls => ret VNone
  | ListLinkProxy_cls => ListLinkProxy_handler self res
  | ObjectLinkProxy_cls => lift (res_json res)
  end.

(** [LinkProxy._resolve]; [new_kwargs] is [self._kwargs] itself. *)
Definition _resolve (self : nat) (args : list arg) (kwargs : list (string * pyval))
  : M pyval :=
  modify_proxy self (fun o => set_kwargs (dict_update (_kwargs o) kwargs) o) ;;;
  let* o := get_proxy self in
  Link_call R (_link o) args (_binding o) (handler self) (_kwargs o).

(** [BoundedLinkProxy.__call__], [ObjectLinkProxy.__call__] *)
Definition __call__ (self : nat) (args : list arg) (kwargs : list (string * pyval))
  : M pyval :=
  _resolve self args kwargs.

Definition fetch_collection (self : nat) : M unit :=
  let* o := get_proxy self in
  if is_none (_collection o) then
    let* c := _resolve self [] [] in
    modify_proxy self (set_collection c)
  else ret tt.

(** The [slice_size] property *)
Definition slice_size (self : nat) : M Z :=
  fetch_collection self ;;;
  let* o := get_proxy self in
  lift (py_len (_collection o)).

Definition __len__ (self : nat) : M Z :=
  fetch_collection self ;;;
  let* o := get_proxy self in
  ret (_total o).

Fixpoint __getitem__ (fuel : nat) (self : nat) (index : pyval) {struct fuel} : M pyval :=
  match fuel with
  | O => raise RecursionError
  | S fuel' =>
      fetch_collection self ;;;
      let* o := get_proxy self in
      let* beyond := lift (py_gt index (VInt (_total o))) in
      if beyond then
        let* per_page := lift (match dict_get (_kwargs o) "per_page" with
                               | Some v => Ok v
                               | None => Raise KeyError
                               end) in
        let* page := lift (py_truediv index per_page) in
        (* [kwargs = self._kwargs; kwargs['page'] = page] *)
        modify_proxy self (fun o => set_kwargs (dict_set (_kwargs o) "page" page) o) ;;;
        let* o := get_proxy self in
        let* link := construct ListLinkProxy_cls (_link o) (_binding o) None (_kwargs o) in
        let* offset := lift (pp <- py_mul page per_page ;; py_sub index pp) in
        __getitem__ fuel' link offset
      else
        let* item := lift (py_subscript (_collection o) index) in
        let* uri := lift (py_subscript item (VStr URI)) in
        let* c := binding_client (_binding o) in
        lift (evaluate_ref R uri c item)
  end.
End Proxies.

(** ** The page iterator *)

Definition set_slice_link (m : member) (i : iterator) : iterator :=
  {| _slice_link := m; pointer := pointer i; total := total i |}.

Definition set_pointer (n : Z) (i : iterator) : iterator :=
  {| _slice_link := _slice_link i; pointer := n; total := total i |}.

Section Iterator.
Variable R : Runtime.

(** What [_slice_link] holds is whatever the attribute [first] or
    [next] holds: a list proxy for a relation; a closure for a schema
    property of that name, on which every operation below fails. *)
Definition list_proxy_of (m : member) (e : exn) : M nat :=
  match m with
  | Relation p =>
      let* o := get_proxy p in
      match p_cls o with
      | ListLinkProxy_cls => ret p
      | _ => raise e
      end
  | Accessor _ _ => raise e
  end.

Definition member_len (m : member) : M Z :=
  let* p := list_proxy_of m TypeError in
  let* n := __len__ R p in
  builtin_len n.

Definition member_slice_size (m : member) : M Z :=
  let* p := list_proxy_of m AttributeError in
  slice_size R p.

Definition member_getitem (m : member) (index : pyval) : M pyval :=
  let* p := list_proxy_of m TypeError in
  __getitem__ R (recursion_limit R) p index.

(** [getattr(m, name)], [None] when [hasattr(m, name)] is false *)
Definition member_attr (m : member) (name : string) : M (option member) :=
  match m with
  | Relation p => let* o := get_proxy p in ret (dict_get (p_members o) name)
  | Accessor _ _ => ret None
  end.

(** [ListLinkIterator(list_link)]; [ListLinkProxy.__iter__] returns it. *)
Definition ListLinkIterator_init (list_link : nat) : M nat :=
  let* first := member_attr (Relation list_link) "first" in
  let slice_link := match first with
                    | Some m => m
                    | None => Relation list_link
                    end in
  let* n := member_len slice_link in
  alloc_iterator {| _slice_link := slice_link; pointer := 0; total := n |}.

Definition __iter__ (self : nat) : M nat := ListLinkIterator_init self.

Definition __next__ (self : nat) : M pyval :=
  let* i := get_iterator self in
  let* size := member_slice_size (_slice_link i) in
  (if (pointer i >=? size)%Z then
     let* next := member_attr (_slice_link i) "next" in
     match next with
     | Some m =>
         modify_iterator self (set_slice_link m) ;;;
         modify_iterator self (set_pointer 0)
     | None => raise StopIteration
     end
   else ret tt) ;;;
  let* i := get_iterator self in
  let* r := member_getitem (_slice_link i) (VInt (pointer i)) in
  modify_iterator self (fun i => set_pointer (pointer i + 1) i) ;;;
  ret r.

(** A [for] loop over the iterator that takes at most [n] elements:
    it ends when [__next__] raises [StopIteration]. *)
Fixpoint take (n : nat) (it : nat) : M (list pyval) :=
  match n with
  | O => ret []
  | S n' =>
      fun w =>
        match __next__ it w with
        | (w', Ok x) => (let* xs := take n' it in ret (x :: xs)) w'
        | (w', Raise StopIteration) => (w', Ok [])
        | (w', Raise e) => (w', Raise e)
        end
  end.
End Iterator.

(** ** Resources *)

(** What an attribute of a resource evaluates to: a bound proxy, or a
    plain value. *)
Inductive dynval : Type :=
| DProxy (p : nat)
| DVal (v : pyval).

Fixpoint remove_dollars (s : string) : string :=
  match s with
  | EmptyString => EmptyString
  | String c t => if Ascii.eqb c "$"%char then remove_dollars t
                  else String c (remove_dollars t)
  end.

(** The name under which [factory] exposes a property. *)
Definition property_name (name : string) : string :=
  if startswith "$" name then remove_dollars name else name.

(** The schema property that the class exposes as [n], if any (a later
    [setattr] replaces an earlier one). *)
Definition class_property (t : ResourceType) (n : string) : option string :=
  fold_left (fun found ka => if String.eqb (property_name (fst ka)) n
                             then Some (fst ka) else found)
            (rt_attributes t) None.

(** Names under which a property or a link would replace a member of
    [Resource] that the methods below rely on.  A resource type is
    [well_named] when its schema avoids them; other types are left out
    of the fragment. *)
Definition resource_members : list string :=
  ["client"; "valid_instance"; "instance"; "properties"; "save"; "refresh"; "factory"].

Definition reserved_member (n : string) : bool :=
  startswith "_" n || existsb (String.eqb n) resource_members.

Definition well_named (t : ResourceType) : bool :=
  forallb (fun ka => negb (reserved_member (property_name (fst ka)))) (rt_attributes t)
  && forallb (fun nl => negb (reserved_member (fst nl)) && negb (String.eqb (fst nl) "id"))
             (rt_accessors t)
  && forallb (fun nl => negb (reserved_member (fst nl)) && negb (String.eqb (fst nl) "id")
                        && match class_property t (fst nl) with
                           | Some _ => false
                           | None => true
                           end)
             (rt_instance_links t).

Definition set_members_r (m : list (string * nat)) (r : resource) : resource :=
  {| r_type := r_type r; _id := _id r; _instance := _instance r; r_members := m |}.

Definition alloc_resource (o : resource) : M nat :=
  fun w => ({| proxies := proxies w;
               dicts := dicts w;
               resources := resources w ++ [o];
               iterators := iterators w;
               requests := requests w |}, Ok (List.length (resources w))).

Section Resources.
Variable R : Runtime.

Definition _create_proxies (self : nat) : M unit :=
  let* o := get_resource self in
  for_each (fun nl =>
              let* p := bind_proxy R (snd nl) (BInstance self) in
              modify_resource self
                (fun o => set_members_r (dict_set (r_members o) (fst nl) p) o))
           (rt_instance_links (r_type o)).

(** [Resource.__init__] of a resource type, called without further
    keyword arguments. *)
Definition Resource_init (t : ResourceType) (oid instance : pyval) : M nat :=
  if negb (well_named t) then raise Unsupported
  else
    let* self := alloc_resource {| r_type := t; _id := VNone; _instance := VNone;
                                   r_members := [] |} in
    _create_proxies self ;;;
    modify_resource self (set_id oid) ;;;
    modify_resource self (set_instance instance) ;;;
    (if is_none oid then modify_resource self (set_instance (VDict [])) else ret tt) ;;;
    ret self.

Definition call (f : dynval) (args : list arg) (kwargs : list (string * pyval))
  : M pyval :=
  match f with
  | DProxy p => __call__ R p args kwargs
  | DVal _ => raise TypeError
  end.

Definition isinstance_ObjectLinkProxy (f : dynval) : M bool :=
  match f with
  | DProxy p =>
      let* o := get_proxy p in
      ret (match p_cls o with ObjectLinkProxy_cls => true | _ => false end)
  | DVal _ => ret false
  end.

(** A resource of the store whose type is [well_named]. *)
Definition get_self (self : nat) : M resource :=
  let* o := get_resource self in
  if well_named (r_type o) then ret o else raise Unsupported.

(** [cls._attributes[name]] *)
Definition class_attribute (o : resource) (name : string) : result attr :=
  match dict_get (rt_attributes (r_type o)) name with
  | Some a => Ok a
  | None => Raise KeyError
  end.

Section Methods.
(** Attribute lookup on a resource, [getattr(self, name)]. *)
Variable getattr : nat -> string -> M dynval.

Definition _ensure_instance (self : nat) : M unit :=
  let* o := get_self self in
  if is_none (_instance o) then
    let* f := getattr self "self" in
    let* v := call f [] [] in
    modify_resource self (set_instance v)
  else ret tt.

(** The [instance] property *)
Definition instance (self : nat) : M pyval :=
  let* o := get_self self in
  (if is_none (_instance o) then _ensure_instance self else ret tt) ;;;
  let* o := get_self self in
  ret (_instance o).

Definition _get_property (name : string) (self : nat) : M pyval :=
  let* o := get_self self in
  let* attr := lift (class_attribute o name) in
  let* inst := instance self in
  let* raw := lift (py_get inst name VNone) in
  let* raw := (if is_none raw then lift (empty_value attr) else ret raw) in
  (* [self._instance[name] = raw] *)
  let* o := get_self self in
  let* updated := lift (match _instance o with
                        | VDict d => Ok (VDict (dict_set d name raw))
                        | _ => Raise TypeError
                        end) in
  modify_resource self (set_instance updated) ;;;
  lift (resolve R attr raw (rt_client (r_type o))).

Definition _set_property (name : string) (self : nat) (value : pyval) : M unit :=
  let* o := get_self self in
  let* attr := lift (class_attribute o name) in
  let* serialized := lift (serialize R attr value (VBool true)) in
  let* inst := instance self in
  let* updated := lift (match inst with
                        | VDict d => Ok (VDict (dict_set d name serialized))
                        | _ => Raise TypeError
                        end) in
  modify_resource self (set_instance updated).

Definition _del_property (name : string) (self : nat) : M unit :=
  let* inst := instance self in
  let* updated := lift (match inst with
                        | VDict d => Ok (VDict (dict_pop d name))
                        | VList _ => Raise TypeError
                        | _ => Raise AttributeError
                        end) in
  modify_resource self (set_instance updated).

(** The [id] property of [Resource] *)
Definition Resource_id (self : nat) : M pyval :=
  let* o := get_self self in
  (if is_none (_id o) then
     if truthy (_instance o) then
       let* has_uri := lift (py_contains URI (_instance o)) in
       if has_uri then
         let* u := lift (py_getitem (_instance o) URI) in
         let* i := lift (parse_uri_last R u) in
         modify_resource self (set_id i)
       else ret tt
     else ret tt
   else ret tt) ;;;
  let* o := get_self self in
  ret (_id o).

(** [Resource.__getattr__], the fallback of the lookup: its second
    branch ends without [return]. *)
Definition __getattr__ (self : nat) (key : string) : M pyval :=
  if startswith "$" key then
    let* inst := instance self in
    lift (py_getitem inst key)
  else ret VNone.

(** The lookup itself: a property of the class first, then what the
    instance stores, then the link accessors of the class, bound on
    access by [LinkProxy.__get__], then the fallback. *)
Definition lookup (self : nat) (name : string) : M dynval :=
  let* o := get_self self in
  if reserved_member name then raise Unsupported
  else
    match class_property (r_type o) name with
    | Some p => let* v := _get_property p self in ret (DVal v)
    | None =>
        if String.eqb name "id" then
          let* v := Resource_id self in ret (DVal v)
        else
          match dict_get (r_members o) name with
          | Some p => ret (DProxy p)
          | None =>
              match dict_get (rt_accessors (r_type o)) name with
              | Some link =>
                  let* p := bind_proxy R link (BInstance self) in ret (DProxy p)
              | None => let* v := __getattr__ self name in ret (DVal v)
              end
          end
    end.
End Methods.

Fixpoint getattr_ (fuel : nat) (self : nat) (name : string) {struct fuel} : M dynval :=
  match fuel with
  | O => raise RecursionError
  | S fuel' => lookup (getattr_ fuel') self name
  end.

Definition getattr : nat -> string -> M dynval := getattr_ (recursion_limit R).

(** [assert isinstance(f, ObjectLinkProxy), "..." % type(self.create)]:
    the message, built when the assertion fails, reads [self.create]. *)
Definition assert_object_proxy (self : nat) (f : dynval) : M unit :=
  let* ok := isinstance_ObjectLinkProxy f in
  if ok then ret tt
  else let* _ := getattr self "create" in raise AssertionError.

Definition save (self : nat) : M unit :=
  let* i := getattr self "id" in
  match i with
  | DVal VNone =>
      let* f := getattr self "create" in
      assert_object_proxy self f ;;;
      let* f := getattr self "create" in
      let* v := call f [ARes self] [] in
      modify_resource self (set_instance v)
  | _ =>
      let* f := getattr self "update" in
      assert_object_proxy self f ;;;
      let* f := getattr self "update" in
      let* v := call f [ARes self] [] in
      modify_resource self (set_instance v)
  end.

Definition refresh (self : nat) : M unit :=
  let* f := getattr self "self" in
  let* v := call f [] [] in
  modify_resource self (set_instance v).
End Resources.

(** ** The factory of resource types *)

(** Modelled from the spec: [constants.py] is not among the sources; the
    keys of a link description are those of the schema document in the
    spec (section 6). *)
Definition LINKS := "links".
Definition HREF := "href".
Definition METHOD := "method".
Definition REL := "rel".
Definition SCHEMA := "schema".
Definition TARGET_SCHEMA := "targetSchema".

Section Factory.
Variable R : Runtime.

(** [utils.extract_keys], which [Route.__init__] calls on the path. *)
Variable extract_keys : string -> list string.

(** [Route(path)] *)
Definition Route_init (p : string) : Route :=
  {| path := p; keys := extract_keys p |}.

(** One turn of the loop of [factory] over the link descriptions.  The
    dictionary [routes] only saves building an equal route twice.
    [acc] holds [_instance_links] and the accessors set on the class. *)
Definition factory_link (requests_kwargs : pyval)
           (acc : list (string * Link) * list (string * Link)) (link_desc : pyval)
  : result (list (string * Link) * list (string * Link)) :=
  href <- py_subscript link_desc (VStr HREF) ;;
  p <- match href with
       | VStr s => Ok s
       | VList _ | VDict _ => Raise TypeError
       | _ => Raise Unsupported
       end ;;
  let route := Route_init p in
  m <- py_subscript link_desc (VStr METHOD) ;;
  s <- py_get link_desc SCHEMA (VDict []) ;;
  t <- py_get link_desc TARGET_SCHEMA (VDict []) ;;
  _ <- py_get link_desc DOC VNone ;;
  let link := {| route := route; method := m; schema := s; target_schema := t;
                 request_kwargs := requests_kwargs |} in
  rel <- py_subscript link_desc (VStr REL) ;;
  if is_instance route then
    match rel with
    | VStr name => Ok (dict_set (fst acc) name link, snd acc)
    | VList _ | VDict _ => Raise TypeError
    | _ => Raise Unsupported
    end
  else
    match rel with
    | VStr name => Ok (fst acc, dict_set (snd acc) name link)
    | _ => Raise TypeError
    end.

(** [Resource.factory(docstring, name, schema, requests_kwargs, client)];
    the name of the class and its docstring are not kept. *)
Definition factory (schema requests_kwargs : pyval) (c : client) : result ResourceType :=
  links <- py_subscript schema (VStr LINKS) ;;
  descs <- py_iter links ;;
  built <- fold_left (fun acc link_desc => a <- acc ;;
                                           factory_link requests_kwargs a link_desc)
                     descs (Ok ([], [])) ;;
  props <- py_subscript schema (VStr PROPERTIES) ;;
  its <- py_items props ;;
  attributes <- fold_left (fun acc np => a <- acc ;;
                                         attr <- AttributeMapper_init (recursion_limit R)
                                                                      (snd np) ;;
                                         Ok (dict_set a (fst np) attr))
                          its (Ok []) ;;
  Ok {| rt_client := c; rt_attributes := attributes;
        rt_instance_links := fst built; rt_accessors := snd built |}.
End Factory.

(** ** Equality of resources *)

Section Equality.
Variable R : Runtime.

(** The truth value of what an attribute evaluates to: a list proxy
    has [__len__], which fetches; the other proxies are true. *)
Definition dyn_truthy (v : dynval) : M bool :=
  match v with
  | DVal v => ret (truthy v)
  | DProxy p =>
      let* o := get_proxy p in
      match p_cls o with
      | ListLinkProxy_cls =>
          let* n := __len__ R p in
          let* n := builtin_len n in
          ret (negb (Z.eqb n 0))
      | _ => ret true
      end
  end.

(** [Resource.__eq__(self, other)] for another resource: [self.uri] and
    [other.uri] are read once for the test and once more for the
    comparison, and the second branch ends without [return].  Two texts
    compare by their characters and two proxies by identity; other
    comparisons are left out of the fragment. *)
Definition Resource_eq (self other : nat) : M pyval :=
  let* u := getattr R self "uri" in
  let* b := dyn_truthy u in
  let* b := (if b then let* u' := getattr R other "uri" in dyn_truthy u'
             else ret false) in
  if b then
    let* u := getattr R self "uri" in
    let* u' := getattr R other "uri" in
    match u, u' with
    | DVal (VStr a), DVal (VStr b) => ret (VBool (String.eqb a b))
    | DProxy p, DProxy q => ret (VBool (Nat.eqb p q))
    | _, _ => raise Unsupported
    end
  else ret VNone.
End Equality.

(** ** A concrete runtime for the worked examples

    A validator for the [type] keyword, decimal text of integers, a
    parser of URL queries and a paginating server: enough to run the
    definitions above on concrete inputs. *)

Module Fixture.

(** The [type] keyword of JSON Schema, the only constraint that the
    schemas of the examples carry. *)
Definition json_type_ok (v : pyval) (name : pyval) : bool :=
  match name, v with
  | VStr n, VNone => String.eqb n "null"
  | VStr n, VBool _ => String.eqb n "boolean"
  | VStr n, VInt _ => String.eqb n "integer" || String.eqb n "number"
  | VStr n, VFloat _ => String.eqb n "number"
  | VStr n, VStr _ => String.eqb n "string"
  | VStr n, VList _ => String.eqb n "array"
  | VStr n, VDict _ => String.eqb n "object"
  | _, _ => false
  end.

Definition type_validate (v schema : pyval) : bool :=
  match schema with
  | VDict d =>
      match dict_get d "type" with
      | None => true
      | Some (VList names) => existsb (json_type_ok v) names
      | Some name => json_type_ok v name
      end
  | _ => true
  end.

(** Decimal text of an integer, and back. *)
Definition str_of_Z (z : Z) : string := NilZero.string_of_int (Z.to_int z).

Definition Z_of_str (s : string) : result Z :=
  match NilZero.int_of_string s with
  | Some i => Ok (Z.of_int i)
  | None => Raise ValueError
  end.

(** [str(v)] for the values the examples print: integers, and lists
    and tuples of them. *)
Definition str_of (v : pyval) : result string :=
  let atom (x : pyval) : result string :=
    match x with
    | VInt z => Ok (str_of_Z z)
    | VNone => Ok "None"
    | VBool true => Ok "True"
    | VBool false => Ok "False"
    | _ => Raise Unsupported
    end in
  match v with
  | VList l => parts <- mapM atom l ;; Ok ("[" ++ String.concat ", " parts ++ "]")%string
  | VTuple [x] => s <- atom x ;; Ok ("(" ++ s ++ ",)")%string
  | VTuple l => parts <- mapM atom l ;; Ok ("(" ++ String.concat ", " parts ++ ")")%string
  | _ => atom v
  end.

Definition conv (t : pytype) (v : pyval) : result pyval :=
  match t, v with
  | TStr, _ => s <- str_of v ;; Ok (VStr s)
  | TInt, VStr s => z <- Z_of_str s ;; Ok (VInt z)
  | _, _ => Raise Unsupported
  end.

Fixpoint split_on (c : ascii) (s : string) (cur : string) : list string :=
  match s with
  | EmptyString => [cur]
  | String a t => if Ascii.eqb a c then cur :: split_on c t ""
                  else split_on c t (cur ++ String a "")%string
  end.

(** The query of a URL as a dictionary; a value made of digits is read
    as an integer. *)
Definition query_value (s : string) : pyval :=
  match Z_of_str s with
  | Ok z => VInt z
  | Raise _ => VStr s
  end.

Definition query_of (u : pyval) : result (list (string * pyval)) :=
  match u with
  | VStr url =>
      match split_on "?" url "" with
      | [_; q] =>
          Ok (fold_left (fun d pair =>
                           match split_on "=" pair "" with
                           | [k; v] => dict_set d k (query_value v)
                           | _ => d
                           end)
                        (split_on "&" q "") [])
      | _ => Ok []
      end
  | _ => Raise TypeError
  end.

(** The last segment of a URI, and a template with its first
    parameter replaced by the identity. *)
Definition last_segment (u : pyval) : result pyval :=
  match u with
  | VStr uri => Ok (query_value (last (split_on "/" uri "") ""))
  | _ => Raise TypeError
  end.

Definition expand (url : string) (keys : list string) (inst id : pyval)
  : result string :=
  match split_on "{" url "" with
  | [_] => Ok url
  | before :: _ => s <- str_of id ;; Ok (before ++ s)%string
  | [] => Ok url
  end.

(** A server holding 25 items, ten to a page.  [/item] reports the
    total in the count header; [/plain] serves the same pages without
    that header. *)
Definition item (k : nat) : pyval :=
  VDict [(URI, VStr ("/item/" ++ str_of_Z (Z.of_nat k))%string)].

Definition page_items (p : nat) : list pyval :=
  map item (seq (10 * (p - 1) + 1) (Nat.min 10 (25 - 10 * (p - 1)))).

Definition page_url (p : nat) : pyval :=
  VStr ("http://host/item?page=" ++ str_of_Z (Z.of_nat p) ++ "&per_page=10")%string.

Definition rel (name : string) (p : nat) : string * pyval :=
  (name, VDict [(URL, page_url p); ("rel", VStr name)]).

Definition page_links (p : nat) : list (string * pyval) :=
  [rel "self" p]
  ++ (if Nat.ltb 1 p then [rel "first" 1; rel "prev" (p - 1)] else [])
  ++ (if Nat.ltb p 3 then [rel "next" (p + 1); rel "last" 3] else []).

Definition requested_page (rq : http_request) : nat :=
  match rq_params rq with
  | VDict d => match dict_get d "page" with
               | Some (VInt z) => Z.to_nat z
               | _ => 1
               end
  | _ => 1
  end.

Definition list_page (count_header : bool) (rq : http_request) : response :=
  let p := requested_page rq in
  {| status_code := 200;
     headers := if count_header then [("X-Total-Count", "25")] else [];
     links := page_links p;
     links_shared := false;
     json := Some (VList (page_items p)) |}.

Definition stored_item : pyval :=
  VDict [(URI, VStr "/item/7"); ("name", VStr "seven");
         ("owner", VDict [(REF, VStr "/user/1")])].

Definition reply (body : pyval) : response :=
  {| status_code := 200; headers := []; links := []; links_shared := false;
     json := Some body |}.

Definition server (history : list http_request) (rq : http_request) : result response :=
  if is_str "GET" (rq_method rq) then
    if String.eqb (rq_url rq) "http://host/item" then Ok (list_page true rq)
    else if String.eqb (rq_url rq) "http://host/plain" then Ok (list_page false rq)
    else Ok (reply stored_item)
  else if is_str "POST" (rq_method rq) then
    Ok (reply (match rq_json rq with
               | VDict d => VDict (dict_set d URI (VStr "/item/26"))
               | v => v
               end))
  else
    Ok (reply (match rq_json rq with
               | VDict d => VDict (dict_set d URI (VStr "/item/7"))
               | v => v
               end)).

Definition R0 : Runtime :=
  {| recursion_limit := 100;
     validate := type_validate;
     builtin_conv := conv;
     for_key_serialize := fun _ _ => Raise NotImplementedError;
     for_key_resolve := fun key _ _ =>
                          if String.eqb key REF then Ok (VObject 0)
                          else Raise NotImplementedError;
     evaluate_ref := fun uri _ _ => Ok uri;
     parse_uri_last := last_segment;
     params_of_url := query_of;
     dictionary_to_params := fun d => VDict d;
     expand_template := expand;
     transport := server |}.

Definition empty_world : world :=
  {| proxies := []; dicts := []; resources := []; iterators := []; requests := [] |}.

Definition self_ref : pyval := VDict [(REF, VStr "#")].

Definition paging_schema : pyval :=
  VDict [(PROPERTIES,
          VDict [("where", VDict [(TYPE, VStr "object")]);
                 ("page", VDict [(TYPE, VStr "integer")]);
                 ("per_page", VDict [(TYPE, VStr "integer")])])].

Definition list_link (path : string) : Link :=
  {| route := {| path := path; keys := [] |};
     method := VStr "GET";
     schema := paging_schema;
     target_schema := VDict [(TYPE, VStr "array")];
     request_kwargs := VDict [] |}.

Definition instances : Link := list_link "/item".
Definition plain : Link := list_link "/plain".

Definition create : Link :=
  {| route := {| path := "/item"; keys := [] |};
     method := VStr "POST";
     schema := self_ref;
     target_schema := self_ref;
     request_kwargs := VDict [] |}.

Definition item_link (m : string) (input : pyval) : Link :=
  {| route := {| path := "/item/{id}"; keys := ["id"] |};
     method := VStr m;
     schema := input;
     target_schema := self_ref;
     request_kwargs := VDict [] |}.

Definition integer_schema : pyval := VDict [(TYPE, VStr "integer")].
Definition string_schema : pyval := VDict [(TYPE, VStr "string")].

Definition readonly_integer_schema : pyval :=
  VDict [(TYPE, VStr "integer"); (READ_ONLY, VBool true)].

Definition list_of_integer_schema : pyval :=
  VDict [(TYPE, VStr "array"); (ITEMS, integer_schema)].

Definition string_or_integer_schema : pyval :=
  VDict [(ONE_OF, VList [string_schema; integer_schema])].

Definition integer_or_null_schema : pyval :=
  VDict [(ONE_OF, VList [integer_schema; VDict [(TYPE, VStr "null")]])].

Definition owner_schema : pyval :=
  VDict [(TYPE, VStr "object"); (PROPERTIES, VDict [(REF, string_schema)])].

Definition uri_schema : pyval :=
  VDict [(TYPE, VStr "string"); (READ_ONLY, VBool true)].

(** The attribute that a schema fragment builds (each fragment of
    the examples builds one; a bare attribute stands for a failure). *)
Definition attribute (fragment : pyval) : attr :=
  match AttributeMapper_init 10 fragment with
  | Ok a => a
  | Raise _ => MkAttr AttributeMapper_cls VNone VNone VNone VNone []
  end.

Definition item_type : ResourceType :=
  {| rt_client := {| base_url := "http://host" |};
     rt_attributes := [(URI, attribute uri_schema);
                       ("name", attribute string_schema);
                       ("tags", attribute (VDict [(TYPE, VStr "array");
                                                  (ITEMS, string_schema)]));
                       ("owner", attribute owner_schema)];
     rt_instance_links := [("self", item_link "GET" (VDict []));
                           ("update", item_link "PATCH" self_ref)];
     rt_accessors := [("instances", instances); ("create", create)] |}.

(** Running a computation from the empty store. *)
Definition run {A} (c : M A) : world * result A := c empty_world.

(** A list proxy of [/item] or [/plain], bound to the resource type,
    as [Item.instances] evaluates to. *)
Definition bound (l : Link) : M nat := bind_proxy R0 l (BType item_type).

(** [Item.instances.per_page(10)] *)
Definition accessor_call : M nat :=
  let* p := bound instances in
  new_proxy R0 p "per_page" [VInt 10] [].

(** [Item.plain.per_page(10)[23]]: the first page holds ten items and
    no count header comes with it, so the total is ten. *)
Definition index_23 : M pyval :=
  let* p := bound plain in
  let* q := new_proxy R0 p "per_page" [VInt 10] [] in
  __getitem__ R0 (recursion_limit R0) q (VInt 23).

(** [list(Item.instances)] *)
Definition iterate_all : M (list pyval) :=
  let* p := bound instances in
  let* it := __iter__ R0 p in
  take R0 100 it.

(** The handler of a list proxy on the first page of [/plain]. *)
Definition plain_request : http_request :=
  {| rq_method := VStr "GET"; rq_url := "http://host/plain"; rq_json := VNone;
     rq_params := VDict []; rq_options := [] |}.


Definition handle_counted : M pyval :=
  let* p := bound instances in
  ListLinkProxy_handler R0 p (list_page true plain_request).

(** [Item(name=...)] saved, and [Item(7)] read and saved. *)
Definition save_new : M unit :=
  let* r := Resource_init R0 item_type VNone VNone in
  _set_property R0 (getattr R0) "name" r (VStr "new") ;;;
  save R0 r.

Definition read_owner : M pyval :=
  let* r := Resource_init R0 item_type (VInt 7) VNone in
  _get_property R0 (getattr R0) "owner" r.

Definition save_loaded : M unit :=
  let* r := Resource_init R0 item_type (VInt 7) VNone in
  let* _ := _get_property R0 (getattr R0) "name" r in
  save R0 r.

(** The store once [iter(Item.instances)] has returned: the first page
    is fetched and the iterator stands at its first element. *)
Definition iterating : world :=
  fst (run (let* p := bound instances in __iter__ R0 p)).

(** The proxy stored at [p] (a void proxy of [create] if there is none). *)
Definition proxy_at (w : world) (p : nat) : proxy :=
  match nth_error (proxies w) p with
  | Some o => o
  | None => {| p_cls := VoidLinkProxy_cls; _link := create; _binding := BType item_type;
               p_attributes := 0; _kwargs := []; p_members := []; _collection := VNone;
               _total := 0; _links := [] |}
  end.

(** The value of a result, or a default. *)
Definition the {A} (default : A) (r : result A) : A :=
  match r with
  | Ok a => a
  | Raise _ => default
  end.

(** The resource stored at [r] (an empty one if there is none). *)
Definition resource_at (w : world) (r : nat) : resource :=
  match nth_error (resources w) r with
  | Some o => o
  | None => {| r_type := item_type; _id := VNone; _instance := VNone; r_members := [] |}
  end.

(** The store with a new item named, and not yet saved. *)
Definition unsaved : world :=
  fst (run (let* r := Resource_init R0 item_type VNone VNone in
            _set_property R0 (getattr R0) "name" r (VStr "new"))).


(** The store with item 7 known by identity only, then with its data
    fetched through the link [self] (and not yet stored). *)
Definition unloaded : world :=
  fst (run (Resource_init R0 item_type (VInt 7) VNone)).

Definition fetched : world :=
  fst ((let* f := getattr R0 0 "self" in call R0 f [] []) unloaded).
(** The store with [Item.instances] bound and nothing fetched, and the
    attributes that the proxy declares. *)
Definition listing : world := fst (run (bound instances)).

Definition paging : list (string * attr) := nth 0 (dicts listing) [].

(** The store once [len(Item.instances)] has returned, once
    [len(Item.plain)] has, and once a new item is saved. *)
Definition iterating_first : world := fst (run (let* p := bound instances in __len__ R0 p)).

Definition plain_fetched : world := fst (run (let* p := bound plain in __len__ R0 p)).

Definition saved : world := fst (run save_new).

(** The names between braces of a path template. *)
Fixpoint path_keys_from (s : string) (cur : option string) : list string :=
  match s with
  | EmptyString => []
  | String c t =>
      match cur with
      | None => if Ascii.eqb c "{" then path_keys_from t (Some "") else path_keys_from t None
      | Some name => if Ascii.eqb c "}" then name :: path_keys_from t None
                     else path_keys_from t (Some (name ++ String c "")%string)
      end
  end.

Definition path_keys (s : string) : list string := path_keys_from s None.

Definition link_description (rel href m : string) (input target : pyval) : pyval :=
  VDict [(REL, VStr rel); (HREF, VStr href); (METHOD, VStr m); (SCHEMA, input);
         (TARGET_SCHEMA, target)].

(** The schema document of the items. *)
Definition item_document : pyval :=
  VDict [(PROPERTIES,
          VDict [(URI, uri_schema); ("name", string_schema);
                 ("tags", VDict [(TYPE, VStr "array"); (ITEMS, string_schema)]);
                 ("owner", owner_schema)]);
         (LINKS,
          VList [link_description "self" "/item/{id}" "GET" (VDict []) self_ref;
                 link_description "update" "/item/{id}" "PATCH" self_ref self_ref;
                 link_description "instances" "/item" "GET" paging_schema
                                  (VDict [(TYPE, VStr "array")]);
                 link_description "create" "/item" "POST" self_ref self_ref])].
End Fixture.

(** ** Vocabulary of the statements *)

(** The store with the iterator [it] replaced by [i]. *)
Definition put_iterator (it : nat) (i : iterator) (w : world) : world :=
  fst (modify_iterator it (fun _ => i) w).

Definition put_resource (r : nat) (o : resource) (w : world) : world :=
  fst (modify_resource r (fun _ => o) w).

(** The value that [_get_property] takes for [name] from the raw data
    [d]: the stored value, or the attribute's empty value when the field
    is missing or null. *)
Definition raw_value (d : list (string * pyval)) (name : string) (a : attr) : result pyval :=
  match dict_get d name with
  | Some v => if is_none v then empty_value a else Ok v
  | None => empty_value a
  end.







(** The store with the proxy [p] replaced by [o]. *)
Definition put_proxy (p : nat) (o : proxy) (w : world) : world :=
  fst (modify_proxy p (fun _ => o) w).

(** [serialize_attribute_value] against the attribute dictionary [A]. *)
Definition serialized (R : Runtime) (A : list (string * attr)) (key : string) (value : pyval)
  : result pyval :=
  match dict_get A key with
  | Some a => serialize R a value (VBool true)
  | None => Ok value
  end.

(** The attributes that [_parse_schema] builds for a link: one for each
    property its schema declares. *)
Definition link_attributes (R : Runtime) (L : Link) : result (list (string * attr)) :=
  has_props <- py_contains PROPERTIES (schema L) ;;
  if has_props then
    properties <- py_getitem (schema L) PROPERTIES ;;
    props <- py_keys properties ;;
    mapM (fun prop => d <- py_getitem properties prop ;;
                      a <- AttributeMapper_init (recursion_limit R) d ;;
                      Ok (prop, a)) props
  else Ok [].




(** What the two stores agree on when only the proxy [self] and the
    attribute dictionary [d] were written: every other object, and every
    field of [self] but its members. *)
Definition wrote_members (self d : nat) (w w' : world) : Prop :=
  List.length (proxies w') = List.length (proxies w)
  /\ (forall i, i <> self -> nth_error (proxies w') i = nth_error (proxies w) i)
  /\ (forall o, nth_error (proxies w) self = Some o ->
                exists m, nth_error (proxies w') self = Some (set_members m o))
  /\ List.length (dicts w') = List.length (dicts w)
  /\ (forall i, i <> d -> nth_error (dicts w') i = nth_error (dicts w) i).




(** A computation that leaves the proxies [P] of the store as they are. *)
Definition keeps_proxies {A} (P : list proxy) (c : M A) : Prop :=
  forall w, proxies w = P -> proxies (fst (c w)) = P.

(** A computation that leaves the resources of the store and the
    requests sent so far as they are. *)
Definition keeps_resources {A} (c : M A) : Prop :=
  forall w, resources (fst (c w)) = resources w /\ requests (fst (c w)) = requests w.

(** What [factory] guarantees of the links of a type. *)
Definition instance_link (extract_keys : string -> list string) (kw : pyval) (L : Link)
  : Prop :=
  keys (route L) = extract_keys (path (route L)) /\ keys (route L) <> []
  /\ request_kwargs L = kw.

Definition type_link (extract_keys : string -> list string) (kw : pyval) (L : Link)
  : Prop :=
  keys (route L) = extract_keys (path (route L)) /\ keys (route L) = []
  /\ request_kwargs L = kw.

Definition links_sorted (extract_keys : string -> list string) (kw : pyval)
           (acc : list (string * Link) * list (string * Link)) : Prop :=
  (forall rel L, dict_get (fst acc) rel = Some L -> instance_link extract_keys kw L)
  /\ (forall rel L, dict_get (snd acc) rel = Some L -> type_link extract_keys kw L).

(** * Properties *)

Unset Implicit Arguments.

Import Fixture.

(** ** Schema attributes *)

Lemma serialize_eq (R : Runtime) (a : attr) :
  serialize R a =
  let kids := map (fun ka => (fst ka, serialize R (snd ka))) (_attributes a) in
  match cls a with
  | AttributeMapper_cls => AttributeMapper_serialize R a kids
  | Items_cls => Items_serialize R a kids
  | OneOf_cls => OneOf_serialize a kids
  end.
Proof. destruct a; reflexivity. Qed.

Lemma resolve_eq (R : Runtime) (a : attr) :
  resolve R a =
  let kids := map (fun ka => (fst ka, resolve R (snd ka))) (_attributes a) in
  match cls a with
  | AttributeMapper_cls => AttributeMapper_resolve R a
  | Items_cls => Items_resolve R a
  | OneOf_cls => OneOf_resolve a kids
  end.
Proof. destruct a; reflexivity. Qed.

(** C10. For every List attribute, [resolve(None, client)] raises a type
    error: the guard [list is None] is never taken, so the null input
    reaches the iteration over the elements; in particular it never
    returns the attribute's empty value. *)
Theorem Items_resolve_None_raises (R : Runtime) (a : attr) (c : client) :
  cls a = Items_cls ->
  resolve R a VNone c = Raise TypeError /\
  (forall v, resolve R a VNone c <> Ok v).
Proof.
  intros Hcls. rewrite resolve_eq. cbn zeta. rewrite Hcls.
  unfold Items_resolve. cbn. split; [reflexivity | discriminate].
Qed.

Lemma Items_resolve_None_witness :
  resolve R0 (attribute list_of_integer_schema) VNone {| base_url := "" |}
    = Raise TypeError /\
  (forall v, resolve R0 (attribute list_of_integer_schema) VNone {| base_url := "" |}
             <> Ok v).
Proof.
  apply (Items_resolve_None_raises R0 (attribute list_of_integer_schema)).
  reflexivity.
Defined.

(** The attributes that the fragments of the examples build. *)
Lemma fragments_build :
  AttributeMapper_init 10 integer_schema
    = Ok (MkAttr AttributeMapper_cls (VBool false) (VBool false) VNone integer_schema [])
  /\ AttributeMapper_init 10 readonly_integer_schema
    = Ok (MkAttr AttributeMapper_cls (VBool true) (VBool false) VNone
                 readonly_integer_schema [])
  /\ AttributeMapper_init 10 list_of_integer_schema
    = Ok (MkAttr Items_cls (VBool false) (VBool false) VNone integer_schema [])
  /\ AttributeMapper_init 10 string_or_integer_schema
    = Ok (MkAttr OneOf_cls (VBool false) (VBool false) VNone
                 (VList [string_schema; integer_schema])
                 [(AIndex 0, attribute string_schema);
                  (AIndex 1, attribute integer_schema)]).
Proof. repeat split. Qed.

(** C3. The list-of-integer attribute serializes [[1, 2, 3]] to itself
    and has the empty list as its empty value, but [serialize(None)]
    fails the assertion [isinstance(iterable, list)]: [required] is true
    only for a type set that includes null, so the branch that returns
    the empty list is not taken. *)
Theorem Items_serialize_None_list_of_integer :
  serialize R0 (attribute list_of_integer_schema)
            (VList [VInt 1; VInt 2; VInt 3]) (VBool true)
    = Ok (VList [VInt 1; VInt 2; VInt 3])
  /\ empty_value (attribute list_of_integer_schema) = Ok (VList [])
  /\ required (attribute list_of_integer_schema) = Ok false
  /\ serialize R0 (attribute list_of_integer_schema) VNone (VBool true)
    = Raise AssertionError
  /\ serialize R0 (attribute list_of_integer_schema) (VInt 3) (VBool true)
    = Raise AssertionError.
Proof. repeat split. Qed.

(** On a List attribute [serialize(None)] is never the empty value: it
    is the empty list exactly when the empty value is [None], and an
    assertion failure otherwise. *)
Lemma Items_serialize_None_not_empty_value (R : Runtime) (a : attr) (valid v : pyval) :
  cls a = Items_cls ->
  empty_value a = Ok v ->
  serialize R a VNone valid <> Ok v.
Proof.
  intros Hcls Hempty. rewrite serialize_eq. cbn zeta. rewrite Hcls.
  unfold empty_value in Hempty. rewrite Hcls in Hempty.
  unfold Items_empty_value in Hempty.
  unfold Items_serialize, required. cbn [is_none].
  destruct (types a) as [ts|e]; cbn in *; [|discriminate].
  destruct (type_in TNoneType ts); cbn; inversion Hempty; subst; discriminate.
Qed.

(** C8 (amended). [{type: integer}] serializes 5 to 5 when the
    validator accepts it.  A read-only scalar attribute takes [None] as
    the value of [serialize(None)] and validates it like any other
    value: the result is [None] when validation is off or the validator
    accepts [None] for the fragment, and a validation error otherwise. *)
Theorem scalar_serialize_validates (R : Runtime) (a : attr) (valid : pyval) :
  cls a = AttributeMapper_cls ->
  truthy (read_only a) = true ->
  serialize R (attribute integer_schema) (VInt 5) (VBool true)
    = (if validate R (VInt 5) integer_schema then Ok (VInt 5)
       else Raise ValidationError)
  /\ serialize R a VNone valid
    = (if truthy valid && negb (validate R VNone (definition a))
       then Raise ValidationError else Ok VNone).
Proof.
  intros Hcls Hro. split.
  - cbn. destruct (validate R (VInt 5) integer_schema); reflexivity.
  - rewrite serialize_eq. cbn zeta. rewrite Hcls.
    unfold AttributeMapper_serialize, empty_value, AttributeMapper_empty_value.
    rewrite Hcls, Hro. cbn.
    destruct (truthy valid); cbn; [|reflexivity].
    destruct (validate R VNone (definition a)); reflexivity.
Qed.

Lemma scalar_serialize_validates_witness :
  serialize R0 (attribute integer_schema) (VInt 5) (VBool true)
    = (if validate R0 (VInt 5) integer_schema then Ok (VInt 5)
       else Raise ValidationError)
  /\ serialize R0 (attribute readonly_integer_schema) VNone (VBool false)
    = (if truthy (VBool false)
          && negb (validate R0 VNone (definition (attribute readonly_integer_schema)))
       then Raise ValidationError else Ok VNone).
Proof.
  apply (scalar_serialize_validates R0 (attribute readonly_integer_schema) (VBool false));
    reflexivity.
Defined.

(** C8 as stated fails: with validation on, the read-only attribute
    [{type: integer, readOnly: true}] raises a validation error on
    [serialize(None)], because [None] is not an integer. *)
Lemma readonly_integer_None_rejected :
  truthy (read_only (attribute readonly_integer_schema)) = true
  /\ serialize R0 (attribute readonly_integer_schema) VNone (VBool true)
     = Raise ValidationError
  /\ serialize R0 (attribute readonly_integer_schema) VNone (VBool true) <> Ok VNone.
Proof. repeat split. discriminate. Qed.

(** *** Unions *)






Lemma OneOf_try_first {A} (pre rest : list (result A)) (v : A) (errors : list exn) :
  Forall (fun r => exists e, r = Raise e) pre ->
  OneOf_try (pre ++ Ok v :: rest) errors = inl v.
Proof.
  revert errors. induction pre as [|r t IH]; intros errors Hpre; cbn; [reflexivity|].
  inversion Hpre as [|? ? [e He] Ht]; subst. apply IH. exact Ht.
Qed.

Lemma OneOf_try_all {A} (calls : list (result A)) (acc errors : list exn) :
  OneOf_try calls acc = inr errors ->
  exists es, errors = acc ++ es /\ Forall2 (fun r e => r = Raise e) calls es.
Proof.
  revert acc. induction calls as [|r t IH]; intros acc; cbn.
  - intros H. inversion H; subst. exists []. rewrite app_nil_r. auto.
  - destruct r as [v|e]; [discriminate|].
    intros H. destruct (IH _ H) as [es [Heq Hall]].
    exists (e :: es). split; [rewrite Heq, <- app_assoc; reflexivity|].
    constructor; auto.
Qed.

Lemma OneOf_serialize_calls (R : Runtime) (a : attr) (obj valid : pyval) :
  cls a = OneOf_cls -> is_none obj = false ->
  serialize R a obj valid =
  match OneOf_try (map (fun ka => serialize R (snd ka) obj valid) (_attributes a)) [] with
  | inl v => Ok v
  | inr errors => req <- required a ;;
                  if req then Raise (OneOfException errors) else Ok VNone
  end.
Proof.
  intros Hcls Hobj. rewrite serialize_eq. cbn zeta. rewrite Hcls.
  unfold OneOf_serialize. rewrite Hobj, map_map. reflexivity.
Qed.



(** The aggregate of that witness: both variants of [[integer, null]]
    reject [[1, 2]], and the union, whose type set includes null, raises
    both causes. *)
Lemma integer_or_null_rejects_list :
  serialize R0 (attribute integer_or_null_schema) (VList [VInt 1; VInt 2]) (VBool true)
  = Raise (OneOfException [TypeError; TypeError]).
Proof. reflexivity. Qed.


(** ** Proxies *)

(** C5. [Item.instances.per_page(10)] returns a new list proxy that
    carries [per_page = 10] and shares link and binding with the
    original, but the original does not stay as it was: [new_kwargs] is
    the original's own [_kwargs], which is empty before the call and
    holds [per_page = 10] after it. *)
Theorem accessor_call_mutates_original :
  map _kwargs (proxies (fst (run (bound instances)))) = [[]]
  /\ snd (run accessor_call) = Ok 1
  /\ map _kwargs (proxies (fst (run accessor_call)))
     = [[("per_page", VInt 10)]; [("per_page", VInt 10)]]
  /\ map p_cls (proxies (fst (run accessor_call)))
     = [ListLinkProxy_cls; ListLinkProxy_cls]
  /\ map _link (proxies (fst (run accessor_call))) = [instances; instances]
  /\ map _binding (proxies (fst (run accessor_call)))
     = [BType item_type; BType item_type].
Proof. repeat split. Qed.

(** C1. With [per_page = 10] and a first page of ten items (total ten),
    [proxy[23]] computes the page by true division: the page sent to the
    server is the float 2.3, not 2, the index handed to the new proxy is
    the float 0.0, not 3, and subscripting the fetched page with a float
    raises a type error. *)
Theorem index_23_true_division :
  py_truediv (VInt 23) (VInt 10) = Ok (VFloat 0x1.2666666666666p+1%float)
  /\ (pp <- py_mul (VFloat 0x1.2666666666666p+1%float) (VInt 10) ;;
      py_sub (VInt 23) pp) = Ok (VFloat 0%float)
  /\ snd (run index_23) = Raise TypeError
  /\ map rq_params (requests (fst (run index_23)))
     = [VDict [("per_page", VInt 10)];
        VDict [("per_page", VInt 10); ("page", VFloat 0x1.2666666666666p+1%float)]]
  /\ map _total (proxies (fst (run index_23))) = [0; 10; 10]%Z.
Proof. repeat split. Qed.

(** ** Running computations *)

Lemma bind_ok {A B} (c : M A) (k : A -> M B) (w w' : world) (a : A) :
  c w = (w', Ok a) -> bind c k w = k a w'.
Proof. intros H. unfold bind. rewrite H. reflexivity. Qed.

Lemma bind_raise {A B} (c : M A) (k : A -> M B) (w w' : world) (e : exn) :
  c w = (w', Raise e) -> bind c k w = (w', Raise e).
Proof. intros H. unfold bind. rewrite H. reflexivity. Qed.

Lemma get_proxy_ok (w : world) (p : nat) (o : proxy) :
  nth_error (proxies w) p = Some o -> get_proxy p w = (w, Ok o).
Proof. intros H. unfold get_proxy. rewrite H. reflexivity. Qed.

Lemma get_iterator_ok (w : world) (it : nat) (i : iterator) :
  nth_error (iterators w) it = Some i -> get_iterator it w = (w, Ok i).
Proof. intros H. unfold get_iterator. rewrite H. reflexivity. Qed.

Lemma update_nth_at {A} (n : nat) (f g : A -> A) (l : list A) (x : A) :
  nth_error l n = Some x -> f x = g x -> update_nth n f l = update_nth n g l.
Proof.
  unfold update_nth. revert n. induction l as [|y t IH]; intros [|n] Hn Hfg; cbn in *;
    try reflexivity; try discriminate.
  - inversion Hn; subst. rewrite Hfg. reflexivity.
  - rewrite (IH n Hn Hfg). reflexivity.
Qed.

Lemma nth_error_update_nth {A} (n : nat) (f : A -> A) (l : list A) (x : A) :
  nth_error l n = Some x -> nth_error (update_nth n f l) n = Some (f x).
Proof.
  unfold update_nth. revert n. induction l as [|y t IH]; intros [|n] Hn; cbn in *;
    try discriminate.
  - inversion Hn; reflexivity.
  - apply IH. exact Hn.
Qed.

Lemma update_nth_twice {A} (n : nat) (f g : A -> A) (l : list A) :
  update_nth n g (update_nth n f l) = update_nth n (fun x => g (f x)) l.
Proof.
  unfold update_nth. revert n. induction l as [|y t IH]; intros [|n]; cbn;
    try reflexivity.
  rewrite IH. reflexivity.
Qed.

Lemma seq_index_nth {A} (l : list A) (k : Z) (x : A) :
  (0 <= k)%Z -> nth_error l (Z.to_nat k) = Some x -> seq_index l k = Ok x.
Proof.
  intros Hk Hnth. unfold seq_index.
  assert (Hlt : (k < Z.of_nat (List.length l))%Z).
  { assert (Z.to_nat k < List.length l)%nat by (apply nth_error_Some; congruence). lia. }
  destruct (k <? 0)%Z eqn:Hneg; [lia|].
  destruct (0 <=? k)%Z eqn:H0; [|lia].
  destruct (k <? Z.of_nat (List.length l))%Z eqn:H1; [|lia].
  cbn. rewrite Hnth. reflexivity.
Qed.

(** ** The page iterator *)

Lemma modify_iterator_at (w : world) (it : nat) (f : iterator -> iterator) (i : iterator) :
  nth_error (iterators w) it = Some i ->
  modify_iterator it f w = (put_iterator it (f i) w, Ok tt).
Proof.
  intros H. unfold put_iterator, modify_iterator. cbn [fst].
  rewrite (update_nth_at it f (fun _ => f i) (iterators w) i H eq_refl). reflexivity.
Qed.

Lemma get_put_iterator (w : world) (it : nat) (i j : iterator) :
  nth_error (iterators w) it = Some i ->
  nth_error (iterators (put_iterator it j w)) it = Some j.
Proof.
  intros H. unfold put_iterator, modify_iterator. cbn [fst iterators].
  apply (nth_error_update_nth it (fun _ => j) (iterators w) i H).
Qed.

Lemma put_put_iterator (w : world) (it : nat) (j k : iterator) :
  put_iterator it k (put_iterator it j w) = put_iterator it k w.
Proof.
  unfold put_iterator, modify_iterator.
  cbn [fst iterators proxies dicts resources requests].
  rewrite update_nth_twice. reflexivity.
Qed.

Lemma fetched_page (R : Runtime) (w : world) (p : nat) (o : proxy) (items : list pyval) :
  nth_error (proxies w) p = Some o ->
  _collection o = VList items ->
  fetch_collection R p w = (w, Ok tt).
Proof.
  intros Hp Hc. unfold fetch_collection.
  rewrite (bind_ok _ _ _ _ _ (get_proxy_ok w p o Hp)), Hc. reflexivity.
Qed.

Lemma list_proxy_of_list (w : world) (p : nat) (o : proxy) (e : exn) :
  nth_error (proxies w) p = Some o ->
  p_cls o = ListLinkProxy_cls ->
  list_proxy_of (Relation p) e w = (w, Ok p).
Proof.
  intros Hp Hcls. unfold list_proxy_of.
  rewrite (bind_ok _ _ _ _ _ (get_proxy_ok w p o Hp)), Hcls. reflexivity.
Qed.

Lemma slice_size_fetched (R : Runtime) (w : world) (p : nat) (o : proxy) (items : list pyval) :
  nth_error (proxies w) p = Some o ->
  p_cls o = ListLinkProxy_cls ->
  _collection o = VList items ->
  member_slice_size R (Relation p) w = (w, Ok (Z.of_nat (List.length items))).
Proof.
  intros Hp Hcls Hc. unfold member_slice_size.
  rewrite (bind_ok _ _ _ _ _ (list_proxy_of_list w p o _ Hp Hcls)).
  unfold slice_size.
  rewrite (bind_ok _ _ _ _ _ (fetched_page R w p o items Hp Hc)).
  rewrite (bind_ok _ _ _ _ _ (get_proxy_ok w p o Hp)), Hc. reflexivity.
Qed.

Lemma getitem_fetched (R : Runtime) (w : world) (p : nat) (o : proxy)
      (items : list pyval) (c : client) (k : Z) (item : pyval) :
  nth_error (proxies w) p = Some o ->
  p_cls o = ListLinkProxy_cls ->
  _collection o = VList items ->
  binding_client (_binding o) w = (w, Ok c) ->
  recursion_limit R <> 0 ->
  (0 <= k <= _total o)%Z ->
  nth_error items (Z.to_nat k) = Some item ->
  member_getitem R (Relation p) (VInt k) w
  = (w, uri <- py_subscript item (VStr URI) ;; evaluate_ref R uri c item).
Proof.
  intros Hp Hcls Hc Hb Hfuel Hk Hnth.
  unfold member_getitem.
  rewrite (bind_ok _ _ _ _ _ (list_proxy_of_list w p o _ Hp Hcls)).
  destruct (recursion_limit R) as [|fuel]; [congruence|].
  cbn [__getitem__].
  rewrite (bind_ok _ _ _ _ _ (fetched_page R w p o items Hp Hc)).
  rewrite (bind_ok _ _ _ _ _ (get_proxy_ok w p o Hp)).
  assert (Hgt : py_gt (VInt k) (VInt (_total o)) = Ok false).
  { unfold py_gt. cbn. destruct (k >? _total o)%Z eqn:Hgt; [lia|reflexivity]. }
  rewrite (bind_ok _ _ w w false); [|unfold lift; rewrite Hgt; reflexivity].
  rewrite Hc.
  rewrite (bind_ok _ _ w w item);
    [|unfold lift; cbn [py_subscript]; rewrite (seq_index_nth items k item);
      [reflexivity | lia | assumption]].
  destruct (py_subscript item (VStr URI)) as [uri|e] eqn:Huri.
  - rewrite (bind_ok _ _ w w uri); [|reflexivity].
    rewrite (bind_ok _ _ _ _ _ Hb). reflexivity.
  - rewrite (bind_raise _ _ w w e); reflexivity.
Qed.

(** C4. The page iterator starts at the relation [first] of the proxy
    when the proxy has one, else at the proxy itself, with its cursor at
    zero.  While the cursor is inside the fetched page, [__next__] returns
    the element under the cursor and advances the cursor, sending no
    request; when the page is exhausted it moves to the relation [next],
    sets the cursor to zero and reads element 0 there; without a [next]
    relation it raises [StopIteration].  On the server of 25 items, ten
    to a page, the whole iteration yields the 25 items in order with
    three requests, for pages 1, 2 and 3. *)
Theorem page_iterator_steps (R : Runtime) (w : world) (it p : nat) (i : iterator)
        (o : proxy) (items : list pyval) (c : client) :
  nth_error (iterators w) it = Some i ->
  _slice_link i = Relation p ->
  nth_error (proxies w) p = Some o ->
  p_cls o = ListLinkProxy_cls ->
  _collection o = VList items ->
  binding_client (_binding o) w = (w, Ok c) ->
  recursion_limit R <> 0 ->
  (0 <= pointer i)%Z ->
  (Z.of_nat (List.length items) <= _total o)%Z ->
  (forall l ol,
      nth_error (proxies w) l = Some ol ->
      ListLinkIterator_init R l w
      = (let slice_link := match dict_get (p_members ol) "first" with
                           | Some m => m
                           | None => Relation l
                           end in
         let* n := member_len R slice_link in
         alloc_iterator {| _slice_link := slice_link; pointer := 0; total := n |}) w)
  /\ (forall item,
         nth_error items (Z.to_nat (pointer i)) = Some item ->
         __next__ R it w
         = match (uri <- py_subscript item (VStr URI) ;; evaluate_ref R uri c item) with
           | Ok e => (put_iterator it (set_pointer (pointer i + 1) i) w, Ok e)
           | Raise ex => (w, Raise ex)
           end)
  /\ (forall m,
         (pointer i >= Z.of_nat (List.length items))%Z ->
         dict_get (p_members o) "next" = Some m ->
         __next__ R it w
         = (let* r := member_getitem R m (VInt 0) in
            modify_iterator it (fun i => set_pointer (pointer i + 1) i) ;;;
            ret r)
             (put_iterator it {| _slice_link := m; pointer := 0; total := total i |} w))
  /\ ((pointer i >= Z.of_nat (List.length items))%Z ->
      dict_get (p_members o) "next" = None ->
      __next__ R it w = (w, Raise StopIteration))
  /\ (snd (run iterate_all)
      = Ok (map (fun k => VStr ("/item/" ++ str_of_Z (Z.of_nat k))%string) (seq 1 25))
      /\ map requested_page (requests (fst (run iterate_all))) = [1; 2; 3]).
Proof.
  intros Hit Hslice Hp Hcls Hc Hb Hfuel Hpos Htotal.
  pose proof (slice_size_fetched R w p o items Hp Hcls Hc) as Hsize.
  split; [|split; [|split; [|split; [|split; vm_compute; reflexivity]]]].
  - intros l ol Hl. unfold ListLinkIterator_init, member_attr.
    rewrite (bind_ok _ _ w w (dict_get (p_members ol) "first"));
      [reflexivity|].
    rewrite (bind_ok _ _ _ _ _ (get_proxy_ok w l ol Hl)). reflexivity.
  - intros item Hnth.
    assert (Hlt : (pointer i < Z.of_nat (List.length items))%Z).
    { assert (Z.to_nat (pointer i) < List.length items)%nat
        by (apply nth_error_Some; congruence). lia. }
    unfold __next__.
    rewrite (bind_ok _ _ _ _ _ (get_iterator_ok w it i Hit)), Hslice.
    rewrite (bind_ok _ _ _ _ _ Hsize).
    destruct (pointer i >=? Z.of_nat (List.length items))%Z eqn:Hge; [lia|].
    rewrite (bind_ok _ _ w w tt); [|reflexivity].
    rewrite (bind_ok _ _ _ _ _ (get_iterator_ok w it i Hit)), Hslice.
    pose proof (getitem_fetched R w p o items c (pointer i) item Hp Hcls Hc Hb Hfuel
                                ltac:(lia) Hnth) as Hget.
    destruct (uri <- py_subscript item (VStr URI) ;; evaluate_ref R uri c item)
      as [e|ex].
    + rewrite (bind_ok _ _ _ _ _ Hget).
      rewrite (bind_ok _ _ _ _ _ (modify_iterator_at w it _ i Hit)). reflexivity.
    + rewrite (bind_raise _ _ _ _ _ Hget). reflexivity.
  - intros m Hge Hnext.
    unfold __next__.
    rewrite (bind_ok _ _ _ _ _ (get_iterator_ok w it i Hit)), Hslice.
    rewrite (bind_ok _ _ _ _ _ Hsize).
    destruct (pointer i >=? Z.of_nat (List.length items))%Z eqn:Hge'; [|lia].
    set (j := {| _slice_link := m; pointer := 0; total := total i |}).
    assert (Hswitch :
              (let* next := member_attr (Relation p) "next" in
               match next with
               | Some m0 => modify_iterator it (set_slice_link m0) ;;;
                            modify_iterator it (set_pointer 0)
               | None => raise StopIteration
               end) w = (put_iterator it j w, Ok tt)).
    { unfold member_attr.
      rewrite (bind_ok _ _ w w (Some m));
        [|rewrite (bind_ok _ _ _ _ _ (get_proxy_ok w p o Hp)), Hnext; reflexivity].
      rewrite (bind_ok _ _ _ _ _ (modify_iterator_at w it _ i Hit)).
      rewrite (modify_iterator_at _ it _ _ (get_put_iterator w it i _ Hit)).
      rewrite put_put_iterator. reflexivity. }
    rewrite (bind_ok _ _ _ _ _ Hswitch).
    rewrite (bind_ok _ _ _ _ _ (get_iterator_ok _ it j (get_put_iterator w it i j Hit))).
    reflexivity.
  - intros Hge Hnext.
    unfold __next__.
    rewrite (bind_ok _ _ _ _ _ (get_iterator_ok w it i Hit)), Hslice.
    rewrite (bind_ok _ _ _ _ _ Hsize).
    destruct (pointer i >=? Z.of_nat (List.length items))%Z eqn:Hge'; [|lia].
    unfold member_attr.
    rewrite (bind_raise _ _ w w StopIteration); [reflexivity|].
    rewrite (bind_ok _ _ w w None); [reflexivity|].
    rewrite (bind_ok _ _ _ _ _ (get_proxy_ok w p o Hp)), Hnext. reflexivity.
Qed.

Lemma page_iterator_steps_witness :
  __next__ R0 0 iterating
  = (put_iterator 0 {| _slice_link := Relation 0; pointer := 1; total := 25 |} iterating,
     Ok (VStr "/item/1")).
Proof.
  assert (H1 : nth_error (iterators iterating) 0
               = Some {| _slice_link := Relation 0; pointer := 0; total := 25 |})
    by (vm_compute; reflexivity).
  assert (H3 : nth_error (proxies iterating) 0 = Some (proxy_at iterating 0))
    by (vm_compute; reflexivity).
  assert (H4 : p_cls (proxy_at iterating 0) = ListLinkProxy_cls)
    by (vm_compute; reflexivity).
  assert (H5 : _collection (proxy_at iterating 0) = VList (page_items 1))
    by (vm_compute; reflexivity).
  assert (H6 : binding_client (_binding (proxy_at iterating 0)) iterating
               = (iterating, Ok (rt_client item_type))).
  { assert (Hb : _binding (proxy_at iterating 0) = BType item_type)
      by (vm_compute; reflexivity).
    rewrite Hb. reflexivity. }
  assert (Hfuel : recursion_limit R0 <> 0) by discriminate.
  assert (Htotal : (Z.of_nat (List.length (page_items 1)) <= _total (proxy_at iterating 0))%Z)
    by (vm_compute; discriminate).
  assert (Hitem : nth_error (page_items 1) (Z.to_nat 0) = Some (item 1))
    by (vm_compute; reflexivity).
  destruct (page_iterator_steps R0 iterating 0 0 _ _ _ _ H1 eq_refl H3 H4 H5 H6 Hfuel
                                ltac:(cbn; lia) Htotal) as [_ [Hyield _]].
  exact (Hyield (item 1) Hitem).
Defined.

(** ** Resources *)

Lemma get_resource_ok (w : world) (r : nat) (o : resource) :
  nth_error (resources w) r = Some o -> get_resource r w = (w, Ok o).
Proof. intros H. unfold get_resource. rewrite H. reflexivity. Qed.

Lemma get_self_ok (w : world) (r : nat) (o : resource) :
  nth_error (resources w) r = Some o -> well_named (r_type o) = true ->
  get_self r w = (w, Ok o).
Proof.
  intros H Hn. unfold get_self.
  rewrite (bind_ok _ _ _ _ _ (get_resource_ok w r o H)), Hn. reflexivity.
Qed.

Lemma modify_resource_at (w : world) (r : nat) (f : resource -> resource) (o : resource) :
  nth_error (resources w) r = Some o ->
  modify_resource r f w = (put_resource r (f o) w, Ok tt).
Proof.
  intros H. unfold put_resource, modify_resource. cbn [fst].
  rewrite (update_nth_at r f (fun _ => f o) (resources w) o H eq_refl). reflexivity.
Qed.

Lemma get_put_resource (w : world) (r : nat) (o o' : resource) :
  nth_error (resources w) r = Some o ->
  nth_error (resources (put_resource r o' w)) r = Some o'.
Proof.
  intros H. unfold put_resource, modify_resource. cbn [fst resources].
  apply (nth_error_update_nth r (fun _ => o') (resources w) o H).
Qed.

Lemma put_put_resource (w : world) (r : nat) (o o' : resource) :
  put_resource r o' (put_resource r o w) = put_resource r o' w.
Proof.
  unfold put_resource, modify_resource.
  cbn [fst iterators proxies dicts resources requests].
  rewrite update_nth_twice. reflexivity.
Qed.

Lemma instance_loaded (R : Runtime) (G : nat -> string -> M dynval) (w : world)
      (self : nat) (o : resource) :
  nth_error (resources w) self = Some o -> well_named (r_type o) = true ->
  is_none (_instance o) = false ->
  instance R G self w = (w, Ok (_instance o)).
Proof.
  intros Ho Hn Hi. unfold instance.
  rewrite (bind_ok _ _ _ _ _ (get_self_ok w self o Ho Hn)), Hi.
  rewrite (bind_ok _ _ w w tt); [|reflexivity].
  rewrite (bind_ok _ _ _ _ _ (get_self_ok w self o Ho Hn)). reflexivity.
Qed.

Lemma instance_fetched (R : Runtime) (w w1 : world) (self : nat) (o : resource) (v : pyval) :
  nth_error (resources w) self = Some o -> well_named (r_type o) = true ->
  _instance o = VNone ->
  (let* f := getattr R self "self" in call R f [] []) w = (w1, Ok v) ->
  nth_error (resources w1) self = Some o ->
  instance R (getattr R) self w = (put_resource self (set_instance v o) w1, Ok v).
Proof.
  intros Ho Hn Hi Hfetch Ho1. unfold instance.
  rewrite (bind_ok _ _ _ _ _ (get_self_ok w self o Ho Hn)), Hi. cbn [is_none].
  assert (He : _ensure_instance R (getattr R) self w
               = (put_resource self (set_instance v o) w1, Ok tt)).
  { unfold _ensure_instance.
    rewrite (bind_ok _ _ _ _ _ (get_self_ok w self o Ho Hn)), Hi. cbn [is_none].
    unfold bind in Hfetch |- *.
    destruct (getattr R self "self" w) as [w0 [f|e]]; [|discriminate].
    rewrite Hfetch. apply (modify_resource_at w1 self _ o Ho1). }
  rewrite (bind_ok _ _ _ _ _ He).
  rewrite (bind_ok _ _ _ _ _ (get_self_ok _ self (set_instance v o)
                                          (get_put_resource w1 self o _ Ho1) Hn)).
  reflexivity.
Qed.

Lemma get_property_from (R : Runtime) (w w1 : world) (self : nat) (name : string)
      (o : resource) (a : attr) (d : list (string * pyval)) (raw : pyval) :
  nth_error (resources w) self = Some o -> well_named (r_type o) = true ->
  dict_get (rt_attributes (r_type o)) name = Some a ->
  raw_value d name a = Ok raw ->
  instance R (getattr R) self w = (w1, Ok (VDict d)) ->
  nth_error (resources w1) self = Some (set_instance (VDict d) o) ->
  _get_property R (getattr R) name self w
  = (put_resource self (set_instance (VDict (dict_set d name raw)) o) w1,
     resolve R a raw (rt_client (r_type o))).
Proof.
  intros Ho Hn Ha Hraw Hinst Ho1. unfold _get_property.
  rewrite (bind_ok _ _ _ _ _ (get_self_ok w self o Ho Hn)).
  rewrite (bind_ok _ _ w w a); [|unfold lift, class_attribute; rewrite Ha; reflexivity].
  rewrite (bind_ok _ _ _ _ _ Hinst).
  rewrite (bind_ok _ _ w1 w1 (match dict_get d name with Some v => v | None => VNone end));
    [|reflexivity].
  rewrite (bind_ok _ _ w1 w1 raw).
  2:{ unfold raw_value in Hraw. destruct (dict_get d name) as [x|]; cbn [is_none].
      - destruct (is_none x); [unfold lift; rewrite Hraw|inversion Hraw]; reflexivity.
      - unfold lift. rewrite Hraw. reflexivity. }
  rewrite (bind_ok _ _ _ _ _ (get_self_ok w1 self _ Ho1 Hn)).
  cbn [_instance set_instance].
  rewrite (bind_ok _ _ w1 w1 (VDict (dict_set d name raw))); [|reflexivity].
  rewrite (bind_ok _ _ _ _ _ (modify_resource_at w1 self _ _ Ho1)).
  unfold lift. reflexivity.
Qed.

(** C7 (amended). The getter of a declared property makes sure the raw
    data is loaded, fetching it through the link [self] when it is absent;
    it reads the raw field, taking the attribute's empty value when the
    field is missing or null; it writes that raw value, not the resolved
    one, back into the raw data; and it returns the attribute's resolved
    value. *)
Theorem get_property_caches_raw (R : Runtime) (w w1 : world) (self : nat) (name : string)
        (o : resource) (a : attr) (d : list (string * pyval)) (raw : pyval) :
  nth_error (resources w) self = Some o ->
  well_named (r_type o) = true ->
  dict_get (rt_attributes (r_type o)) name = Some a ->
  raw_value d name a = Ok raw ->
  (_instance o = VDict d ->
   _get_property R (getattr R) name self w
   = (put_resource self (set_instance (VDict (dict_set d name raw)) o) w,
      resolve R a raw (rt_client (r_type o))))
  /\ (_instance o = VNone ->
      (let* f := getattr R self "self" in call R f [] []) w = (w1, Ok (VDict d)) ->
      nth_error (resources w1) self = Some o ->
      _get_property R (getattr R) name self w
      = (put_resource self (set_instance (VDict (dict_set d name raw)) o) w1,
         resolve R a raw (rt_client (r_type o)))).
Proof.
  intros Ho Hn Ha Hraw. split.
  - intros Hi.
    assert (Hset : set_instance (VDict d) o = o) by (rewrite <- Hi; destruct o; reflexivity).
    apply (get_property_from R w w self name o a d raw Ho Hn Ha Hraw).
    + rewrite (instance_loaded R (getattr R) w self o Ho Hn) by (rewrite Hi; reflexivity). rewrite Hi.
      reflexivity.
    + rewrite Hset. exact Ho.
  - intros Hi Hfetch Ho1.
    rewrite (get_property_from R w (put_resource self (set_instance (VDict d) o) w1)
                               self name o a d raw Ho Hn Ha Hraw).
    + rewrite put_put_resource. reflexivity.
    + apply (instance_fetched R w w1 self o (VDict d) Ho Hn Hi Hfetch Ho1).
    + apply (get_put_resource w1 self o _ Ho1).
Qed.

Lemma get_property_caches_raw_witness :
  _get_property R0 (getattr R0) "owner" 0 unloaded
  = (put_resource 0 (set_instance (VDict (dict_set (the [] (py_items stored_item)) "owner"
                                                   (VDict [(REF, VStr "/user/1")])))
                                  (resource_at unloaded 0))
                  fetched,
     resolve R0 (attribute owner_schema) (VDict [(REF, VStr "/user/1")])
             (rt_client item_type)).
Proof.
  assert (H1 : nth_error (resources unloaded) 0 = Some (resource_at unloaded 0))
    by (vm_compute; reflexivity).
  assert (H2 : well_named (r_type (resource_at unloaded 0)) = true)
    by (vm_compute; reflexivity).
  assert (H3 : dict_get (rt_attributes (r_type (resource_at unloaded 0))) "owner"
               = Some (attribute owner_schema)) by (vm_compute; reflexivity).
  assert (H4 : raw_value (the [] (py_items stored_item)) "owner" (attribute owner_schema)
               = Ok (VDict [(REF, VStr "/user/1")])) by (vm_compute; reflexivity).
  assert (H5 : _instance (resource_at unloaded 0) = VNone) by (vm_compute; reflexivity).
  assert (H6 : (let* f := getattr R0 0 "self" in call R0 f [] []) unloaded
               = (fetched, Ok (VDict (the [] (py_items stored_item)))))
    by (vm_compute; reflexivity).
  assert (H7 : nth_error (resources fetched) 0 = Some (resource_at unloaded 0))
    by (vm_compute; reflexivity).
  destruct (get_property_caches_raw R0 unloaded fetched 0 "owner" (resource_at unloaded 0)
                                    (attribute owner_schema) (the [] (py_items stored_item))
                                    (VDict [(REF, VStr "/user/1")]) H1 H2 H3 H4)
    as [_ Hlazy].
  exact (Hlazy H5 H6 H7).
Defined.

(** C7 as stated fails: the getter of [owner] returns the resolved
    object, while the raw data keeps the reference it was resolved from. *)
Lemma getter_caches_raw_not_resolved :
  snd (run read_owner) = Ok (VObject 0)
  /\ map (fun o => py_get (_instance o) "owner" VNone) (resources (fst (run read_owner)))
     = [Ok (VDict [(REF, VStr "/user/1")])]
  /\ VDict [(REF, VStr "/user/1")] <> VObject 0.
Proof. split; [|split]; [vm_compute; reflexivity | vm_compute; reflexivity | discriminate]. Qed.

Lemma dict_get_set {V} (d : list (string * V)) (k k' : string) (v : V) :
  dict_get (dict_set d k v) k' = if String.eqb k' k then Some v else dict_get d k'.
Proof.
  induction d as [|[k0 v0] t IH]; cbn.
  - reflexivity.
  - destruct (String.eqb k k0) eqn:Hk; cbn.
    + apply String.eqb_eq in Hk. subst k0.
      destruct (String.eqb k' k); reflexivity.
    + rewrite IH. destruct (String.eqb k' k0) eqn:Hk0; [|reflexivity].
      apply String.eqb_eq in Hk0. subst k0.
      destruct (String.eqb k' k) eqn:Hk'; [|reflexivity].
      apply String.eqb_eq in Hk'. subst. rewrite String.eqb_refl in Hk. discriminate.
Qed.





Lemma nth_error_last {A} (l : list A) (x : A) :
  nth_error (l ++ [x]) (List.length l) = Some x.
Proof. rewrite nth_error_app2, Nat.sub_diag by lia. reflexivity. Qed.

Lemma update_nth_same {A} (n : nat) (f : A -> A) (l : list A) (x : A) :
  nth_error l n = Some x -> f x = x -> update_nth n f l = l.
Proof.
  unfold update_nth. revert n. induction l as [|y t IH]; intros [|n] Hn Hf; cbn in *;
    try reflexivity; try discriminate.
  - inversion Hn; subst. rewrite Hf. reflexivity.
  - rewrite (IH n Hn Hf). reflexivity.
Qed.




Lemma Resource_id_known (R : Runtime) (w : world) (self : nat) (o : resource) :
  nth_error (resources w) self = Some o -> well_named (r_type o) = true ->
  is_none (_id o) = false ->
  Resource_id R self w = (w, Ok (_id o)).
Proof.
  intros Ho Hn Hid. unfold Resource_id.
  rewrite (bind_ok _ _ _ _ _ (get_self_ok w self o Ho Hn)), Hid.
  rewrite (bind_ok _ _ w w tt); [|reflexivity].
  rewrite (bind_ok _ _ _ _ _ (get_self_ok w self o Ho Hn)). reflexivity.
Qed.


Lemma getattr_unfold (R : Runtime) (self : nat) (name : string) :
  recursion_limit R <> 0 ->
  getattr R self name
  = lookup R (getattr_ R (Nat.pred (recursion_limit R))) self name.
Proof.
  intros Hfuel. unfold getattr. destruct (recursion_limit R); [congruence|reflexivity].
Qed.








(** ** Relations of a list page *)

Lemma nth_error_update_nth_other {A} (n m : nat) (f : A -> A) (l : list A) :
  n <> m -> nth_error (update_nth n f l) m = nth_error l m.
Proof.
  unfold update_nth. revert n m. induction l as [|y t IH]; intros [|n] [|m] Hnm; cbn;
    try reflexivity; try congruence.
  apply IH. congruence.
Qed.

Lemma length_update_nth {A} (n : nat) (f : A -> A) (l : list A) :
  List.length (update_nth n f l) = List.length l.
Proof.
  unfold update_nth. revert n. induction l as [|y t IH]; intros [|n]; cbn;
    try reflexivity. rewrite IH. reflexivity.
Qed.

Lemma wrote_members_refl (self d : nat) (w : world) : wrote_members self d w w.
Proof.
  repeat split; auto. intros o Ho. exists (p_members o).
  rewrite Ho. destruct o; reflexivity.
Qed.

Lemma wrote_members_trans (self d : nat) (w1 w2 w3 : world) :
  wrote_members self d w1 w2 -> wrote_members self d w2 w3 -> wrote_members self d w1 w3.
Proof.
  intros [Hl1 [Ho1 [Hs1 [Hd1 He1]]]] [Hl2 [Ho2 [Hs2 [Hd2 He2]]]].
  repeat split.
  - congruence.
  - intros i Hi. rewrite Ho2, Ho1; auto.
  - intros o Ho. destruct (Hs1 o Ho) as [m Hm]. destruct (Hs2 _ Hm) as [m' Hm'].
    exists m'. rewrite Hm'. destruct o; reflexivity.
  - congruence.
  - intros i Hi. rewrite He2, He1; auto.
Qed.

Lemma modify_dict_wrote (self d : nat) (f : list (string * attr) -> list (string * attr))
      (w : world) :
  wrote_members self d w (fst (modify_dict d f w)).
Proof.
  unfold wrote_members, modify_dict. cbn [fst proxies dicts].
  repeat split; auto.
  - intros o Ho. exists (p_members o). rewrite Ho. destruct o; reflexivity.
  - apply length_update_nth.
  - intros i Hi. apply nth_error_update_nth_other. congruence.
Qed.

Lemma proxy_setattr_ok (self : nat) (name : string) (m : member) (w : world) :
  reserved_name name = false ->
  proxy_setattr self name m w
  = (fst (modify_proxy self (fun o => set_members (dict_set (p_members o) name m) o) w),
     Ok tt).
Proof. intros H. unfold proxy_setattr. rewrite H. reflexivity. Qed.

Lemma setattr_wrote (self d : nat) (name : string) (m : member) (w : world) :
  wrote_members self d w
    (fst (modify_proxy self (fun o => set_members (dict_set (p_members o) name m) o) w)).
Proof.
  unfold wrote_members, modify_proxy. cbn [fst proxies dicts].
  repeat split; auto.
  - apply length_update_nth.
  - intros i Hi. apply nth_error_update_nth_other. congruence.
  - intros o Ho. exists (dict_set (p_members o) name m).
    apply (nth_error_update_nth self
             (fun o => set_members (dict_set (p_members o) name m) o) _ o Ho).
Qed.







(** *** Discovering relations *)

Lemma put_proxy_at (w : world) (p : nat) (f : proxy -> proxy) (o : proxy) :
  nth_error (proxies w) p = Some o ->
  modify_proxy p f w = (put_proxy p (f o) w, Ok tt).
Proof.
  intros H. unfold put_proxy, modify_proxy. cbn [fst].
  rewrite (update_nth_at p f (fun _ => f o) (proxies w) o H eq_refl). reflexivity.
Qed.

Lemma get_put_proxy (w : world) (p : nat) (o o' : proxy) :
  nth_error (proxies w) p = Some o ->
  nth_error (proxies (put_proxy p o' w)) p = Some o'.
Proof.
  intros H. unfold put_proxy, modify_proxy. cbn [fst proxies].
  apply (nth_error_update_nth p (fun _ => o') (proxies w) o H).
Qed.

Lemma put_put_proxy (w : world) (p : nat) (o o' : proxy) :
  put_proxy p o' (put_proxy p o w) = put_proxy p o' w.
Proof.
  unfold put_proxy, modify_proxy.
  cbn [fst iterators proxies dicts resources requests].
  rewrite update_nth_twice. reflexivity.
Qed.













(** With the count header and a response whose [links] are computed at
    each access, [pop] removes nothing and [self] is exposed as well. *)
Lemma handler_exposes_self :
  map (fun o => dict_get (p_members o) "self") (proxies (fst (run handle_counted)))
  = [Some (Relation 1); None; None; None].
Proof. vm_compute. reflexivity. Qed.

(** * Further properties *)

(** ** The type set of a union *)

Lemma pytype_eqb_eq (a b : pytype) : pytype_eqb a b = true <-> a = b.
Proof. destruct a, b; cbn; split; intros H; try reflexivity; try discriminate. Qed.

Lemma type_in_In (t : pytype) (ts : list pytype) : type_in t ts = true <-> In t ts.
Proof.
  unfold type_in. rewrite existsb_exists. split.
  - intros [x [Hx Heq]]. apply pytype_eqb_eq in Heq. subst. exact Hx.
  - intros H. exists t. split; [exact H|]. apply pytype_eqb_eq. reflexivity.
Qed.

Lemma unique_types_spec (all_types : list pytype) :
  forall seen,
    NoDup (unique_types seen all_types)
    /\ (forall t, In t (unique_types seen all_types) <-> In t all_types /\ ~ In t seen).
Proof.
  induction all_types as [|x rest IH]; intros seen; cbn [unique_types].
  - split; [constructor|]. intros t. cbn. tauto.
  - destruct (type_in x seen) eqn:Hx.
    + apply type_in_In in Hx. destruct (IH seen) as [Hnd Hin]. split; [exact Hnd|].
      intros t. rewrite Hin. cbn. split; [tauto|].
      intros [[Heq|Hr] Hn]; [subst; contradiction|tauto].
    + assert (Hx' : ~ In x seen) by (rewrite <- type_in_In, Hx; discriminate).
      destruct (IH (x :: seen)) as [Hnd Hin]. split.
      * constructor; [|exact Hnd]. rewrite Hin. cbn. tauto.
      * intros t. cbn [In]. rewrite Hin. cbn [In]. split.
        -- intros [Heq|[Hr Hn]]; [subst; tauto|tauto].
        -- intros [[Heq|Hr] Hn]; [tauto|].
           destruct (pytype_eqb x t) eqn:Heq.
           ++ apply pytype_eqb_eq in Heq. tauto.
           ++ right. split; [exact Hr|]. intros [Hxt|Hs]; [|tauto].
              subst. rewrite (proj2 (pytype_eqb_eq t t) eq_refl) in Heq. discriminate.
Qed.

Lemma mapM_ok {A B} (f : A -> result B) (l : list A) (ys : list B) :
  mapM f l = Ok ys -> Forall2 (fun x y => f x = Ok y) l ys.
Proof.
  revert ys. induction l as [|x t IH]; intros ys H; cbn in H.
  - inversion H. constructor.
  - destruct (f x) as [y|e] eqn:Hx; cbn in H; [|discriminate].
    destruct (mapM f t) as [ys'|e] eqn:Ht; cbn in H; [|discriminate].
    inversion H; subst. constructor; [exact Hx|]. apply IH. reflexivity.
Qed.

Lemma types_eq (a : attr) :
  types a =
  match cls a with
  | OneOf_cls =>
      per_attr <- mapM (fun ka => types (snd ka)) (_attributes a) ;;
      Ok (unique_types [] (List.concat per_attr))
  | _ =>
      t <- py_get (definition a) TYPE (VStr "object") ;;
      type_for t
  end.
Proof. destruct a; reflexivity. Qed.

Lemma Forall2_in_r {A B} (P : A -> B -> Prop) (l : list A) (l' : list B) (y : B) :
  Forall2 P l l' -> In y l' -> exists x, In x l /\ P x y.
Proof.
  induction 1 as [|x0 y0 l l' Hxy Hrest IH]; intros Hin; [destruct Hin|].
  destruct Hin as [Heq|Hin].
  - subst. exists x0. cbn. auto.
  - destruct (IH Hin) as [x [Hx Hp]]. exists x. cbn. auto.
Qed.

Lemma Forall2_in_l {A B} (P : A -> B -> Prop) (l : list A) (l' : list B) (x : A) :
  Forall2 P l l' -> In x l -> exists y, In y l' /\ P x y.
Proof.
  induction 1 as [|x0 y0 l l' Hxy Hrest IH]; intros Hin; [destruct Hin|].
  destruct Hin as [Heq|Hin].
  - subst. exists y0. cbn. auto.
  - destruct (IH Hin) as [y [Hy Hp]]. exists y. cbn. auto.
Qed.

(** X1. The type set of a union has no duplicates, and holds exactly
    the types of its variants. *)
Theorem OneOf_types_unique (a : attr) (ts : list pytype) :
  cls a = OneOf_cls ->
  types a = Ok ts ->
  NoDup ts
  /\ forall t, In t ts <->
               exists ka vts, In ka (_attributes a) /\ types (snd ka) = Ok vts /\ In t vts.
Proof.
  intros Hcls Hts. rewrite types_eq, Hcls in Hts.
  destruct (mapM (fun ka => types (snd ka)) (_attributes a)) as [per|e] eqn:Hper;
    cbn [rbind] in Hts; [|discriminate].
  inversion Hts; subst ts; clear Hts.
  destruct (unique_types_spec (List.concat per) []) as [Hnd Hin].
  split; [exact Hnd|]. intros t. rewrite Hin.
  apply mapM_ok in Hper. split.
  - intros [Ht _]. apply in_concat in Ht. destruct Ht as [vts [Hv Ht]].
    destruct (Forall2_in_r _ _ _ _ Hper Hv) as [ka [Hka Hty]].
    exists ka, vts. auto.
  - intros [ka [vts [Hka [Hv Ht]]]]. split; [|intros []].
    apply in_concat. destruct (Forall2_in_l _ _ _ _ Hper Hka) as [y [Hy Hty]].
    exists y. split; [exact Hy|]. congruence.
Qed.

Lemma OneOf_types_unique_witness :
  NoDup [TStr; TInt]
  /\ forall t, In t [TStr; TInt] <->
               exists ka vts, In ka (_attributes (attribute string_or_integer_schema))
                              /\ types (snd ka) = Ok vts /\ In t vts.
Proof.
  apply (OneOf_types_unique (attribute string_or_integer_schema) [TStr; TInt]);
    vm_compute; reflexivity.
Defined.

(** ** Unions: every variant fails *)

Lemma OneOf_try_none {A} (calls : list (result A)) (es acc : list exn) :
  Forall2 (fun r e => r = Raise e) calls es ->
  OneOf_try calls acc = inr (acc ++ es).
Proof.
  intros H. revert acc. induction H as [|r e calls es Hr Hrest IH]; intros acc; cbn.
  - rewrite app_nil_r. reflexivity.
  - subst r. rewrite IH, <- app_assoc. reflexivity.
Qed.

Lemma Forall2_map_l {A B C} (f : A -> B) (P : B -> C -> Prop) (l : list A) (l' : list C) :
  Forall2 (fun x y => P (f x) y) l l' -> Forall2 P (map f l) l'.
Proof. induction 1; cbn; constructor; auto. Qed.

(** X2. When every variant of a union fails on a non-null input,
    [serialize] raises the aggregate error exactly when the type set of
    the union includes null; otherwise it swallows the errors and
    returns [None]. *)
Theorem OneOf_serialize_all_fail (R : Runtime) (a : attr) (obj valid : pyval)
        (errors : list exn) (ts : list pytype) :
  cls a = OneOf_cls ->
  is_none obj = false ->
  Forall2 (fun kc e => serialize R (snd kc) obj valid = Raise e) (_attributes a) errors ->
  types a = Ok ts ->
  serialize R a obj valid
  = if type_in TNoneType ts then Raise (OneOfException errors) else Ok VNone.
Proof.
  intros Hcls Hobj Hall Hts.
  rewrite (OneOf_serialize_calls R a obj valid Hcls Hobj).
  rewrite (OneOf_try_none _ errors []).
  - unfold required. rewrite Hts. cbn [rbind app]. reflexivity.
  - apply Forall2_map_l. exact Hall.
Qed.

Lemma OneOf_serialize_all_fail_witness :
  serialize R0 (attribute integer_or_null_schema) (VList [VInt 1; VInt 2]) (VBool true)
  = Raise (OneOfException [TypeError; TypeError])
  /\ serialize R0 (attribute (VDict [(ONE_OF, VList [integer_schema;
                                                     VDict [(TYPE, VStr "number")]])]))
               (VList [VInt 1; VInt 2]) (VBool true)
     = Ok VNone.
Proof.
  split.
  - apply (OneOf_serialize_all_fail R0 (attribute integer_or_null_schema)
             (VList [VInt 1; VInt 2]) (VBool true) [TypeError; TypeError] [TInt; TNoneType]);
      try (vm_compute; reflexivity).
    repeat constructor.
  - apply (OneOf_serialize_all_fail R0 _ (VList [VInt 1; VInt 2]) (VBool true)
             [TypeError; TypeError] [TInt; TFloat]);
      try (vm_compute; reflexivity).
    repeat constructor.
Defined.

Lemma OneOf_resolve_calls (R : Runtime) (a : attr) (obj : pyval) (c : client) :
  cls a = OneOf_cls ->
  resolve R a obj c =
  match OneOf_try (map (fun ka => resolve R (snd ka) obj c) (_attributes a)) [] with
  | inl v => Ok v
  | inr errors => Raise (OneOfException errors)
  end.
Proof.
  intros Hcls. rewrite resolve_eq. cbn zeta. rewrite Hcls. unfold OneOf_resolve.
  rewrite map_map. reflexivity.
Qed.

(** X3. [resolve] of a union returns what the first variant that does
    not raise returns, without trying the later ones; when every variant
    raises, and only then, it raises the aggregate error with the causes
    of all the variants in declared order, whether the input is null or
    not. *)
Theorem OneOf_resolve_first_success (R : Runtime) (a : attr) (obj : pyval) (c : client) :
  cls a = OneOf_cls ->
  (forall pre key variant post v,
      _attributes a = pre ++ (key, variant) :: post ->
      Forall (fun kc => exists e, resolve R (snd kc) obj c = Raise e) pre ->
      resolve R variant obj c = Ok v ->
      resolve R a obj c = Ok v)
  /\ (forall errors,
         Forall2 (fun kc e => resolve R (snd kc) obj c = Raise e) (_attributes a) errors ->
         resolve R a obj c = Raise (OneOfException errors))
  /\ (forall e, resolve R a obj c = Raise e ->
                exists errors,
                  e = OneOfException errors
                  /\ Forall2 (fun kc e => resolve R (snd kc) obj c = Raise e)
                             (_attributes a) errors).
Proof.
  intros Hcls. rewrite (OneOf_resolve_calls R a obj c Hcls). split; [|split].
  - intros pre key variant post v Hattrs Hpre Hv. rewrite Hattrs, map_app. cbn [map snd].
    rewrite Hv, OneOf_try_first; [reflexivity|].
    apply Forall_map. exact Hpre.
  - intros errors Hall. rewrite (OneOf_try_none _ errors []); [reflexivity|].
    apply Forall2_map_l. exact Hall.
  - intros e He.
    destruct (OneOf_try _ []) as [v|errors] eqn:Htry; [discriminate|].
    inversion He; subst e. exists errors. split; [reflexivity|].
    destruct (OneOf_try_all _ _ _ Htry) as [es [Heq Hes]]. cbn in Heq. subst es.
    clear Htry He. revert errors Hes.
    induction (_attributes a) as [|ka t IH]; intros errors Hes; inversion Hes; subst;
      constructor; auto.
Qed.

Lemma OneOf_resolve_first_success_witness :
  resolve R0 (attribute string_or_integer_schema) (VInt 4) {| base_url := "" |}
  = Ok (VInt 4).
Proof.
  destruct (OneOf_resolve_first_success R0 (attribute string_or_integer_schema) (VInt 4)
              {| base_url := "" |} eq_refl) as [Hfirst _].
  apply (Hfirst [] (AIndex 0) (attribute string_schema)
                [(AIndex 1, attribute integer_schema)]).
  - vm_compute. reflexivity.
  - constructor.
  - vm_compute. reflexivity.
Defined.

(** ** Objects *)

Lemma serialize_keys_spec (R : Runtime) (kids : list (akey * serializer)) (obj : pyval) :
  forall (ks : list string) (value d : list (string * pyval)),
    serialize_keys R kids obj ks value = Ok d ->
    forall k x, dict_get d k = Some x ->
                dict_get value k = Some x \/ (In k ks /\ is_none x = false).
Proof.
  induction ks as [|key rest IH]; intros value d H k x Hk; cbn [serialize_keys] in H.
  - inversion H; subst. left. exact Hk.
  - match type of H with rbind ?c _ = _ => destruct c as [val|e] eqn:Hval end;
      cbn [rbind] in H; [|discriminate].
    destruct (IH _ _ H k x Hk) as [Hin|[Hin Hx]].
    + destruct (is_none val) eqn:Hnone; [left; exact Hin|].
      rewrite dict_get_set in Hin. destruct (String.eqb k key) eqn:Heq.
      * apply String.eqb_eq in Heq. inversion Hin; subst. right. cbn. auto.
      * left. exact Hin.
    + right. cbn. auto.
Qed.

Lemma attribute_names_In (kids : list (akey * serializer)) (k : string) :
  In k (attribute_names kids) <-> In (AName k) (map fst kids).
Proof.
  unfold attribute_names. rewrite in_flat_map, in_map_iff. split.
  - intros [[key s] [Hin Hk]]. cbn [fst] in Hk. destruct key as [n|n]; [|destruct Hk].
    destruct Hk as [Heq|[]]. subst. exists (AName k, s). auto.
  - intros [[key s] [Heq Hin]]. cbn [fst] in Heq. subst key.
    exists (AName k, s). cbn. auto.
Qed.

(** X4. An object attribute serializes a non-null input to a
    dictionary that holds no null value; without [additionalProperties]
    every key of the result is a declared property, and with it every key
    is a key of the input. *)
Theorem object_serialize_fields (R : Runtime) (a : attr) (obj valid v : pyval)
        (ts : list pytype) :
  cls a = AttributeMapper_cls ->
  is_none obj = false ->
  types a = Ok ts ->
  type_in TDict ts = true ->
  serialize R a obj valid = Ok v ->
  exists d,
    v = VDict d
    /\ forall k x,
      dict_get d k = Some x ->
      is_none x = false
      /\ (truthy (additional_properties a) = false ->
          In (AName k) (map fst (_attributes a)))
      /\ (truthy (additional_properties a) = true ->
          exists od, obj = VDict od /\ In k (map fst od)).
Proof.
  intros Hcls Hobj Hts Hdict Hser.
  rewrite serialize_eq in Hser. cbn zeta in Hser. rewrite Hcls in Hser.
  unfold AttributeMapper_serialize in Hser. rewrite Hobj, Hts in Hser.
  cbn [rbind] in Hser. rewrite Hdict in Hser.
  set (kids := map (fun ka => (fst ka, serialize R (snd ka))) (_attributes a)) in *.
  destruct (truthy (additional_properties a)) eqn:Hap.
  - destruct (py_keys obj) as [keys|e] eqn:Hkeys; cbn [rbind] in Hser; [|discriminate].
    destruct (serialize_keys R kids obj keys []) as [d|e] eqn:Hd; cbn [rbind] in Hser;
      [|discriminate].
    exists d. split.
    + destruct (truthy valid); [destruct (validate R _ _)|]; congruence.
    + intros k x Hk.
      destruct (serialize_keys_spec R kids obj keys [] d Hd k x Hk) as [Habs|[Hin Hx]];
        [discriminate|].
      split; [exact Hx|]. split; [discriminate|]. intros _.
      destruct obj; try discriminate. inversion Hkeys; subst. eauto.
  - cbn [rbind] in Hser.
    destruct (serialize_keys R kids obj (attribute_names kids) []) as [d|e] eqn:Hd;
      cbn [rbind] in Hser; [|discriminate].
    exists d. split.
    + destruct (truthy valid); [destruct (validate R _ _)|]; congruence.
    + intros k x Hk.
      destruct (serialize_keys_spec R kids obj _ [] d Hd k x Hk) as [Habs|[Hin Hx]];
        [discriminate|].
      split; [exact Hx|]. split; [|discriminate]. intros _.
      apply attribute_names_In in Hin. unfold kids in Hin. rewrite map_map in Hin.
      exact Hin.
Qed.

Lemma object_serialize_fields_witness :
  exists d,
    VDict [(REF, VStr "/user/1")] = VDict d
    /\ forall k x,
      dict_get d k = Some x ->
      is_none x = false
      /\ (truthy (additional_properties (attribute owner_schema)) = false ->
          In (AName k) (map fst (_attributes (attribute owner_schema))))
      /\ (truthy (additional_properties (attribute owner_schema)) = true ->
          exists od, VDict [(REF, VStr "/user/1"); ("note", VNone); ("extra", VInt 1)]
                     = VDict od /\ In k (map fst od)).
Proof.
  apply (object_serialize_fields R0 (attribute owner_schema)
           (VDict [(REF, VStr "/user/1"); ("note", VNone); ("extra", VInt 1)])
           (VBool true) (VDict [(REF, VStr "/user/1")]) [TDict]);
    vm_compute; reflexivity.
Defined.

(** ** Validation *)

Lemma mapM_length {A B} (f : A -> result B) (l : list A) (ys : list B) :
  mapM f l = Ok ys -> List.length ys = List.length l.
Proof.
  intros H. apply mapM_ok in H. induction H; cbn; congruence.
Qed.

(** X5. What a plain attribute serializes with validation on satisfies
    the validator for its schema.  A list attribute ignores its [valid]
    argument: it returns one element for each element of the input, and
    every element has been validated against the item schema whenever
    that schema is not empty, also when the caller turned validation
    off. *)
Theorem serialize_validated (R : Runtime) (a : attr) (obj valid v : pyval) :
  serialize R a obj valid = Ok v ->
  (cls a = AttributeMapper_cls -> truthy valid = true ->
   validate R v (definition a) = true)
  /\ (cls a = Items_cls -> is_none obj = false ->
      exists l l',
        obj = VList l /\ v = VList l'
        /\ List.length l' = List.length l
        /\ (truthy (definition a) = true ->
            Forall (fun x => validate R x (definition a) = true) l')).
Proof.
  intros Hser. rewrite serialize_eq in Hser. cbn zeta in Hser. split.
  - intros Hcls Hvalid. rewrite Hcls in Hser. unfold AttributeMapper_serialize in Hser.
    match type of Hser with rbind ?c _ = _ => destruct c as [value|e] end;
      cbn [rbind] in Hser; [|discriminate].
    rewrite Hvalid in Hser.
    destruct (validate R value (definition a)) eqn:Hv; [|discriminate].
    inversion Hser; subst. exact Hv.
  - intros Hcls Hobj. rewrite Hcls in Hser. unfold Items_serialize in Hser.
    rewrite Hobj in Hser. cbn [rbind andb] in Hser.
    destruct obj as [| | | | |l| | |]; try discriminate.
    set (kids := map (fun ka => (fst ka, serialize R (snd ka))) (_attributes a)) in *.
    destruct (mapM _ l) as [l'|e] eqn:Hl; cbn [rbind] in Hser; [|discriminate].
    inversion Hser; subst v. exists l, l'. split; [reflexivity|]. split; [reflexivity|].
    split; [exact (mapM_length _ _ _ Hl)|].
    intros Hdef. apply mapM_ok in Hl. clear Hser.
    clear Hobj.
    induction Hl as [|x y t t' Hxy Hrest IH]; [constructor|]. constructor; [|exact IH].
    unfold AttributeMapper_serialize in Hxy.
    match type of Hxy with rbind ?c _ = _ => destruct c as [value|e] end;
      cbn [rbind] in Hxy; [|discriminate].
    rewrite Hdef in Hxy.
    destruct (validate R value (definition a)) eqn:Hv; [|discriminate].
    inversion Hxy; subst. exact Hv.
Qed.

Lemma serialize_validated_witness :
  validate R0 (VInt 5) (definition (attribute integer_schema)) = true
  /\ exists l l',
      VList [VInt 1; VInt 2] = VList l /\ VList [VInt 1; VInt 2] = VList l'
      /\ List.length l' = List.length l
      /\ Forall (fun x => validate R0 x (definition (attribute list_of_integer_schema))
                          = true) l'.
Proof.
  assert (H1 : serialize R0 (attribute integer_schema) (VInt 5) (VBool true) = Ok (VInt 5))
    by (vm_compute; reflexivity).
  assert (H2 : serialize R0 (attribute list_of_integer_schema) (VList [VInt 1; VInt 2])
                         (VBool false) = Ok (VList [VInt 1; VInt 2]))
    by (vm_compute; reflexivity).
  split.
  - exact (proj1 (serialize_validated R0 _ _ _ _ H1) eq_refl eq_refl).
  - destruct (proj2 (serialize_validated R0 _ _ _ _ H2) eq_refl eq_refl)
      as [l [l' [Hl [Hl' [Hlen Hall]]]]].
    exists l, l'. repeat split; auto.
Defined.

(** ** Empty values *)

(** X6. The empty value of an attribute is [None], the empty
    dictionary or the empty list: the empty list for a list attribute
    only, the empty dictionary for a writable attribute of another class
    only; and it is [None] for every attribute whose type set includes
    null. *)
Theorem empty_value_range (a : attr) (v : pyval) :
  empty_value a = Ok v ->
  (v = VNone
   \/ (v = VDict [] /\ cls a <> Items_cls /\ truthy (read_only a) = false)
   \/ (v = VList [] /\ cls a = Items_cls))
  /\ (required a = Ok true -> v = VNone).
Proof.
  unfold empty_value, required, AttributeMapper_empty_value, Items_empty_value.
  intros H. destruct (cls a) eqn:Hcls.
  - destruct (truthy (read_only a)) eqn:Hro.
    + inversion H. split; [auto|reflexivity].
    + destruct (types a) as [ts|e]; cbn [rbind] in *; [|discriminate].
      destruct (type_in TNoneType ts) eqn:Hnull.
      * inversion H. split; [auto|reflexivity].
      * destruct (type_in TDict ts); inversion H; (split; [|discriminate]).
        -- right. left. repeat split. discriminate.
        -- left. reflexivity.
  - destruct (types a) as [ts|e]; cbn [rbind] in *; [|discriminate].
    destruct (type_in TNoneType ts) eqn:Hnull; inversion H.
    + split; [auto|reflexivity].
    + split; [|discriminate]. right. right. auto.
  - destruct (truthy (read_only a)) eqn:Hro.
    + inversion H. split; [auto|reflexivity].
    + destruct (types a) as [ts|e]; cbn [rbind] in *; [|discriminate].
      destruct (type_in TNoneType ts) eqn:Hnull.
      * inversion H. split; [auto|reflexivity].
      * destruct (type_in TDict ts); inversion H; (split; [|discriminate]).
        -- right. left. repeat split. discriminate.
        -- left. reflexivity.
Qed.

Lemma empty_value_range_witness :
  (VDict [] = VNone
   \/ (VDict [] = VDict [] /\ cls (attribute owner_schema) <> Items_cls
       /\ truthy (read_only (attribute owner_schema)) = false)
   \/ (VDict [] = VList [] /\ cls (attribute owner_schema) = Items_cls))
  /\ empty_value (attribute integer_or_null_schema) = Ok VNone.
Proof.
  assert (H1 : empty_value (attribute owner_schema) = Ok (VDict []))
    by (vm_compute; reflexivity).
  assert (H2 : required (attribute integer_or_null_schema) = Ok true)
    by (vm_compute; reflexivity).
  split.
  - exact (proj1 (empty_value_range _ _ H1)).
  - destruct (empty_value (attribute integer_or_null_schema)) as [v|e] eqn:Hv;
      [|vm_compute in Hv; discriminate].
    rewrite (proj2 (empty_value_range _ _ Hv) H2). reflexivity.
Defined.

(** ** Building an attribute *)

Lemma parse_definition_eq (fuel : nat) (self : attr) :
  _parse_definition (S fuel) self =
  match cls self with
  | OneOf_cls =>
      defs <- py_iter (definition self) ;;
      kids <- mapM (fun id => a <- AttributeMapper_init fuel (snd id) ;;
                              Ok (AIndex (fst id), a)) (enumerate defs) ;;
      Ok (set_attributes
            (fold_left (fun acc ka => attrs_set acc (fst ka) (snd ka)) kids (_attributes self))
            self)
  | _ =>
      has_props <- py_contains PROPERTIES (definition self) ;;
      if has_props then
        props <- py_getitem (definition self) PROPERTIES ;;
        its <- py_items props ;;
        kids <- mapM (fun np => a <- AttributeMapper_init fuel (snd np) ;;
                                Ok (AName (fst np), a)) its ;;
        Ok (set_attributes
              (fold_left (fun acc ka => attrs_set acc (fst ka) (snd ka)) kids (_attributes self))
              self)
      else
        has_items <- py_contains ITEMS (definition self) ;;
        if has_items then
          d <- py_getitem (definition self) ITEMS ;;
          _parse_definition fuel (set_class Items_cls (set_definition d self))
        else
          has_one_of <- py_contains ONE_OF (definition self) ;;
          if has_one_of then
            d <- py_getitem (definition self) ONE_OF ;;
            _parse_definition fuel (set_class OneOf_cls (set_definition d self))
          else Ok self
  end.
Proof. reflexivity. Qed.

(** [_parse_definition] keeps what [__init__] read from the fragment,
    and never turns a list or a union back into a plain attribute. *)
Lemma parse_definition_keeps (fuel : nat) :
  forall self a,
    _parse_definition fuel self = Ok a ->
    read_only a = read_only self
    /\ additional_properties a = additional_properties self
    /\ doc a = doc self
    /\ (cls self <> AttributeMapper_cls -> cls a <> AttributeMapper_cls)
    /\ (cls self = OneOf_cls -> cls a = OneOf_cls).
Proof.
  induction fuel as [|fuel IH]; intros self a H; [discriminate|].
  rewrite parse_definition_eq in H.
  assert (Hplain :
            (has_props <- py_contains PROPERTIES (definition self) ;;
             if has_props then
               props <- py_getitem (definition self) PROPERTIES ;;
               its <- py_items props ;;
               kids <- mapM (fun np => a <- AttributeMapper_init fuel (snd np) ;;
                                       Ok (AName (fst np), a)) its ;;
               Ok (set_attributes
                     (fold_left (fun acc ka => attrs_set acc (fst ka) (snd ka)) kids
                                (_attributes self)) self)
             else
               has_items <- py_contains ITEMS (definition self) ;;
               if has_items then
                 d <- py_getitem (definition self) ITEMS ;;
                 _parse_definition fuel (set_class Items_cls (set_definition d self))
               else
                 has_one_of <- py_contains ONE_OF (definition self) ;;
                 if has_one_of then
                   d <- py_getitem (definition self) ONE_OF ;;
                   _parse_definition fuel (set_class OneOf_cls (set_definition d self))
                 else Ok self) = Ok a ->
            cls self <> OneOf_cls ->
            read_only a = read_only self
            /\ additional_properties a = additional_properties self
            /\ doc a = doc self
            /\ (cls self <> AttributeMapper_cls -> cls a <> AttributeMapper_cls)
            /\ (cls self = OneOf_cls -> cls a = OneOf_cls)).
  { clear H. intros H Hno.
    destruct (py_contains PROPERTIES (definition self)) as [[|]|e]; cbn [rbind] in H;
      [| |discriminate].
    - destruct (py_getitem (definition self) PROPERTIES) as [props|e]; cbn [rbind] in H;
        [|discriminate].
      destruct (py_items props) as [its|e]; cbn [rbind] in H; [|discriminate].
      destruct (mapM _ its) as [kids|e]; cbn [rbind] in H; [|discriminate].
      inversion H; subst a. cbn. repeat split; auto.
    - destruct (py_contains ITEMS (definition self)) as [[|]|e]; cbn [rbind] in H;
        [| |discriminate].
      + destruct (py_getitem (definition self) ITEMS) as [d|e]; cbn [rbind] in H;
          [|discriminate].
        destruct (IH _ _ H) as [H1 [H2 [H3 [H4 H5]]]]. cbn in *.
        repeat split; auto; try (intros _; apply H4; discriminate);
          try (intros Hc; congruence).
      + destruct (py_contains ONE_OF (definition self)) as [[|]|e]; cbn [rbind] in H;
          [| |discriminate].
        * destruct (py_getitem (definition self) ONE_OF) as [d|e]; cbn [rbind] in H;
            [|discriminate].
          destruct (IH _ _ H) as [H1 [H2 [H3 [H4 H5]]]]. cbn in *.
          repeat split; auto; try (intros _; apply H4; discriminate);
            try (intros Hc; congruence).
        * inversion H; subst. repeat split; auto. }
  destruct (cls self) eqn:Hcls.
  - apply Hplain; [exact H|discriminate].
  - apply Hplain; [exact H|discriminate].
  - destruct (py_iter (definition self)) as [defs|e]; cbn [rbind] in H; [|discriminate].
    destruct (mapM _ (enumerate defs)) as [kids|e]; cbn [rbind] in H; [|discriminate].
    inversion H; subst a. cbn. repeat split; auto. congruence.
Qed.

Lemma akey_eqb_eq (a b : akey) : akey_eqb a b = true <-> a = b.
Proof.
  destruct a as [s|n], b as [s'|n']; cbn; split; intros H; try discriminate.
  - apply String.eqb_eq in H. congruence.
  - inversion H. apply String.eqb_refl.
  - apply Nat.eqb_eq in H. congruence.
  - inversion H. apply Nat.eqb_refl.
Qed.

Lemma attrs_set_fresh {V} (l : list (akey * V)) (key : akey) (v : V) :
  ~ In key (map fst l) -> attrs_set l key v = l ++ [(key, v)].
Proof.
  induction l as [|[k v'] t IH]; intros Hfresh; cbn; [reflexivity|].
  destruct (akey_eqb key k) eqn:Heq.
  - apply akey_eqb_eq in Heq. subst. exfalso. apply Hfresh. cbn. auto.
  - rewrite IH; [reflexivity|]. intros Hin. apply Hfresh. cbn. auto.
Qed.

Lemma fold_attrs_set_fresh {V} (kids : list (akey * V)) :
  forall acc,
    NoDup (map fst acc ++ map fst kids) ->
    fold_left (fun acc ka => attrs_set acc (fst ka) (snd ka)) kids acc = acc ++ kids.
Proof.
  induction kids as [|[k v] t IH]; intros acc Hnd; cbn [fold_left fst snd].
  - rewrite app_nil_r. reflexivity.
  - cbn [map fst] in Hnd.
    rewrite attrs_set_fresh.
    + rewrite IH.
      * rewrite <- app_assoc. reflexivity.
      * rewrite map_app, <- app_assoc. exact Hnd.
    + apply NoDup_remove_2 in Hnd. intros Hin. apply Hnd. apply in_or_app. auto.
Qed.

Lemma mapM_keys {A B K} (f : A -> result B) (key : A -> K) (l : list A)
      (kids : list (K * B)) :
  mapM (fun x => a <- f x ;; Ok (key x, a)) l = Ok kids ->
  map fst kids = map key l.
Proof.
  intros H. apply mapM_ok in H. induction H as [|x y l l' Hxy Hrest IH]; [reflexivity|].
  cbn. rewrite IH. destruct (f x); cbn in Hxy; [|discriminate].
  inversion Hxy. reflexivity.
Qed.

Lemma NoDup_map_inj {A B} (f : A -> B) (l : list A) :
  (forall x y, f x = f y -> x = y) -> NoDup l -> NoDup (map f l).
Proof.
  intros Hinj. induction 1 as [|x l Hx Hnd IH]; cbn; constructor; [|exact IH].
  rewrite in_map_iff. intros [y [Heq Hy]]. apply Hinj in Heq. subst. contradiction.
Qed.

Lemma enumerate_fst {A} (l : list A) : map fst (enumerate l) = seq 0 (List.length l).
Proof.
  unfold enumerate. generalize 0. induction l as [|x t IH]; intros n; cbn; [reflexivity|].
  rewrite IH. reflexivity.
Qed.

(** X7. The class of the attribute that a schema fragment builds.
    [properties] takes precedence: the attribute stays a plain one, with
    the fragment as its definition and one child per property, in order,
    whatever else the fragment holds.  Without [properties], [items]
    makes a list or a union, never a plain attribute; without either,
    [oneOf] makes a union with one variant for each listed schema, keyed
    by position; a fragment with none of the three builds a plain
    attribute without children.  The read-only flag is the fragment's
    [readOnly], false when absent. *)
Theorem built_attribute_class (fuel : nat) (d : list (string * pyval)) (a : attr) :
  AttributeMapper_init fuel (VDict d) = Ok a ->
  read_only a = match dict_get d READ_ONLY with Some v => v | None => VBool false end
  /\ (dict_mem d PROPERTIES = true ->
      cls a = AttributeMapper_cls /\ definition a = VDict d
      /\ forall props,
        dict_get d PROPERTIES = Some (VDict props) -> NoDup (map fst props) ->
        map fst (_attributes a) = map (fun np => AName (fst np)) props)
  /\ (dict_mem d PROPERTIES = false -> dict_mem d ITEMS = true ->
      cls a <> AttributeMapper_cls)
  /\ (dict_mem d PROPERTIES = false -> dict_mem d ITEMS = false ->
      dict_mem d ONE_OF = true ->
      cls a = OneOf_cls
      /\ forall defs,
        dict_get d ONE_OF = Some (VList defs) ->
        map fst (_attributes a) = map AIndex (seq 0 (List.length defs)))
  /\ (dict_mem d PROPERTIES = false -> dict_mem d ITEMS = false ->
      dict_mem d ONE_OF = false ->
      cls a = AttributeMapper_cls /\ definition a = VDict d /\ _attributes a = []).
Proof.
  unfold AttributeMapper_init. cbn [py_get rbind]. intros H.
  split; [exact (proj1 (parse_definition_keeps _ _ _ H))|].
  destruct fuel as [|fuel]; [discriminate|].
  rewrite parse_definition_eq in H. cbn [cls definition py_contains rbind] in H.
  destruct (dict_mem d PROPERTIES) eqn:Hp.
  - split; [|repeat split; discriminate]. intros _.
    destruct (py_getitem (VDict d) PROPERTIES) as [props|e] eqn:Hprops; cbn [rbind] in H;
      [|discriminate].
    destruct (py_items props) as [its|e] eqn:Hits; cbn [rbind] in H; [|discriminate].
    destruct (mapM _ its) as [kids|e] eqn:Hkids; cbn [rbind] in H; [|discriminate].
    inversion H; subst a; clear H. cbn [cls definition _attributes set_attributes].
    split; [reflexivity|]. split; [reflexivity|]. intros props' Hget Hnd.
    cbn [py_getitem] in Hprops. rewrite Hget in Hprops. inversion Hprops; subst props.
    cbn [py_items] in Hits. inversion Hits; subst its.
    pose proof (mapM_keys _ (fun np : string * pyval => AName (fst np)) _ _ Hkids) as Hk.
    rewrite fold_attrs_set_fresh; cbn [map app]; [exact Hk|].
    rewrite Hk. rewrite <- (map_map fst AName).
    apply NoDup_map_inj; [intros x y Heq; congruence|exact Hnd].
  - split; [discriminate|].
    destruct (dict_mem d ITEMS) eqn:Hi.
    + split; [|repeat split; discriminate]. intros _ _.
      destruct (py_getitem (VDict d) ITEMS) as [d1|e]; cbn [rbind] in H; [|discriminate].
      apply parse_definition_keeps in H. apply H. discriminate.
    + split; [discriminate|].
      destruct (dict_mem d ONE_OF) eqn:Ho.
      * split; [|discriminate]. intros _ _ _.
        destruct (py_getitem (VDict d) ONE_OF) as [d1|e] eqn:Hd1; cbn [rbind] in H;
          [|discriminate].
        split; [apply parse_definition_keeps in H; apply H; reflexivity|].
        intros defs Hget. cbn [py_getitem] in Hd1. rewrite Hget in Hd1.
        inversion Hd1; subst d1.
        destruct fuel as [|fuel]; [discriminate|].
        rewrite parse_definition_eq in H. cbn [cls definition set_class set_definition] in H.
        cbn [py_iter rbind] in H.
        destruct (mapM _ (enumerate defs)) as [kids|e] eqn:Hkids; cbn [rbind] in H;
          [|discriminate].
        inversion H; subst a; clear H. cbn [_attributes set_attributes].
        pose proof (mapM_keys _ (fun id : nat * pyval => AIndex (fst id)) _ _ Hkids) as Hk.
        rewrite <- (map_map fst AIndex), enumerate_fst in Hk.
        rewrite fold_attrs_set_fresh; cbn [map app]; [exact Hk|].
        rewrite Hk. apply NoDup_map_inj; [intros x y Heq; congruence|apply seq_NoDup].
      * split; [discriminate|]. intros _ _ _. inversion H; subst a. auto.
Qed.

Lemma built_attribute_class_witness :
  cls (attribute owner_schema) = AttributeMapper_cls
  /\ definition (attribute owner_schema) = owner_schema
  /\ map fst (_attributes (attribute owner_schema)) = [AName REF].
Proof.
  assert (H : AttributeMapper_init 10 owner_schema = Ok (attribute owner_schema))
    by (vm_compute; reflexivity).
  destruct (built_attribute_class 10 _ _ H) as [_ [Hprops _]].
  destruct (Hprops eq_refl) as [Hcls [Hdef Hkids]].
  split; [exact Hcls|]. split; [exact Hdef|].
  apply (Hkids [(REF, string_schema)]); [reflexivity|].
  repeat constructor. intros [].
Defined.

(** ** URLs *)

Lemma strip_slash_slash (s : string) : strip_slash (s ++ "/") = s.
Proof.
  induction s as [|c t IH]; [reflexivity|].
  destruct t as [|c' t']; [reflexivity|].
  change (String c (strip_slash (String c' t' ++ "/")) = String c (String c' t')).
  rewrite IH. reflexivity.
Qed.

Lemma strip_slash_other (s : string) :
  (forall t, s <> (t ++ "/")%string) -> strip_slash s = s.
Proof.
  induction s as [|c t IH]; intros H; [reflexivity|].
  cbn [strip_slash]. destruct t as [|c' t'].
  - destruct (Ascii.eqb c "/") eqn:Hc; [|reflexivity].
    apply Ascii.eqb_eq in Hc. subst. exfalso. apply (H ""). reflexivity.
  - rewrite IH; [reflexivity|]. intros u Hu. apply (H (String c u)). cbn. congruence.
Qed.

(** X8. The URL of a link bound to a resource type is the base URL
    followed by the route's path, as written: a placeholder of the path
    is not expanded.  Exactly one trailing slash is removed, so a URL
    that ends with two slashes keeps one. *)
Theorem generate_url_strips_one_slash (R : Runtime) (L : Link) (t : ResourceType)
        (w : world) :
  (forall s, (base_url (rt_client t) ++ path (route L))%string = (s ++ "/")%string ->
             generate_url R L (BType t) w = (w, Ok s))
  /\ ((forall s, (base_url (rt_client t) ++ path (route L))%string <> (s ++ "/")%string) ->
      generate_url R L (BType t) w
      = (w, Ok (base_url (rt_client t) ++ path (route L))%string)).
Proof.
  split.
  - intros s Hs. unfold generate_url, binding_client. cbn. unfold ret.
    rewrite Hs, strip_slash_slash. reflexivity.
  - intros Hs. unfold generate_url, binding_client. cbn. unfold ret.
    rewrite strip_slash_other; [reflexivity|exact Hs].
Qed.

(** ** Calling a link *)

(** X9. A link whose input is an object or a scalar takes at most one
    positional argument: called with two or more, it raises
    [AttributeError] once the URL is made, and sends no request. *)
Theorem call_arity_error (R : Runtime) (L : Link) (b : binding) (ty : pytype)
        (handler : response -> M pyval) (args : list arg) (kwargs : list (string * pyval))
        (url : string) (w : world) :
  Link_input_type L = Ok (Some ty) ->
  ty <> TList -> ty <> TNoneType ->
  2 <= List.length args ->
  dict_mem kwargs "binding" || dict_mem kwargs "handler" = false ->
  generate_url R L b w = (w, Ok url) ->
  Link_call R L args b handler kwargs w = (w, Raise AttributeError).
Proof.
  intros Hty Hl Hn Hargs Hkw Hurl. unfold Link_call. rewrite Hkw.
  rewrite (bind_ok _ _ _ _ _ Hurl).
  rewrite (bind_raise _ _ w w AttributeError); [reflexivity|].
  unfold _process_args. rewrite (bind_ok _ _ w w (Some ty)); [|unfold lift; rewrite Hty; reflexivity].
  destruct args as [|a1 [|a2 rest]]; cbn in Hargs; try lia.
  destruct ty; try reflexivity; try contradiction; destruct a1; reflexivity.
Qed.

Lemma call_arity_error_witness :
  Link_call R0 create [AVal (VDict []); AVal (VDict [])] (BType item_type)
            (fun res => ret VNone) [] empty_world
  = (empty_world, Raise AttributeError).
Proof.
  apply (call_arity_error R0 create (BType item_type) TObject _ _ [] "http://host/item");
    try (vm_compute; reflexivity); try discriminate.
Defined.

(** ** The handler of a list proxy *)

(** X10. The [except KeyError] clause of the handler also catches a
    key error raised while the relations are read: when the first
    relation of a response has no URL, the total becomes the length of
    the parsed body although the count header was present and parsed. *)
Theorem handler_relation_without_url (R : Runtime) (w : world) (self : nat) (o : proxy)
        (res : response) (body : pyval) (h : string) (t n : Z) (name : string)
        (d : list (string * pyval)) (rest : list (string * pyval)) :
  nth_error (proxies w) self = Some o ->
  json res = Some body ->
  py_len body = Ok n ->
  dict_get (headers res) "X-Total-Count" = Some h ->
  py_call R TInt (VStr h) = Ok (VInt t) ->
  (if links_shared res then dict_pop (links res) "self" else links res)
  = (name, VDict d) :: rest ->
  dict_get d URL = None ->
  ListLinkProxy_handler R self res w = (put_proxy self (set_total n o) w, Ok body).
Proof.
  intros Ho Hjson Hn Hh Ht Hrel Hurl. unfold ListLinkProxy_handler.
  rewrite (bind_ok _ _ w (put_proxy self (set_total n o) w) tt);
    [unfold lift, res_json; rewrite Hjson; reflexivity|].
  unfold try_except_KeyError.
  set (w1 := put_proxy self (set_total t o) w).
  assert (Hbody :
            (let* h := lift (match dict_get (headers res) "X-Total-Count" with
                             | Some h => Ok h
                             | None => Raise KeyError
                             end) in
             let* n := lift (py_call R TInt (VStr h)) in
             let* t := match n with VInt z => ret z | _ => raise Unsupported end in
             modify_proxy self (set_total t) ;;;
             for_each (fun nl => _create_link R self (fst nl) (snd nl))
                      (if links_shared res then dict_pop (links res) "self" else links res)) w
            = (w1, Raise KeyError)).
  { rewrite (bind_ok _ _ w w h); [|unfold lift; rewrite Hh; reflexivity].
    rewrite (bind_ok _ _ w w (VInt t)); [|unfold lift; rewrite Ht; reflexivity].
    rewrite (bind_ok _ _ w w t); [|reflexivity].
    rewrite (bind_ok _ _ _ _ _ (put_proxy_at w self (set_total t) o Ho)).
    fold w1. rewrite Hrel. cbn [for_each fst snd].
    rewrite (bind_raise _ _ w1 w1 KeyError); [reflexivity|].
    unfold _create_link. rewrite (bind_raise _ _ w1 w1 KeyError); [reflexivity|].
    unfold lift. cbn [py_getitem]. rewrite Hurl. reflexivity. }
  rewrite Hbody.
  rewrite (bind_ok _ _ w1 w1 body); [|unfold lift, res_json; rewrite Hjson; reflexivity].
  rewrite (bind_ok _ _ w1 w1 n); [|unfold lift; rewrite Hn; reflexivity].
  rewrite (put_proxy_at w1 self (set_total n) (set_total t o) (get_put_proxy w self o _ Ho)).
  unfold w1. rewrite put_put_proxy. reflexivity.
Qed.

Lemma handler_relation_without_url_witness :
  ListLinkProxy_handler R0 0
    {| status_code := 200; headers := [("X-Total-Count", "25")];
       links := [("next", VDict [("rel", VStr "next")])]; links_shared := false;
       json := Some (VList (page_items 1)) |}
    listing
  = (put_proxy 0 (set_total 10 (proxy_at listing 0)) listing, Ok (VList (page_items 1))).
Proof.
  apply (handler_relation_without_url R0 listing 0 (proxy_at listing 0) _
           (VList (page_items 1)) "25" 25 10 "next" [("rel", VStr "next")] []);
    vm_compute; reflexivity.
Defined.

(** ** Indexing a list proxy *)

(** X11. Indexing a fetched list proxy at a position that does not
    exceed the total reads the fetched page only: it sends no request and
    leaves the store as it is.  A position from the length of the page up
    to the total raises [IndexError] instead of moving to another page,
    and a negative position counts from the end of the page. *)
Theorem getitem_within_total (R : Runtime) (w : world) (p : nat) (o : proxy)
        (items : list pyval) (c : client) (k : Z) (fuel : nat) :
  nth_error (proxies w) p = Some o ->
  _collection o = VList items ->
  binding_client (_binding o) w = (w, Ok c) ->
  (k <= _total o)%Z ->
  ((Z.of_nat (List.length items) <= k)%Z ->
   __getitem__ R (S fuel) p (VInt k) w = (w, Raise IndexError))
  /\ ((k < - Z.of_nat (List.length items))%Z ->
      __getitem__ R (S fuel) p (VInt k) w = (w, Raise IndexError))
  /\ (forall item,
         (- Z.of_nat (List.length items) <= k < 0)%Z ->
         nth_error items (Z.to_nat (k + Z.of_nat (List.length items))) = Some item ->
         __getitem__ R (S fuel) p (VInt k) w
         = (w, uri <- py_subscript item (VStr URI) ;; evaluate_ref R uri c item))
  /\ (forall item,
         (0 <= k)%Z ->
         nth_error items (Z.to_nat k) = Some item ->
         __getitem__ R (S fuel) p (VInt k) w
         = (w, uri <- py_subscript item (VStr URI) ;; evaluate_ref R uri c item)).
Proof.
  intros Hp Hcoll Hc Hk.
  assert (Hstep : forall r,
             py_subscript (VList items) (VInt k) = r ->
             __getitem__ R (S fuel) p (VInt k) w
             = (w, item <- r ;; uri <- py_subscript item (VStr URI) ;;
                   evaluate_ref R uri c item)).
  { intros r Hr. cbn [__getitem__].
    rewrite (bind_ok _ _ _ _ _ (fetched_page R w p o items Hp Hcoll)).
    rewrite (bind_ok _ _ _ _ _ (get_proxy_ok w p o Hp)).
    rewrite (bind_ok _ _ w w false).
    2:{ unfold lift, py_gt. cbn. f_equal. f_equal. rewrite Z.gtb_ltb.
        apply Z.ltb_ge. exact Hk. }
    rewrite Hcoll, Hr. destruct r as [item|e].
    - rewrite (bind_ok _ _ w w item); [|reflexivity].
      cbn [rbind].
      destruct (py_subscript item (VStr URI)) as [uri|e] eqn:Huri.
      + rewrite (bind_ok _ _ w w uri); [|reflexivity].
        rewrite (bind_ok _ _ _ _ _ Hc). reflexivity.
      + rewrite (bind_raise _ _ w w e); reflexivity.
    - rewrite (bind_raise _ _ w w e); reflexivity. }
  split; [|split; [|split]].
  - intros Hlen. rewrite (Hstep (Raise IndexError)); [reflexivity|].
    cbn [py_subscript]. unfold seq_index.
    destruct (k <? 0)%Z eqn:Hneg; [apply Z.ltb_lt in Hneg; lia|].
    destruct (k <? Z.of_nat (List.length items))%Z eqn:Hlt;
      [apply Z.ltb_lt in Hlt; lia|].
    rewrite andb_false_r. reflexivity.
  - intros Hlen. rewrite (Hstep (Raise IndexError)); [reflexivity|].
    cbn [py_subscript]. unfold seq_index.
    destruct (k <? 0)%Z eqn:Hneg; [|apply Z.ltb_ge in Hneg; lia].
    destruct (0 <=? k + Z.of_nat (List.length items))%Z eqn:Hle;
      [apply Z.leb_le in Hle; lia|reflexivity].
  - intros item Hrange Hitem. rewrite (Hstep (Ok item)); [reflexivity|].
    cbn [py_subscript]. unfold seq_index.
    destruct (k <? 0)%Z eqn:Hneg; [|apply Z.ltb_ge in Hneg; lia].
    rewrite Hitem.
    destruct (0 <=? k + Z.of_nat (List.length items))%Z eqn:Hle;
      [|apply Z.leb_gt in Hle; lia].
    destruct (k + Z.of_nat (List.length items) <? Z.of_nat (List.length items))%Z eqn:Hlt;
      [reflexivity|apply Z.ltb_ge in Hlt; lia].
  - intros item Hpos Hitem. rewrite (Hstep (Ok item)); [reflexivity|].
    cbn [py_subscript]. apply seq_index_nth; assumption.
Qed.

Lemma getitem_within_total_witness :
  __getitem__ R0 (S 0) 0 (VInt 10) iterating = (iterating, Raise IndexError)
  /\ __getitem__ R0 (S 0) 0 (VInt (-1)) iterating = (iterating, Ok (VStr "/item/10")).
Proof.
  assert (H1 : nth_error (proxies iterating) 0 = Some (proxy_at iterating 0))
    by (vm_compute; reflexivity).
  assert (H2 : _collection (proxy_at iterating 0) = VList (page_items 1))
    by (vm_compute; reflexivity).
  assert (H3 : binding_client (_binding (proxy_at iterating 0)) iterating
               = (iterating, Ok (rt_client item_type))).
  { assert (Hb : _binding (proxy_at iterating 0) = BType item_type)
      by (vm_compute; reflexivity).
    rewrite Hb. reflexivity. }
  split.
  - assert (H4 : (10 <= _total (proxy_at iterating 0))%Z) by (vm_compute; discriminate).
    destruct (getitem_within_total R0 iterating 0 _ _ _ 10 0 H1 H2 H3 H4) as [Hbeyond _].
    apply Hbeyond. vm_compute. discriminate.
  - assert (H4 : (-1 <= _total (proxy_at iterating 0))%Z) by (vm_compute; discriminate).
    destruct (getitem_within_total R0 iterating 0 _ _ _ (-1) 0 H1 H2 H3 H4)
      as [_ [_ [Hneg _]]].
    apply (Hneg (item 10)).
    + vm_compute. split; [discriminate|reflexivity].
    + vm_compute. reflexivity.
Defined.

(** ** The lazy fetch *)

(** X12. [len(proxy)] on a proxy that has fetched nothing calls the
    link once and keeps the body as the proxy's collection; once a list
    is kept, [len] and [slice_size] answer from the proxy and leave the
    store, with the requests sent so far, as it is. *)
Theorem len_fetches_once (R : Runtime) (w w1 : world) (p : nat) (o o1 : proxy)
        (items : list pyval) :
  nth_error (proxies w) p = Some o ->
  _collection o = VNone ->
  _resolve R p [] [] w = (w1, Ok (VList items)) ->
  nth_error (proxies w1) p = Some o1 ->
  __len__ R p w = (put_proxy p (set_collection (VList items) o1) w1, Ok (_total o1))
  /\ __len__ R p (put_proxy p (set_collection (VList items) o1) w1)
     = (put_proxy p (set_collection (VList items) o1) w1, Ok (_total o1))
  /\ slice_size R p (put_proxy p (set_collection (VList items) o1) w1)
     = (put_proxy p (set_collection (VList items) o1) w1,
        Ok (Z.of_nat (List.length items))).
Proof.
  intros Hp Hnone Hres Hp1.
  set (o2 := set_collection (VList items) o1).
  set (w2 := put_proxy p o2 w1).
  assert (Hp2 : nth_error (proxies w2) p = Some o2) by (apply (get_put_proxy w1 p o1 o2 Hp1)).
  assert (Hfetched : fetch_collection R p w2 = (w2, Ok tt))
    by (apply (fetched_page R w2 p o2 items Hp2); reflexivity).
  split; [|split].
  - unfold __len__. rewrite (bind_ok _ _ w w2 tt).
    + rewrite (bind_ok _ _ _ _ _ (get_proxy_ok w2 p o2 Hp2)). reflexivity.
    + unfold fetch_collection. rewrite (bind_ok _ _ _ _ _ (get_proxy_ok w p o Hp)).
      rewrite Hnone. cbn [is_none]. rewrite (bind_ok _ _ _ _ _ Hres).
      exact (put_proxy_at w1 p (set_collection (VList items)) o1 Hp1).
  - unfold __len__. rewrite (bind_ok _ _ _ _ _ Hfetched).
    rewrite (bind_ok _ _ _ _ _ (get_proxy_ok w2 p o2 Hp2)). reflexivity.
  - unfold slice_size. rewrite (bind_ok _ _ _ _ _ Hfetched).
    rewrite (bind_ok _ _ _ _ _ (get_proxy_ok w2 p o2 Hp2)). reflexivity.
Qed.

Lemma len_fetches_once_witness :
  __len__ R0 0 listing = (iterating_first, Ok 25%Z)
  /\ __len__ R0 0 iterating_first = (iterating_first, Ok 25%Z)
  /\ slice_size R0 0 iterating_first = (iterating_first, Ok 10%Z).
Proof.
  assert (H1 : nth_error (proxies listing) 0 = Some (proxy_at listing 0))
    by (vm_compute; reflexivity).
  assert (H2 : _collection (proxy_at listing 0) = VNone) by (vm_compute; reflexivity).
  assert (H3 : _resolve R0 0 [] [] listing
               = (fst (_resolve R0 0 [] [] listing), Ok (VList (page_items 1))))
    by (vm_compute; reflexivity).
  assert (H4 : nth_error (proxies (fst (_resolve R0 0 [] [] listing))) 0
               = Some (proxy_at (fst (_resolve R0 0 [] [] listing)) 0))
    by (vm_compute; reflexivity).
  assert (H5 : put_proxy 0 (set_collection (VList (page_items 1))
                              (proxy_at (fst (_resolve R0 0 [] [] listing)) 0))
                         (fst (_resolve R0 0 [] [] listing)) = iterating_first)
    by (vm_compute; reflexivity).
  assert (H6 : _total (proxy_at (fst (_resolve R0 0 [] [] listing)) 0) = 25%Z)
    by (vm_compute; reflexivity).
  pose proof (len_fetches_once R0 listing _ 0 _ _ _ H1 H2 H3 H4) as H.
  rewrite H5, H6 in H. exact H.
Defined.

(** ** Calling a proxy *)

Lemma keeps_bind {A B} (P : list proxy) (c : M A) (k : A -> M B) :
  keeps_proxies P c -> (forall a, keeps_proxies P (k a)) -> keeps_proxies P (bind c k).
Proof.
  intros Hc Hk w Hw. unfold bind. specialize (Hc w Hw).
  destruct (c w) as [w' [a|e]]; cbn [fst] in *; [apply Hk; exact Hc|exact Hc].
Qed.

Lemma keeps_pure {A} (P : list proxy) (r : result A) : keeps_proxies P (fun w => (w, r)).
Proof. intros w Hw. exact Hw. Qed.

Lemma keeps_get_resource (P : list proxy) (r : nat) : keeps_proxies P (get_resource r).
Proof. intros w Hw. exact Hw. Qed.

Lemma keeps_get_proxy (P : list proxy) (p : nat) : keeps_proxies P (get_proxy p).
Proof. intros w Hw. exact Hw. Qed.

Lemma keeps_send (R : Runtime) (P : list proxy) (rq : http_request) :
  keeps_proxies P (send R rq).
Proof. intros w Hw. exact Hw. Qed.

Lemma keeps_unwrap (P : list proxy) (a : arg) : keeps_proxies P (unwrap a).
Proof.
  destruct a; [apply keeps_pure|].
  apply keeps_bind; [apply keeps_get_resource|intros o; apply keeps_pure].
Qed.

Lemma keeps_mapM_M {A B} (P : list proxy) (f : A -> M B) (l : list A) :
  (forall x, keeps_proxies P (f x)) -> keeps_proxies P (mapM_M f l).
Proof.
  intros Hf. induction l as [|x t IH]; [apply keeps_pure|].
  cbn [mapM_M]. apply keeps_bind; [apply Hf|]. intros y.
  apply keeps_bind; [exact IH|]. intros ys. apply keeps_pure.
Qed.

Lemma keeps_generate_url (R : Runtime) (P : list proxy) (L : Link) (b : binding) :
  keeps_proxies P (generate_url R L b).
Proof.
  unfold generate_url. apply keeps_bind.
  - destruct b; [apply keeps_pure|].
    apply keeps_bind; [apply keeps_get_resource|intros o; apply keeps_pure].
  - intros c. apply keeps_bind; [|intros u; apply keeps_pure].
    destruct b; [apply keeps_pure|].
    apply keeps_bind; [apply keeps_get_resource|intros o; apply keeps_pure].
Qed.

Lemma keeps_process_args (R : Runtime) (P : list proxy) (L : Link) (args : list arg) :
  keeps_proxies P (_process_args R L args).
Proof.
  unfold _process_args. apply keeps_bind; [apply keeps_pure|]. intros [ty|].
  - destruct ty; try apply keeps_pure.
    + destruct args as [|a [|a' t]]; try apply keeps_pure. apply keeps_unwrap.
    + apply keeps_bind; [apply keeps_mapM_M; apply keeps_unwrap|].
      intros l. apply keeps_pure.
    + destruct args as [|[v|r] [|a' t]]; apply keeps_pure.
    + destruct args as [|[v|r] [|a' t]]; apply keeps_pure.
    + destruct args as [|[v|r] [|a' t]]; apply keeps_pure.
    + destruct args as [|[v|r] [|a' t]]; apply keeps_pure.
    + destruct args as [|a [|a' t]]; try apply keeps_pure. apply keeps_unwrap.
  - apply keeps_pure.
Qed.

Lemma keeps_Link_call (R : Runtime) (P : list proxy) (L : Link) (args : list arg)
      (b : binding) (h : response -> M pyval) (kwargs : list (string * pyval)) :
  (forall res, keeps_proxies P (h res)) ->
  keeps_proxies P (Link_call R L args b h kwargs).
Proof.
  intros Hh. unfold Link_call.
  destruct (dict_mem kwargs "binding" || dict_mem kwargs "handler"); [apply keeps_pure|].
  apply keeps_bind; [apply keeps_generate_url|]. intros url.
  apply keeps_bind; [apply keeps_process_args|]. intros body.
  apply keeps_bind.
  - destruct (request_kwargs L); try apply keeps_pure.
    destruct (existsb _ _); apply keeps_pure.
  - intros options. apply keeps_bind; [apply keeps_send|]. intros res.
    apply keeps_bind; [|intros _; apply Hh].
    unfold validate_response_status. destruct (_ && _)%bool; apply keeps_pure.
Qed.

(** X13. Calling an object or a void proxy with keyword arguments
    merges them into the accumulated arguments of the proxy itself, and
    they stay there whether the call returns or raises; no other proxy
    changes. *)
Theorem call_merges_kwargs (R : Runtime) (w : world) (p : nat) (o : proxy)
        (args : list arg) (kwargs : list (string * pyval)) :
  nth_error (proxies w) p = Some o ->
  p_cls o <> ListLinkProxy_cls ->
  proxies (fst (__call__ R p args kwargs w))
  = proxies (put_proxy p (set_kwargs (dict_update (_kwargs o) kwargs) o) w).
Proof.
  intros Hp Hcls. unfold __call__, _resolve.
  set (o1 := set_kwargs (dict_update (_kwargs o) kwargs) o).
  rewrite (bind_ok _ _ w (put_proxy p o1 w) tt);
    [|exact (put_proxy_at w p (fun o => set_kwargs (dict_update (_kwargs o) kwargs) o) o Hp)].
  assert (Hp1 : nth_error (proxies (put_proxy p o1 w)) p = Some o1)
    by (apply (get_put_proxy w p o o1 Hp)).
  rewrite (bind_ok _ _ _ _ _ (get_proxy_ok _ p o1 Hp1)).
  apply keeps_Link_call; [|reflexivity].
  intros res w' Hw'. unfold handler.
  assert (Hp' : nth_error (proxies w') p = Some o1) by (rewrite Hw'; exact Hp1).
  rewrite (bind_ok _ _ _ _ _ (get_proxy_ok w' p o1 Hp')).
  cbn [o1 p_cls set_kwargs].
  destruct (p_cls o); [exact Hw'|contradiction|exact Hw'].
Qed.

Lemma call_merges_kwargs_witness :
  proxies (fst (__call__ R0 0 [] [("expand", VBool true)] unloaded))
  = proxies (put_proxy 0 (set_kwargs [("expand", VBool true)] (proxy_at unloaded 0))
                       unloaded).
Proof.
  assert (H1 : nth_error (proxies unloaded) 0 = Some (proxy_at unloaded 0))
    by (vm_compute; reflexivity).
  assert (H2 : p_cls (proxy_at unloaded 0) <> ListLinkProxy_cls)
    by (vm_compute; discriminate).
  exact (call_merges_kwargs R0 unloaded 0 _ [] [("expand", VBool true)] H1 H2).
Defined.

(** ** Attribute lookup on a resource *)

(** X14. Reading an attribute that neither the class nor the instance
    defines does not raise [AttributeError]: [__getattr__] ends without
    [return], so the attribute reads as [None]; a name that starts with
    [$] reads the raw data instead, and raises [KeyError] when the field
    is missing. *)
Theorem getattr_missing (R : Runtime) (w : world) (self : nat) (o : resource)
        (name : string) :
  nth_error (resources w) self = Some o ->
  well_named (r_type o) = true ->
  recursion_limit R <> 0 ->
  reserved_member name = false ->
  String.eqb name "id" = false ->
  class_property (r_type o) name = None ->
  dict_get (r_members o) name = None ->
  dict_get (rt_accessors (r_type o)) name = None ->
  (startswith "$" name = false -> getattr R self name w = (w, Ok (DVal VNone)))
  /\ (forall d,
         startswith "$" name = true -> _instance o = VDict d ->
         getattr R self name w
         = (w, match dict_get d name with
               | Some v => Ok (DVal v)
               | None => Raise KeyError
               end)).
Proof.
  intros Ho Hn Hfuel Hres Hid Hcp Hm Ha.
  rewrite (getattr_unfold R self name Hfuel). unfold lookup.
  rewrite (bind_ok _ _ _ _ _ (get_self_ok w self o Ho Hn)).
  rewrite Hres, Hcp, Hid, Hm, Ha. unfold __getattr__. split.
  - intros Hd. rewrite Hd. reflexivity.
  - intros d Hd Hinst. rewrite Hd.
    assert (Hloaded : instance R (getattr_ R (Nat.pred (recursion_limit R))) self w
                      = (w, Ok (VDict d))).
    { rewrite <- Hinst. apply instance_loaded; auto. rewrite Hinst. reflexivity. }
    destruct (dict_get d name) as [v|] eqn:Hv.
    + rewrite (bind_ok _ _ w w v); [reflexivity|].
      rewrite (bind_ok _ _ _ _ _ Hloaded). unfold lift. cbn [py_getitem]. rewrite Hv.
      reflexivity.
    + rewrite (bind_raise _ _ w w KeyError); [reflexivity|].
      rewrite (bind_ok _ _ _ _ _ Hloaded). unfold lift. cbn [py_getitem]. rewrite Hv.
      reflexivity.
Qed.

Lemma getattr_missing_witness :
  getattr R0 0 "nothing" unsaved = (unsaved, Ok (DVal VNone))
  /\ getattr R0 0 "$uri" unsaved = (unsaved, Raise KeyError).
Proof.
  assert (H1 : nth_error (resources unsaved) 0 = Some (resource_at unsaved 0))
    by (vm_compute; reflexivity).
  assert (H2 : well_named (r_type (resource_at unsaved 0)) = true)
    by (vm_compute; reflexivity).
  assert (H3 : recursion_limit R0 <> 0) by discriminate.
  assert (H4 : _instance (resource_at unsaved 0) = VDict [("name", VStr "new")])
    by (vm_compute; reflexivity).
  split.
  - apply (getattr_missing R0 unsaved 0 (resource_at unsaved 0) "nothing" H1 H2 H3);
      vm_compute; reflexivity.
  - assert (Ha : reserved_member "$uri" = false) by (vm_compute; reflexivity).
    assert (Hb : String.eqb "$uri" "id" = false) by (vm_compute; reflexivity).
    assert (Hc : class_property (r_type (resource_at unsaved 0)) "$uri" = None)
      by (vm_compute; reflexivity).
    assert (Hd : dict_get (r_members (resource_at unsaved 0)) "$uri" = None)
      by (vm_compute; reflexivity).
    assert (He : dict_get (rt_accessors (r_type (resource_at unsaved 0))) "$uri" = None)
      by (vm_compute; reflexivity).
    destruct (getattr_missing R0 unsaved 0 (resource_at unsaved 0) "$uri" H1 H2 H3
                              Ha Hb Hc Hd He) as [_ Hraw].
    exact (Hraw _ eq_refl H4).
Defined.

(** ** Properties of a resource *)


Lemma dict_pop_set_fresh {V} (d : list (string * V)) (k : string) (v : V) :
  dict_get d k = None -> dict_pop (dict_set d k v) k = d.
Proof.
  induction d as [|[k0 v0] t IH]; cbn; intros H.
  - rewrite String.eqb_refl. reflexivity.
  - destruct (String.eqb k k0) eqn:Heq; [discriminate|]. cbn. rewrite Heq, IH; auto.
Qed.

Lemma dict_pop_fresh {V} (d : list (string * V)) (k : string) :
  dict_get d k = None -> dict_pop d k = d.
Proof.
  induction d as [|[k0 v0] t IH]; cbn; intros H; [reflexivity|].
  destruct (String.eqb k k0) eqn:Heq; [discriminate|]. rewrite IH; auto.
Qed.

Lemma put_resource_same (w : world) (r : nat) (o : resource) :
  nth_error (resources w) r = Some o -> put_resource r o w = w.
Proof.
  intros H. unfold put_resource, modify_resource. cbn [fst].
  rewrite (update_nth_same r (fun _ => o) _ o H eq_refl). destruct w; reflexivity.
Qed.

Lemma set_property_loaded (R : Runtime) (w : world) (self : nat) (name : string)
      (o : resource) (a : attr) (d : list (string * pyval)) (v s : pyval) :
  nth_error (resources w) self = Some o -> well_named (r_type o) = true ->
  dict_get (rt_attributes (r_type o)) name = Some a ->
  _instance o = VDict d ->
  serialize R a v (VBool true) = Ok s ->
  _set_property R (getattr R) name self v w
  = (put_resource self (set_instance (VDict (dict_set d name s)) o) w, Ok tt).
Proof.
  intros Ho Hn Ha Hd Hs. unfold _set_property.
  rewrite (bind_ok _ _ _ _ _ (get_self_ok w self o Ho Hn)).
  rewrite (bind_ok _ _ w w a); [|unfold lift, class_attribute; rewrite Ha; reflexivity].
  rewrite (bind_ok _ _ w w s); [|unfold lift; rewrite Hs; reflexivity].
  rewrite (bind_ok _ _ w w (VDict d)).
  2:{ rewrite <- Hd. apply instance_loaded; auto. rewrite Hd. reflexivity. }
  rewrite (bind_ok _ _ w w (VDict (dict_set d name s))); [|reflexivity].
  apply (modify_resource_at w self _ o Ho).
Qed.

Lemma del_property_loaded (R : Runtime) (w : world) (self : nat) (name : string)
      (o : resource) (d : list (string * pyval)) :
  nth_error (resources w) self = Some o -> well_named (r_type o) = true ->
  _instance o = VDict d ->
  _del_property R (getattr R) name self w
  = (put_resource self (set_instance (VDict (dict_pop d name)) o) w, Ok tt).
Proof.
  intros Ho Hn Hd. unfold _del_property.
  rewrite (bind_ok _ _ w w (VDict d)).
  2:{ rewrite <- Hd. apply instance_loaded; auto. rewrite Hd. reflexivity. }
  rewrite (bind_ok _ _ w w (VDict (dict_pop d name))); [|reflexivity].
  apply (modify_resource_at w self _ o Ho).
Qed.



(** X16. Deleting a property removes the field from the raw data and
    nothing else: on a field that is not there it changes nothing, and
    after the setter on a field that was not there it restores the store
    as it was. *)
Theorem set_then_del (R : Runtime) (w : world) (self : nat) (name : string)
        (o : resource) (a : attr) (d : list (string * pyval)) (v s : pyval) :
  nth_error (resources w) self = Some o ->
  well_named (r_type o) = true ->
  _instance o = VDict d ->
  dict_get d name = None ->
  _del_property R (getattr R) name self w = (w, Ok tt)
  /\ (dict_get (rt_attributes (r_type o)) name = Some a ->
      serialize R a v (VBool true) = Ok s ->
      (_set_property R (getattr R) name self v ;;;
       _del_property R (getattr R) name self) w = (w, Ok tt)).
Proof.
  intros Ho Hn Hd Hfresh. split.
  - rewrite (del_property_loaded R w self name o d Ho Hn Hd).
    rewrite (dict_pop_fresh d name Hfresh), <- Hd.
    replace (set_instance (_instance o) o) with o by (destruct o; reflexivity).
    rewrite (put_resource_same w self o Ho). reflexivity.
  - intros Ha Hs.
    set (o1 := set_instance (VDict (dict_set d name s)) o).
    rewrite (bind_ok _ _ _ _ _ (set_property_loaded R w self name o a d v s Ho Hn Ha Hd Hs)).
    fold o1.
    rewrite (del_property_loaded R (put_resource self o1 w) self name o1
               (dict_set d name s) (get_put_resource w self o o1 Ho) Hn eq_refl).
    rewrite (dict_pop_set_fresh d name s Hfresh), put_put_resource.
    change (set_instance (VDict d) o1) with (set_instance (VDict d) o).
    rewrite <- Hd.
    replace (set_instance (_instance o) o) with o by (destruct o; reflexivity).
    rewrite (put_resource_same w self o Ho). reflexivity.
Qed.

Lemma set_then_del_witness :
  _del_property R0 (getattr R0) "owner" 0 unsaved = (unsaved, Ok tt)
  /\ (_set_property R0 (getattr R0) "owner" 0 (VDict [(REF, VStr "/user/1")]) ;;;
      _del_property R0 (getattr R0) "owner" 0) unsaved = (unsaved, Ok tt).
Proof.
  assert (H1 : nth_error (resources unsaved) 0 = Some (resource_at unsaved 0))
    by (vm_compute; reflexivity).
  assert (H2 : well_named (r_type (resource_at unsaved 0)) = true)
    by (vm_compute; reflexivity).
  assert (H3 : _instance (resource_at unsaved 0) = VDict [("name", VStr "new")])
    by (vm_compute; reflexivity).
  assert (H4 : dict_get (rt_attributes (r_type (resource_at unsaved 0))) "owner"
               = Some (attribute owner_schema)) by (vm_compute; reflexivity).
  assert (H5 : serialize R0 (attribute owner_schema) (VDict [(REF, VStr "/user/1")])
                         (VBool true) = Ok (VDict [(REF, VStr "/user/1")]))
    by (vm_compute; reflexivity).
  destruct (set_then_del R0 unsaved 0 "owner" _ (attribute owner_schema) _
              (VDict [(REF, VStr "/user/1")]) (VDict [(REF, VStr "/user/1")])
              H1 H2 H3 eq_refl) as [Hdel Hboth].
  split; [exact Hdel|exact (Hboth H4 H5)].
Defined.

(** X17. The identity of a resource is parsed from the URI of its raw
    data at the first read and kept in [_id]; the reads that follow
    answer from [_id] and change nothing. *)
Theorem id_parsed_once (R : Runtime) (w : world) (self : nat) (o : resource)
        (d : list (string * pyval)) (u i : pyval) :
  nth_error (resources w) self = Some o ->
  well_named (r_type o) = true ->
  _id o = VNone ->
  _instance o = VDict d ->
  dict_get d URI = Some u ->
  parse_uri_last R u = Ok i ->
  is_none i = false ->
  Resource_id R self w = (put_resource self (set_id i o) w, Ok i)
  /\ Resource_id R self (put_resource self (set_id i o) w)
     = (put_resource self (set_id i o) w, Ok i).
Proof.
  intros Ho Hn Hid Hd Hu Hi Hnone.
  set (o1 := set_id i o). set (w1 := put_resource self o1 w).
  assert (Ho1 : nth_error (resources w1) self = Some o1)
    by (apply (get_put_resource w self o o1 Ho)).
  split.
  - unfold Resource_id.
    rewrite (bind_ok _ _ _ _ _ (get_self_ok w self o Ho Hn)), Hid. cbn [is_none].
    rewrite (bind_ok _ _ w w1 tt).
    + rewrite (bind_ok _ _ _ _ _ (get_self_ok w1 self o1 Ho1 Hn)). reflexivity.
    + rewrite Hd. destruct d as [|kv t]; [discriminate|]. cbn [truthy].
      rewrite (bind_ok _ _ w w true).
      2:{ unfold lift. cbn [py_contains]. unfold dict_mem. rewrite Hu. reflexivity. }
      rewrite (bind_ok _ _ w w u);
        [|unfold lift; cbn [py_getitem]; rewrite Hu; reflexivity].
      rewrite (bind_ok _ _ w w i); [|unfold lift; rewrite Hi; reflexivity].
      exact (modify_resource_at w self (set_id i) o Ho).
  - apply (Resource_id_known R w1 self o1 Ho1 Hn). exact Hnone.
Qed.

Lemma id_parsed_once_witness :
  Resource_id R0 0 saved = (put_resource 0 (set_id (VInt 26) (resource_at saved 0)) saved,
                            Ok (VInt 26))
  /\ Resource_id R0 0 (put_resource 0 (set_id (VInt 26) (resource_at saved 0)) saved)
     = (put_resource 0 (set_id (VInt 26) (resource_at saved 0)) saved, Ok (VInt 26)).
Proof.
  assert (H1 : nth_error (resources saved) 0 = Some (resource_at saved 0))
    by (vm_compute; reflexivity).
  assert (H2 : well_named (r_type (resource_at saved 0)) = true)
    by (vm_compute; reflexivity).
  assert (H3 : _id (resource_at saved 0) = VNone) by (vm_compute; reflexivity).
  assert (H4 : _instance (resource_at saved 0)
               = VDict [("name", VStr "new"); ("tags", VList []); ("owner", VDict []);
                        (URI, VStr "/item/26")]) by (vm_compute; reflexivity).
  assert (H5 : parse_uri_last R0 (VStr "/item/26") = Ok (VInt 26))
    by (vm_compute; reflexivity).
  exact (id_parsed_once R0 saved 0 _ _ _ _ H1 H2 H3 H4 eq_refl H5 eq_refl).
Defined.

(** ** Building a resource *)

Lemma keeps_resources_bind {A B} (c : M A) (k : A -> M B) :
  keeps_resources c -> (forall a, keeps_resources (k a)) -> keeps_resources (bind c k).
Proof.
  intros Hc Hk w. unfold bind. specialize (Hc w).
  destruct (c w) as [w' [a|e]]; cbn [fst] in *; [|exact Hc].
  destruct (Hk a w') as [H1 H2]. destruct Hc as [H3 H4]. split; congruence.
Qed.

Lemma keeps_resources_pure {A} (r : result A) : keeps_resources (fun w => (w, r)).
Proof. intros w. split; reflexivity. Qed.

Lemma keeps_resources_for_each {A} (body : A -> M unit) (l : list A) :
  (forall x, keeps_resources (body x)) -> keeps_resources (for_each body l).
Proof.
  intros Hb. induction l as [|x t IH]; [apply keeps_resources_pure|].
  cbn [for_each]. apply keeps_resources_bind; [apply Hb|intros _; exact IH].
Qed.

Lemma keeps_resources_modify_proxy (p : nat) (f : proxy -> proxy) :
  keeps_resources (modify_proxy p f).
Proof. intros w. split; reflexivity. Qed.

Lemma keeps_resources_modify_dict (d : nat) (f : list (string * attr) -> list (string * attr)) :
  keeps_resources (modify_dict d f).
Proof. intros w. split; reflexivity. Qed.

Lemma keeps_resources_alloc_dict (o : list (string * attr)) : keeps_resources (alloc_dict o).
Proof. intros w. split; reflexivity. Qed.

Lemma keeps_resources_alloc_proxy (o : proxy) : keeps_resources (alloc_proxy o).
Proof. intros w. split; reflexivity. Qed.

Lemma keeps_resources_get_proxy (p : nat) : keeps_resources (get_proxy p).
Proof. intros w. split; reflexivity. Qed.

Lemma keeps_resources_get_dict (d : nat) : keeps_resources (get_dict d).
Proof. intros w. split; reflexivity. Qed.

Lemma keeps_resources_parse_schema (R : Runtime) (self : nat) :
  keeps_resources (_parse_schema R self).
Proof.
  unfold _parse_schema. apply keeps_resources_bind; [apply keeps_resources_get_proxy|].
  intros o. apply keeps_resources_bind; [apply keeps_resources_pure|].
  intros [|]; [|apply keeps_resources_pure].
  apply keeps_resources_bind; [apply keeps_resources_pure|]. intros properties.
  apply keeps_resources_bind; [apply keeps_resources_pure|]. intros props.
  apply keeps_resources_for_each. intros prop.
  apply keeps_resources_bind; [apply keeps_resources_pure|]. intros d.
  apply keeps_resources_bind; [apply keeps_resources_pure|]. intros a.
  apply keeps_resources_bind; [apply keeps_resources_modify_dict|]. intros _.
  unfold proxy_setattr. destruct (reserved_name prop);
    [apply keeps_resources_pure|apply keeps_resources_modify_proxy].
Qed.

Lemma keeps_resources_construct (R : Runtime) (c : proxy_class) (L : Link) (b : binding)
      (attributes : option nat) (kwargs : list (string * pyval)) :
  keeps_resources (construct R c L b attributes kwargs).
Proof.
  unfold construct.
  destruct (dict_mem kwargs "link" || dict_mem kwargs "binding");
    [apply keeps_resources_pure|].
  destruct (dict_mem kwargs "attributes");
    [destruct attributes; apply keeps_resources_pure|].
  destruct (dict_mem kwargs "links" && _); [apply keeps_resources_pure|].
  apply keeps_resources_bind.
  - destruct c; try apply keeps_resources_pure.
    unfold assert_. destruct (is_resource_or_type b); apply keeps_resources_pure.
  - intros _. apply keeps_resources_bind.
    + destruct attributes as [d|]; [|apply keeps_resources_alloc_dict].
      apply keeps_resources_bind; [apply keeps_resources_get_dict|].
      intros [|x t]; [apply keeps_resources_alloc_dict|apply keeps_resources_pure].
    + intros d. apply keeps_resources_bind; [apply keeps_resources_alloc_proxy|].
      intros self. apply keeps_resources_bind; [apply keeps_resources_parse_schema|].
      intros _. apply keeps_resources_pure.
Qed.

Lemma keeps_resources_bind_proxy (R : Runtime) (L : Link) (b : binding) :
  keeps_resources (bind_proxy R L b).
Proof.
  unfold bind_proxy. apply keeps_resources_bind; [apply keeps_resources_pure|].
  intros c. apply keeps_resources_construct.
Qed.

Lemma put_resource_other (w : world) (r i : nat) (o : resource) :
  i <> r -> nth_error (resources (put_resource r o w)) i = nth_error (resources w) i.
Proof.
  intros H. unfold put_resource, modify_resource. cbn [fst resources].
  apply nth_error_update_nth_other. congruence.
Qed.

Lemma dict_mem_set {V} (d : list (string * V)) (k k' : string) (v : V) :
  dict_mem (dict_set d k v) k' = String.eqb k' k || dict_mem d k'.
Proof.
  unfold dict_mem. rewrite dict_get_set. destruct (String.eqb k' k); reflexivity.
Qed.

(** The loop of [_create_proxies]. *)
Lemma create_proxies_loop (R : Runtime) (self : nat) :
  forall (ls : list (string * Link)) (w w1 : world) (o : resource),
    nth_error (resources w) self = Some o ->
    for_each (fun nl =>
                let* p := bind_proxy R (snd nl) (BInstance self) in
                modify_resource self
                  (fun o => set_members_r (dict_set (r_members o) (fst nl) p) o))
             ls w = (w1, Ok tt) ->
    requests w1 = requests w
    /\ (forall i, i <> self -> nth_error (resources w1) i = nth_error (resources w) i)
    /\ exists m,
        nth_error (resources w1) self = Some (set_members_r m o)
        /\ forall name, dict_mem m name
                        = dict_mem (r_members o) name || dict_mem ls name.
Proof.
  induction ls as [|[name L] rest IH]; intros w w1 o Ho H; cbn [for_each fst snd] in H.
  - inversion H; subst w1. split; [reflexivity|]. split; [reflexivity|].
    exists (r_members o). split; [rewrite Ho; destruct o; reflexivity|].
    intros n. rewrite orb_false_r. reflexivity.
  - unfold bind at 1 in H.
    destruct (bind_proxy R L (BInstance self) w) as [wa [p|e]] eqn:Hbp.
    2:{ unfold bind in H. rewrite Hbp in H. discriminate. }
    destruct (keeps_resources_bind_proxy R L (BInstance self) w) as [Hr Hq].
    rewrite Hbp in Hr, Hq. cbn [fst] in Hr, Hq.
    assert (Hoa : nth_error (resources wa) self = Some o) by (rewrite Hr; exact Ho).
    unfold bind at 1 in H. rewrite Hbp in H.
    rewrite (modify_resource_at wa self _ o Hoa) in H.
    set (o1 := set_members_r (dict_set (r_members o) name p) o) in H.
    destruct (IH _ _ o1 (get_put_resource wa self o o1 Hoa) H) as [Hreq [Hoth [m [Hm Hkeys]]]].
    split; [rewrite Hreq; exact Hq|]. split.
    + intros i Hi. rewrite (Hoth i Hi), (put_resource_other wa self i o1 Hi), Hr.
      reflexivity.
    + exists m. split; [exact Hm|]. intros n. rewrite Hkeys.
      cbn [o1 r_members set_members_r dict_mem]. rewrite dict_mem_set.
      change (dict_mem ((name, L) :: rest) n)
        with (match (if String.eqb n name then Some L else dict_get rest n) with
              | Some _ => true | None => false end).
      destruct (String.eqb n name); cbn; [rewrite orb_true_r; reflexivity|].
      reflexivity.
Qed.

(** X18. What [Resource(oid, instance)] builds, when it returns: a
    new resource of the type with the identity given and one member for
    each instance link of the type.  Its raw data is the [instance]
    given when there is an identity; without an identity it is the empty
    dictionary, whatever [instance] was passed.  No request is sent, and
    the other resources stay as they are. *)
Theorem Resource_init_state (R : Runtime) (t : ResourceType) (oid inst : pyval)
        (w w' : world) (self : nat) :
  Resource_init R t oid inst w = (w', Ok self) ->
  self = List.length (resources w)
  /\ requests w' = requests w
  /\ (forall i, i < List.length (resources w) ->
                nth_error (resources w') i = nth_error (resources w) i)
  /\ exists o',
      nth_error (resources w') self = Some o'
      /\ r_type o' = t /\ _id o' = oid
      /\ _instance o' = (if is_none oid then VDict [] else inst)
      /\ forall name, dict_mem (r_members o') name = dict_mem (rt_instance_links t) name.
Proof.
  unfold Resource_init. destruct (well_named t) eqn:Hn; cbn [negb]; [|discriminate].
  set (o0 := {| r_type := t; _id := VNone; _instance := VNone; r_members := [] |}).
  set (w0 := fst (alloc_resource o0 w)).
  intros H.
  rewrite (bind_ok _ _ w w0 (List.length (resources w))) in H; [|reflexivity].
  assert (Ho0 : nth_error (resources w0) (List.length (resources w)) = Some o0)
    by (apply nth_error_last).
  unfold bind at 1 in H.
  destruct (_create_proxies R (List.length (resources w)) w0) as [w1 [[]|e]] eqn:Hcp;
    [|discriminate].
  unfold _create_proxies in Hcp.
  rewrite (bind_ok _ _ _ _ _ (get_resource_ok w0 _ o0 Ho0)) in Hcp.
  destruct (create_proxies_loop R _ _ _ _ o0 Ho0 Hcp) as [Hreq [Hoth [m [Hm Hkeys]]]].
  set (o1 := set_members_r m o0) in *.
  rewrite (bind_ok _ _ _ _ _ (modify_resource_at w1 _ (set_id oid) o1 Hm)) in H.
  set (o2 := set_id oid o1) in *.
  pose proof (get_put_resource w1 _ o1 o2 Hm) as Ho2.
  rewrite (bind_ok _ _ _ _ _ (modify_resource_at _ _ (set_instance inst) o2 Ho2)) in H.
  rewrite put_put_resource in H.
  set (o3 := set_instance inst o2) in *.
  pose proof (get_put_resource w1 _ o1 o3 Hm) as Ho3.
  assert (Hfinal : forall o4 w4,
             w4 = put_resource (List.length (resources w)) o4 w1 ->
             r_type o4 = t -> _id o4 = oid ->
             _instance o4 = (if is_none oid then VDict [] else inst) ->
             r_members o4 = m ->
             (w4, Ok (List.length (resources w))) = (w', Ok self) ->
             self = List.length (resources w)
             /\ requests w' = requests w
             /\ (forall i, i < List.length (resources w) ->
                           nth_error (resources w') i = nth_error (resources w) i)
             /\ exists o',
                 nth_error (resources w') self = Some o'
                 /\ r_type o' = t /\ _id o' = oid
                 /\ _instance o' = (if is_none oid then VDict [] else inst)
                 /\ forall name, dict_mem (r_members o') name
                                 = dict_mem (rt_instance_links t) name).
  { intros o4 w4 Hw4 Ht Hi Hd Hmem Heq. inversion Heq; subst w' self. clear Heq.
    split; [reflexivity|]. split; [subst w4; exact Hreq|]. split.
    - intros i Hi'. subst w4. rewrite put_resource_other by lia.
      rewrite Hoth by lia. unfold w0. cbn [fst alloc_resource resources].
      apply nth_error_app1. exact Hi'.
    - exists o4. split; [subst w4; apply (get_put_resource w1 _ o1 o4 Hm)|].
      repeat split; auto. intros name. rewrite Hmem, Hkeys. reflexivity. }
  destruct (is_none oid) eqn:Hoid.
  - rewrite (bind_ok _ _ _ _ _ (modify_resource_at _ _ (set_instance (VDict [])) o3 Ho3))
      in H.
    rewrite put_put_resource in H.
    apply (Hfinal (set_instance (VDict []) o3) _ eq_refl); auto.
  - rewrite (bind_ok _ _ _ (put_resource (List.length (resources w)) o3 w1) tt) in H;
      [|reflexivity].
    apply (Hfinal o3 _ eq_refl); auto.
Qed.

Lemma Resource_init_state_witness :
  0 = List.length (resources empty_world)
  /\ requests (fst (run (Resource_init R0 item_type VNone stored_item))) = []
  /\ exists o',
      nth_error (resources (fst (run (Resource_init R0 item_type VNone stored_item)))) 0
      = Some o'
      /\ r_type o' = item_type /\ _id o' = VNone /\ _instance o' = VDict []
      /\ forall name, dict_mem (r_members o') name
                      = dict_mem (rt_instance_links item_type) name.
Proof.
  assert (H : Resource_init R0 item_type VNone stored_item empty_world
              = (fst (run (Resource_init R0 item_type VNone stored_item)), Ok 0))
    by (vm_compute; reflexivity).
  destruct (Resource_init_state R0 item_type VNone stored_item empty_world _ 0 H)
    as [H1 [H2 [_ H3]]].
  split; [exact H1|]. split; [exact H2|exact H3].
Defined.

(** ** Lists and null *)

(** X19. On a null input a list attribute returns the empty list
    when its type set includes null and fails its assertion otherwise,
    while its empty value is [None] when the type set includes null and
    the empty list otherwise: [serialize(None)] is never the empty
    value. *)
Theorem Items_serialize_None (R : Runtime) (a : attr) (valid : pyval) (ts : list pytype) :
  cls a = Items_cls ->
  types a = Ok ts ->
  serialize R a VNone valid
  = (if type_in TNoneType ts then Ok (VList []) else Raise AssertionError)
  /\ empty_value a = (if type_in TNoneType ts then Ok VNone else Ok (VList [])).
Proof.
  intros Hcls Hts. split.
  - rewrite serialize_eq. cbn zeta. rewrite Hcls. unfold Items_serialize, required.
    cbn [is_none]. rewrite Hts. cbn [rbind andb].
    destruct (type_in TNoneType ts); reflexivity.
  - unfold empty_value, Items_empty_value. rewrite Hcls, Hts. reflexivity.
Qed.

Lemma Items_serialize_None_witness :
  serialize R0 (attribute list_of_integer_schema) VNone (VBool true) = Raise AssertionError
  /\ empty_value (attribute list_of_integer_schema) = Ok (VList []).
Proof.
  apply (Items_serialize_None R0 (attribute list_of_integer_schema) (VBool true) [TInt]);
    vm_compute; reflexivity.
Defined.

(** ** Beyond the total *)

(** X20. Indexing beyond the total needs [per_page] among the
    accumulated arguments: without it the lookup raises [KeyError], after
    the page was fetched and before any other proxy is built. *)
Theorem getitem_beyond_without_per_page (R : Runtime) (w : world) (p : nat) (o : proxy)
        (items : list pyval) (k : Z) (fuel : nat) :
  nth_error (proxies w) p = Some o ->
  _collection o = VList items ->
  (_total o < k)%Z ->
  dict_get (_kwargs o) "per_page" = None ->
  __getitem__ R (S fuel) p (VInt k) w = (w, Raise KeyError).
Proof.
  intros Hp Hcoll Hk Hpp. cbn [__getitem__].
  rewrite (bind_ok _ _ _ _ _ (fetched_page R w p o items Hp Hcoll)).
  rewrite (bind_ok _ _ _ _ _ (get_proxy_ok w p o Hp)).
  rewrite (bind_ok _ _ w w true).
  2:{ unfold lift, py_gt. cbn. f_equal. f_equal. rewrite Z.gtb_ltb.
      apply Z.ltb_lt. exact Hk. }
  rewrite (bind_raise _ _ w w KeyError); [reflexivity|].
  unfold lift. rewrite Hpp. reflexivity.
Qed.

Lemma getitem_beyond_without_per_page_witness :
  __getitem__ R0 (S 0) 0 (VInt 11) plain_fetched = (plain_fetched, Raise KeyError).
Proof.
  apply (getitem_beyond_without_per_page R0 plain_fetched 0 (proxy_at plain_fetched 0)
           (page_items 1)); vm_compute; reflexivity.
Defined.

(** ** The class of a bound proxy *)

(** X21. The class that [bind] gives a proxy, read off the link's
    target schema: a list proxy exactly when the schema has a [type]
    whose first Python type is [list]; a void proxy exactly when the
    schema has neither [type] nor [$ref], or a [type] whose first Python
    type is that of [None]; an object proxy for every [$ref] without
    [type], whether it names the resource itself or not. *)
Theorem bound_proxy_class (L : Link) (c : proxy_class) (d : list (string * pyval)) :
  target_schema L = VDict d ->
  LinkProxy_return_type L = Ok c ->
  (c = ListLinkProxy_cls <->
   exists t ts, dict_get d TYPE = Some t /\ type_for t = Ok (TList :: ts))
  /\ (c = VoidLinkProxy_cls <->
      (dict_get d TYPE = None /\ dict_get d REF = None)
      \/ exists t ts, dict_get d TYPE = Some t /\ type_for t = Ok (TNoneType :: ts))
  /\ (dict_get d TYPE = None -> dict_get d REF <> None -> c = ObjectLinkProxy_cls).
Proof.
  intros Hd. unfold LinkProxy_return_type, Link_return_type, shape_type. rewrite Hd.
  cbn [py_contains py_getitem rbind]. unfold dict_mem.
  destruct (dict_get d TYPE) as [t|] eqn:Ht; cbn [rbind].
  - destruct (type_for t) as [[|t0 ts]|e] eqn:Hts; cbn [rbind]; try discriminate.
    intros H. split; [|split].
    + split.
      * intros Hc. subst c. exists t, ts. split; [reflexivity|].
        destruct t0; try discriminate. exact Hts.
      * intros [t' [ts' [Heq Hty]]]. inversion Heq; subst t'. rewrite Hts in Hty.
        inversion Hty; subst. inversion H. reflexivity.
    + split.
      * intros Hc. subst c. right. exists t, ts. split; [reflexivity|].
        destruct t0; try discriminate. exact Hts.
      * intros [[Habs _]|[t' [ts' [Heq Hty]]]]; [discriminate|].
        inversion Heq; subst t'. rewrite Hts in Hty.
        inversion Hty; subst. inversion H. reflexivity.
    + discriminate.
  - destruct (dict_get d REF) as [r|] eqn:Hr; cbn [rbind].
    + intros H. assert (Hc : c = ObjectLinkProxy_cls)
        by (destruct (is_str "#" r); inversion H; reflexivity).
      subst c. split; [|split].
      * split; [discriminate|]. intros [t [ts [Habs _]]]. discriminate.
      * split; [discriminate|].
        intros [[_ Habs]|[t [ts [Habs _]]]]; discriminate.
      * reflexivity.
    + intros H. inversion H; subst c. split; [|split].
      * split; [discriminate|]. intros [t [ts [Habs _]]]. discriminate.
      * split; [auto|reflexivity].
      * intros _ Habs. contradiction.
Qed.

Lemma bound_proxy_class_witness :
  (ListLinkProxy_cls = ListLinkProxy_cls <->
   exists t ts, dict_get [(TYPE, VStr "array")] TYPE = Some t
                /\ type_for t = Ok (TList :: ts))
  /\ ObjectLinkProxy_cls = ObjectLinkProxy_cls.
Proof.
  destruct (bound_proxy_class instances ListLinkProxy_cls [(TYPE, VStr "array")]
              eq_refl eq_refl) as [Hlist _].
  destruct (bound_proxy_class
              {| route := {| path := "/item"; keys := [] |}; method := VStr "GET";
                 schema := VDict []; target_schema := VDict [(REF, VStr "/other")];
                 request_kwargs := VDict [] |}
              ObjectLinkProxy_cls [(REF, VStr "/other")] eq_refl eq_refl)
    as [_ [_ Hobject]].
  split; [exact Hlist|]. apply Hobject; [reflexivity|discriminate].
Defined.

(** ** The factory of resource types *)

Lemma fold_result_raise {A B} (f : B -> A -> result B) (l : list A) (e : exn) :
  fold_left (fun acc x => a <- acc ;; f a x) l (Raise e) = Raise e.
Proof. induction l; cbn; auto. Qed.

Lemma factory_link_sorted (ek : string -> list string) (kw : pyval)
      (acc acc' : list (string * Link) * list (string * Link)) (desc : pyval) :
  links_sorted ek kw acc ->
  factory_link ek kw acc desc = Ok acc' ->
  links_sorted ek kw acc'
  /\ (forall rel, dict_mem (fst acc) rel || dict_mem (snd acc) rel = true ->
                  dict_mem (fst acc') rel || dict_mem (snd acc') rel = true)
  /\ exists rel, py_subscript desc (VStr REL) = Ok (VStr rel)
                 /\ dict_mem (fst acc') rel || dict_mem (snd acc') rel = true.
Proof.
  intros [Hi Ht] H. unfold factory_link in H.
  destruct (py_subscript desc (VStr HREF)) as [href|e]; cbn [rbind] in H; [|discriminate].
  match type of H with rbind ?c _ = _ => destruct c as [p|e] end;
    cbn [rbind] in H; [|discriminate].
  destruct (py_subscript desc (VStr METHOD)) as [m|e]; cbn [rbind] in H; [|discriminate].
  destruct (py_get desc SCHEMA (VDict [])) as [s|e]; cbn [rbind] in H; [|discriminate].
  destruct (py_get desc TARGET_SCHEMA (VDict [])) as [t|e]; cbn [rbind] in H;
    [|discriminate].
  destruct (py_get desc DOC VNone) as [dc|e]; cbn [rbind] in H; [|discriminate].
  destruct (py_subscript desc (VStr REL)) as [rel|e]; cbn [rbind] in H; [|discriminate].
  unfold is_instance, Route_init in H. cbn [keys route] in H.
  destruct (ek p) as [|k ks] eqn:Hk.
  - destruct rel; try discriminate. inversion H; subst acc'; clear H.
    unfold links_sorted. cbn [fst snd].
    split; [split|split].
    + exact Hi.
    + intros rel L. rewrite dict_get_set. destruct (String.eqb rel s0).
      * intros HL. inversion HL; subst L. unfold type_link. cbn. rewrite Hk. auto.
      * apply Ht.
    + intros rel Hrel. rewrite dict_mem_set.
      destruct (dict_mem (fst acc) rel); [reflexivity|]. cbn in *. rewrite Hrel.
      apply orb_true_r.
    + exists s0. split; [reflexivity|]. rewrite dict_mem_set, String.eqb_refl.
      cbn. apply orb_true_r.
  - destruct rel; try discriminate. inversion H; subst acc'; clear H.
    unfold links_sorted. cbn [fst snd].
    split; [split|split].
    + intros rel L. rewrite dict_get_set. destruct (String.eqb rel s0).
      * intros HL. inversion HL; subst L. unfold instance_link. cbn. rewrite Hk.
        repeat split. discriminate.
      * apply Hi.
    + exact Ht.
    + intros rel Hrel. rewrite dict_mem_set.
      destruct (String.eqb rel s0); [reflexivity|]. exact Hrel.
    + exists s0. split; [reflexivity|]. rewrite dict_mem_set, String.eqb_refl.
      reflexivity.
Qed.

Lemma factory_links_sorted (ek : string -> list string) (kw : pyval) :
  forall (descs : list pyval) (acc built : list (string * Link) * list (string * Link)),
    links_sorted ek kw acc ->
    fold_left (fun acc link_desc => a <- acc ;; factory_link ek kw a link_desc)
              descs (Ok acc) = Ok built ->
    links_sorted ek kw built
    /\ (forall rel, dict_mem (fst acc) rel || dict_mem (snd acc) rel = true ->
                    dict_mem (fst built) rel || dict_mem (snd built) rel = true)
    /\ forall desc, In desc descs ->
                    exists rel, py_subscript desc (VStr REL) = Ok (VStr rel)
                                /\ dict_mem (fst built) rel || dict_mem (snd built) rel
                                   = true.
Proof.
  induction descs as [|desc rest IH]; intros acc built Hacc H; cbn [fold_left rbind] in H.
  - inversion H; subst built. split; [exact Hacc|]. split; [auto|]. intros desc [].
  - destruct (factory_link ek kw acc desc) as [acc'|e] eqn:Hstep;
      [|rewrite fold_result_raise in H; discriminate].
    destruct (factory_link_sorted ek kw acc acc' desc Hacc Hstep)
      as [Hsorted [Hmono [rel [Hrel Hmem]]]].
    destruct (IH acc' built Hsorted H) as [Hb [Hmono' Hall]].
    split; [exact Hb|]. split; [auto|].
    intros d0 [Heq|Hin]; [|apply Hall; exact Hin].
    subst d0. exists rel. split; [exact Hrel|]. apply Hmono'. exact Hmem.
Qed.

Lemma dict_set_fresh {V} (d : list (string * V)) (k : string) (v : V) :
  ~ In k (map fst d) -> dict_set d k v = d ++ [(k, v)].
Proof.
  induction d as [|[k0 v0] t IH]; cbn; intros H; [reflexivity|].
  destruct (String.eqb k k0) eqn:Heq.
  - apply String.eqb_eq in Heq. subst. exfalso. apply H. auto.
  - rewrite IH; [reflexivity|]. intros Hin. apply H. auto.
Qed.

Lemma factory_attributes_keys (fuel : nat) :
  forall (its : list (string * pyval)) (acc attributes : list (string * attr)),
    NoDup (map fst acc ++ map fst its) ->
    fold_left (fun acc np => a <- acc ;;
                             attr <- AttributeMapper_init fuel (snd np) ;;
                             Ok (dict_set a (fst np) attr))
              its (Ok acc) = Ok attributes ->
    map fst attributes = map fst acc ++ map fst its
    /\ forall name a, dict_get attributes name = Some a ->
                      dict_get acc name = Some a
                      \/ exists prop, In (name, prop) its
                                      /\ AttributeMapper_init fuel prop = Ok a.
Proof.
  induction its as [|[name prop] rest IH]; intros acc attributes Hnd H;
    cbn [fold_left rbind fst snd] in H.
  - inversion H; subst. rewrite app_nil_r. auto.
  - destruct (AttributeMapper_init fuel prop) as [attr|e] eqn:Ha; cbn [rbind] in H.
    2:{ rewrite (fold_result_raise
                   (fun a np => attr <- AttributeMapper_init fuel (snd np) ;;
                                Ok (dict_set a (fst np) attr))) in H. discriminate. }
    cbn [map fst] in Hnd.
    assert (Hfresh : ~ In name (map fst acc)).
    { apply NoDup_remove_2 in Hnd. intros Hin. apply Hnd. apply in_or_app. auto. }
    rewrite (dict_set_fresh acc name attr Hfresh) in H.
    destruct (IH (acc ++ [(name, attr)]) attributes) as [Hkeys Hvals].
    + rewrite map_app, <- app_assoc. exact Hnd.
    + exact H.
    + split; [rewrite Hkeys, map_app, <- app_assoc; reflexivity|].
      intros n a Hget. destruct (Hvals n a Hget) as [Hacc|[p [Hin Hp]]].
      * rewrite <- (dict_set_fresh acc name attr Hfresh), dict_get_set in Hacc.
        destruct (String.eqb n name) eqn:Heq; [|auto].
        apply String.eqb_eq in Heq. subst n. inversion Hacc; subst a.
        right. exists prop. cbn. auto.
      * right. exists p. cbn. auto.
Qed.

(** X22. The resource type that [factory] builds.  A link whose
    route has path parameters becomes an instance link, a link without
    them a type-level accessor, never both; every link carries the
    request options given to the factory; every link description has
    left a link under its relation name; and the type has one attribute
    for each property of the schema, in order, built from the property's
    fragment. *)
Theorem factory_sorts_links (R : Runtime) (extract_keys : string -> list string)
        (schema requests_kwargs : pyval) (c : client) (t : ResourceType) :
  factory R extract_keys schema requests_kwargs c = Ok t ->
  rt_client t = c
  /\ (forall rel L, dict_get (rt_instance_links t) rel = Some L ->
                    instance_link extract_keys requests_kwargs L)
  /\ (forall rel L, dict_get (rt_accessors t) rel = Some L ->
                    type_link extract_keys requests_kwargs L)
  /\ (forall links descs desc,
         py_subscript schema (VStr LINKS) = Ok links -> py_iter links = Ok descs ->
         In desc descs ->
         exists rel, py_subscript desc (VStr REL) = Ok (VStr rel)
                     /\ dict_mem (rt_instance_links t) rel || dict_mem (rt_accessors t) rel
                        = true)
  /\ (forall props,
         py_subscript schema (VStr PROPERTIES) = Ok (VDict props) ->
         NoDup (map fst props) ->
         map fst (rt_attributes t) = map fst props
         /\ forall name a, dict_get (rt_attributes t) name = Some a ->
                           exists prop, In (name, prop) props
                                        /\ AttributeMapper_init (recursion_limit R) prop
                                           = Ok a).
Proof.
  unfold factory. intros H.
  destruct (py_subscript schema (VStr LINKS)) as [links|e]; cbn [rbind] in H;
    [|discriminate].
  destruct (py_iter links) as [descs|e] eqn:Hdescs; cbn [rbind] in H; [|discriminate].
  match type of H with rbind ?c _ = _ => destruct c as [built|e] eqn:Hbuilt end;
    cbn [rbind] in H; [|discriminate].
  destruct (py_subscript schema (VStr PROPERTIES)) as [props|e]; cbn [rbind] in H;
    [|discriminate].
  destruct (py_items props) as [its|e] eqn:Hits; cbn [rbind] in H; [|discriminate].
  match type of H with rbind ?c _ = _ => destruct c as [attributes|e] eqn:Hattrs end;
    cbn [rbind] in H; [|discriminate].
  inversion H; subst t; clear H. cbn [rt_client rt_instance_links rt_accessors rt_attributes].
  destruct (factory_links_sorted extract_keys requests_kwargs descs ([], []) built)
    as [[Hi Ht] [_ Hall]].
  { split; intros rel L Habs; discriminate. }
  { exact Hbuilt. }
  split; [reflexivity|]. split; [exact Hi|]. split; [exact Ht|]. split.
  - intros links' descs' desc Hl Hd Hin. inversion Hl; subst links'.
    rewrite Hdescs in Hd. inversion Hd; subst descs'. apply Hall. exact Hin.
  - intros props' Hp Hnd. inversion Hp; subst props. cbn [py_items] in Hits.
    inversion Hits; subst its.
    destruct (factory_attributes_keys (recursion_limit R) props' [] attributes Hnd Hattrs)
      as [Hkeys Hvals].
    split; [exact Hkeys|]. intros name a Hget.
    destruct (Hvals name a Hget) as [Habs|Hex]; [discriminate|exact Hex].
Qed.

Lemma factory_sorts_links_witness :
  factory R0 path_keys item_document (VDict []) {| base_url := "http://host" |}
  = Ok item_type
  /\ (forall rel L, dict_get (rt_instance_links item_type) rel = Some L ->
                    instance_link path_keys (VDict []) L)
  /\ (forall rel L, dict_get (rt_accessors item_type) rel = Some L ->
                    type_link path_keys (VDict []) L)
  /\ map fst (rt_attributes item_type) = [URI; "name"; "tags"; "owner"].
Proof.
  assert (H : factory R0 path_keys item_document (VDict []) {| base_url := "http://host" |}
              = Ok item_type) by (vm_compute; reflexivity).
  destruct (factory_sorts_links R0 path_keys _ _ _ _ H) as [_ [Hi [Ht [_ Hp]]]].
  split; [exact H|]. split; [exact Hi|]. split; [exact Ht|].
  destruct (Hp [(URI, uri_schema); ("name", string_schema);
                ("tags", VDict [(TYPE, VStr "array"); (ITEMS, string_schema)]);
                ("owner", owner_schema)]) as [Hkeys _].
  - reflexivity.
  - repeat constructor; cbn; intuition discriminate.
  - exact Hkeys.
Defined.

(** ** Equality of resources *)

Lemma dict_set_same {V} (d : list (string * V)) (k : string) (v : V) :
  dict_get d k = Some v -> dict_set d k v = d.
Proof.
  induction d as [|[k0 v0] t IH]; cbn; intros H; [discriminate|].
  destruct (String.eqb k k0) eqn:Heq.
  - inversion H; subst. reflexivity.
  - rewrite IH; auto.
Qed.

Lemma modify_resource_same (w : world) (r : nat) (f : resource -> resource)
      (o : resource) :
  nth_error (resources w) r = Some o -> f o = o -> modify_resource r f w = (w, Ok tt).
Proof.
  intros H Hf. unfold modify_resource. rewrite (update_nth_same r f _ o H Hf).
  destruct w; reflexivity.
Qed.

(** Reading the property [uri] of a resource whose raw data is loaded
    and holds a URI. *)
Lemma getattr_uri_loaded (R : Runtime) (w : world) (self : nat) (o : resource) (a : attr)
      (d : list (string * pyval)) (u : string) :
  nth_error (resources w) self = Some o -> well_named (r_type o) = true ->
  recursion_limit R <> 0 ->
  class_property (r_type o) "uri" = Some URI ->
  dict_get (rt_attributes (r_type o)) URI = Some a ->
  _instance o = VDict d ->
  dict_get d URI = Some (VStr u) ->
  resolve R a (VStr u) (rt_client (r_type o)) = Ok (VStr u) ->
  getattr R self "uri" w = (w, Ok (DVal (VStr u))).
Proof.
  intros Ho Hn Hfuel Hcp Ha Hd Hu Hres.
  rewrite (getattr_unfold R self "uri" Hfuel). unfold lookup.
  rewrite (bind_ok _ _ _ _ _ (get_self_ok w self o Ho Hn)).
  change (reserved_member "uri") with false. cbv beta iota. rewrite Hcp.
  rewrite (bind_ok _ _ w w (VStr u)); [reflexivity|].
  unfold _get_property.
  rewrite (bind_ok _ _ _ _ _ (get_self_ok w self o Ho Hn)).
  rewrite (bind_ok _ _ w w a); [|unfold lift, class_attribute; rewrite Ha; reflexivity].
  rewrite (bind_ok _ _ w w (VDict d)).
  2:{ rewrite <- Hd. apply instance_loaded; auto. rewrite Hd. reflexivity. }
  rewrite (bind_ok _ _ w w (VStr u));
    [|unfold lift; cbn [py_get]; rewrite Hu; reflexivity].
  cbn [is_none]. rewrite (bind_ok _ _ w w (VStr u)); [|reflexivity].
  rewrite (bind_ok _ _ _ _ _ (get_self_ok w self o Ho Hn)).
  rewrite Hd. rewrite (bind_ok _ _ w w (VDict (dict_set d URI (VStr u)))); [|reflexivity].
  rewrite (bind_ok _ _ w w tt).
  - unfold lift. rewrite Hres. reflexivity.
  - apply (modify_resource_same w self _ o Ho).
    rewrite (dict_set_same d URI (VStr u) Hu), <- Hd. destruct o; reflexivity.
Qed.

(** X23. Equality of two resources looks at their URIs only.  When
    the raw data of both is loaded and holds a URI that is not empty, the
    result is whether the two URIs are the same text, whatever else the
    raw data holds, and the store is left as it is.  When the URI of the
    first is missing, null or empty, the result is [None], not a truth
    value, also when a resource is compared with itself. *)
Theorem Resource_eq_by_uri (R : Runtime) (w : world) (self other : nat) :
  recursion_limit R <> 0 ->
  (forall o o' a a' d d' u u',
      nth_error (resources w) self = Some o -> well_named (r_type o) = true ->
      class_property (r_type o) "uri" = Some URI ->
      dict_get (rt_attributes (r_type o)) URI = Some a ->
      _instance o = VDict d -> dict_get d URI = Some (VStr u) ->
      resolve R a (VStr u) (rt_client (r_type o)) = Ok (VStr u) ->
      nth_error (resources w) other = Some o' -> well_named (r_type o') = true ->
      class_property (r_type o') "uri" = Some URI ->
      dict_get (rt_attributes (r_type o')) URI = Some a' ->
      _instance o' = VDict d' -> dict_get d' URI = Some (VStr u') ->
      resolve R a' (VStr u') (rt_client (r_type o')) = Ok (VStr u') ->
      u <> "" -> u' <> "" ->
      Resource_eq R self other w = (w, Ok (VBool (String.eqb u u'))))
  /\ (forall v w1,
         getattr R self "uri" w = (w1, Ok (DVal v)) ->
         truthy v = false ->
         Resource_eq R self other w = (w1, Ok VNone)).
Proof.
  intros Hfuel. split.
  - intros o o' a a' d d' u u' Ho Hn Hcp Ha Hd Hu Hres Ho' Hn' Hcp' Ha' Hd' Hu' Hres'
           Hne Hne'.
    pose proof (getattr_uri_loaded R w self o a d u Ho Hn Hfuel Hcp Ha Hd Hu Hres) as Hself.
    pose proof (getattr_uri_loaded R w other o' a' d' u' Ho' Hn' Hfuel Hcp' Ha' Hd' Hu' Hres')
      as Hother.
    assert (Ht : truthy (VStr u) = true).
    { cbn. destruct (String.eqb u "") eqn:Heq; [|reflexivity].
      apply String.eqb_eq in Heq. contradiction. }
    assert (Ht' : truthy (VStr u') = true).
    { cbn. destruct (String.eqb u' "") eqn:Heq; [|reflexivity].
      apply String.eqb_eq in Heq. contradiction. }
    unfold Resource_eq.
    rewrite (bind_ok _ _ _ _ _ Hself).
    rewrite (bind_ok _ _ w w true); [|unfold dyn_truthy, ret; rewrite Ht; reflexivity].
    rewrite (bind_ok _ _ w w true).
    2:{ rewrite (bind_ok _ _ _ _ _ Hother). unfold dyn_truthy, ret. rewrite Ht'.
        reflexivity. }
    rewrite (bind_ok _ _ _ _ _ Hself), (bind_ok _ _ _ _ _ Hother). reflexivity.
  - intros v w1 Hget Hv. unfold Resource_eq.
    rewrite (bind_ok _ _ _ _ _ Hget).
    rewrite (bind_ok _ _ w1 w1 false); [|unfold dyn_truthy, ret; rewrite Hv; reflexivity].
    rewrite (bind_ok _ _ w1 w1 false); reflexivity.
Qed.

Lemma Resource_eq_by_uri_witness :
  Resource_eq R0 0 0 saved = (saved, Ok (VBool true))
  /\ Resource_eq R0 0 0 unsaved = (fst (getattr R0 0 "uri" unsaved), Ok VNone).
Proof.
  assert (Hfuel : recursion_limit R0 <> 0) by discriminate.
  split.
  - destruct (Resource_eq_by_uri R0 saved 0 0 Hfuel) as [Hloaded _].
    assert (H1 : nth_error (resources saved) 0 = Some (resource_at saved 0))
      by (vm_compute; reflexivity).
    assert (H2 : well_named (r_type (resource_at saved 0)) = true)
      by (vm_compute; reflexivity).
    assert (H3 : class_property (r_type (resource_at saved 0)) "uri" = Some URI)
      by (vm_compute; reflexivity).
    assert (H4 : dict_get (rt_attributes (r_type (resource_at saved 0))) URI
                 = Some (attribute uri_schema)) by (vm_compute; reflexivity).
    assert (H5 : _instance (resource_at saved 0)
                 = VDict [("name", VStr "new"); ("tags", VList []); ("owner", VDict []);
                          (URI, VStr "/item/26")]) by (vm_compute; reflexivity).
    assert (H6 : resolve R0 (attribute uri_schema) (VStr "/item/26")
                         (rt_client (r_type (resource_at saved 0)))
                 = Ok (VStr "/item/26")) by (vm_compute; reflexivity).
    apply (Hloaded _ _ _ _ _ _ "/item/26" "/item/26" H1 H2 H3 H4 H5 eq_refl H6
                   H1 H2 H3 H4 H5 eq_refl H6); discriminate.
  - destruct (Resource_eq_by_uri R0 unsaved 0 0 Hfuel) as [_ Hnone].
    apply (Hnone VNone); [vm_compute; reflexivity|reflexivity].
Defined.

(** ** Binding a link *)

(** The loop of [_parse_schema], with what it writes. *)
Lemma parse_loop_exact (R : Runtime) (self d : nat) (properties : pyval) :
  forall (props : list string) (attrs : list (string * attr)) (w : world) (o : proxy)
         (D : list (string * attr)),
    mapM (fun prop => x <- py_getitem properties prop ;;
                      a <- AttributeMapper_init (recursion_limit R) x ;;
                      Ok (prop, a)) props = Ok attrs ->
    forallb (fun ka => negb (reserved_name (fst ka))) attrs = true ->
    nth_error (proxies w) self = Some o ->
    nth_error (dicts w) d = Some D ->
    exists w',
      for_each (fun prop =>
                  let* x := lift (py_getitem properties prop) in
                  let* a := lift (AttributeMapper_init (recursion_limit R) x) in
                  modify_dict d (fun attrs => dict_set attrs prop a) ;;;
                  proxy_setattr self prop (Accessor self prop)) props w = (w', Ok tt)
      /\ wrote_members self d w w'
      /\ nth_error (proxies w') self
         = Some (set_members
                   (fold_left (fun m ka => dict_set m (fst ka) (Accessor self (fst ka)))
                              attrs (p_members o)) o)
      /\ nth_error (dicts w') d = Some (dict_update D attrs)
      /\ resources w' = resources w /\ requests w' = requests w.
Proof.
  induction props as [|prop t IH]; intros attrs w o D Hm Hnames Ho HD.
  - cbn [mapM] in Hm. inversion Hm; subst attrs. exists w.
    split; [reflexivity|]. split; [apply wrote_members_refl|].
    cbn [fold_left]. unfold dict_update. cbn [fold_left].
    split; [rewrite Ho; destruct o; reflexivity|]. auto.
  - cbn [mapM] in Hm.
    destruct (py_getitem properties prop) as [x|e] eqn:Hx; cbn [rbind] in Hm;
      [|discriminate].
    destruct (AttributeMapper_init (recursion_limit R) x) as [a|e] eqn:Ha;
      cbn [rbind] in Hm; [|discriminate].
    destruct (mapM _ t) as [rest|e] eqn:Hrest; cbn [rbind] in Hm; [|discriminate].
    inversion Hm; subst attrs. cbn [forallb fst] in Hnames.
    apply andb_true_iff in Hnames. destruct Hnames as [Hname Hnames].
    apply negb_true_iff in Hname.
    set (w1 := fst (modify_dict d (fun attrs => dict_set attrs prop a) w)).
    set (w2 := fst (modify_proxy self
                      (fun o => set_members (dict_set (p_members o) prop
                                                      (Accessor self prop)) o) w1)).
    set (o2 := set_members (dict_set (p_members o) prop (Accessor self prop)) o).
    assert (Ho2 : nth_error (proxies w2) self = Some o2).
    { unfold w2, modify_proxy. cbn [fst proxies w1 modify_dict].
      exact (nth_error_update_nth self
               (fun o => set_members (dict_set (p_members o) prop (Accessor self prop)) o)
               (proxies w) o Ho). }
    assert (HD2 : nth_error (dicts w2) d = Some (dict_set D prop a)).
    { unfold w2, modify_proxy. cbn [fst dicts w1 modify_dict].
      exact (nth_error_update_nth d (fun attrs => dict_set attrs prop a) (dicts w) D HD). }
    destruct (IH rest w2 o2 (dict_set D prop a) eq_refl Hnames Ho2 HD2)
      as [w' [Hrun [Hw [Hself [Hdict [Hres Hreq]]]]]].
    exists w'. split; [|split; [|split; [|split]]].
    + cbn [for_each].
      rewrite (bind_ok _ _ w w2 tt); [exact Hrun|].
      rewrite (bind_ok _ _ w w x); [|unfold lift; rewrite Hx; reflexivity].
      rewrite (bind_ok _ _ w w a); [|unfold lift; rewrite Ha; reflexivity].
      rewrite (bind_ok _ _ w w1 tt); [|reflexivity].
      apply (proxy_setattr_ok self prop _ w1 Hname).
    + apply (wrote_members_trans self d w w1 w'); [apply modify_dict_wrote|].
      apply (wrote_members_trans self d w1 w2 w'); [apply setattr_wrote|exact Hw].
    + rewrite Hself. cbn [fold_left fst snd o2 p_members set_members]. reflexivity.
    + rewrite Hdict. reflexivity.
    + split; [rewrite Hres|rewrite Hreq]; reflexivity.
Qed.

Lemma accessors_get (self : nat) (attrs : list (string * attr)) :
  forall (m : list (string * member)) (prop : string),
    dict_get (fold_left (fun m ka => dict_set m (fst ka) (Accessor self (fst ka))) attrs m)
             prop
    = if existsb (String.eqb prop) (map fst attrs) then Some (Accessor self prop)
      else dict_get m prop.
Proof.
  induction attrs as [|[k a] t IH]; intros m prop; cbn [fold_left map existsb fst];
    [reflexivity|].
  rewrite IH, dict_get_set.
  destruct (existsb (String.eqb prop) (map fst t)); [rewrite orb_true_r; reflexivity|].
  rewrite orb_false_r. destruct (String.eqb prop k) eqn:Heq; [|reflexivity].
  apply String.eqb_eq in Heq. subst. reflexivity.
Qed.

(** X24. Binding a link whose schema builds, under property names
    that are free on a proxy, always returns: it adds one proxy of the
    class of the link's return type, which carries the link and the
    binding, no accumulated argument, an accessor for each declared
    property and no other member, and an attribute dictionary of its own
    with the attribute of each property.  The proxies that exist, the
    resources and the requests sent stay as they are. *)
Theorem bind_builds_accessors (R : Runtime) (w : world) (L : Link) (b : binding)
        (c : proxy_class) (attrs : list (string * attr)) :
  LinkProxy_return_type L = Ok c ->
  link_attributes R L = Ok attrs ->
  forallb (fun ka => negb (reserved_name (fst ka))) attrs = true ->
  exists w' o',
    bind_proxy R L b w = (w', Ok (List.length (proxies w)))
    /\ nth_error (proxies w') (List.length (proxies w)) = Some o'
    /\ p_cls o' = c /\ _link o' = L /\ _binding o' = b /\ _kwargs o' = []
    /\ (forall prop,
           dict_get (p_members o') prop
           = if existsb (String.eqb prop) (map fst attrs)
             then Some (Accessor (List.length (proxies w)) prop) else None)
    /\ p_attributes o' = List.length (dicts w)
    /\ nth_error (dicts w') (List.length (dicts w)) = Some (dict_update [] attrs)
    /\ (forall i, i < List.length (proxies w) ->
                  nth_error (proxies w') i = nth_error (proxies w) i)
    /\ resources w' = resources w /\ requests w' = requests w.
Proof.
  intros Hc Hattrs Hfree.
  set (d := List.length (dicts w)). set (q := List.length (proxies w)).
  set (o0 := {| p_cls := c; _link := L; _binding := b; p_attributes := d;
                _kwargs := []; p_members := []; _collection := VNone; _total := 0;
                _links := [] |}).
  set (w2 := {| proxies := proxies w ++ [o0]; dicts := dicts w ++ [[]];
                resources := resources w; iterators := iterators w;
                requests := requests w |}).
  assert (Hq : nth_error (proxies w2) q = Some o0) by apply nth_error_last.
  assert (Hd : nth_error (dicts w2) d = Some []) by apply nth_error_last.
  assert (Hparse :
            exists w', _parse_schema R q w2 = (w', Ok tt) /\ wrote_members q d w2 w'
                       /\ nth_error (proxies w') q
                          = Some (set_members
                                    (fold_left (fun m ka => dict_set m (fst ka)
                                                                     (Accessor q (fst ka)))
                                               attrs []) o0)
                       /\ nth_error (dicts w') d = Some (dict_update [] attrs)
                       /\ resources w' = resources w2 /\ requests w' = requests w2).
  { unfold _parse_schema.
    rewrite (bind_ok _ _ _ _ _ (get_proxy_ok w2 q o0 Hq)). cbn [_link o0 p_attributes].
    unfold link_attributes in Hattrs.
    destruct (py_contains PROPERTIES (schema L)) as [[|]|e] eqn:Hc'; cbn [rbind] in Hattrs;
      try discriminate.
    - destruct (py_getitem (schema L) PROPERTIES) as [properties|e] eqn:Hg;
        cbn [rbind] in Hattrs; [|discriminate].
      destruct (py_keys properties) as [props|e] eqn:Hk; cbn [rbind] in Hattrs;
        [|discriminate].
      destruct (parse_loop_exact R q d properties props attrs w2 o0 [] Hattrs Hfree Hq Hd)
        as [w' [Hrun Hrest]].
      exists w'. split; [|exact Hrest].
      rewrite (bind_ok _ _ w2 w2 true); [|reflexivity]. cbv beta iota.
      rewrite (bind_ok _ _ w2 w2 properties); [|reflexivity].
      rewrite (bind_ok _ _ w2 w2 props); [|unfold lift; rewrite Hk; reflexivity].
      exact Hrun.
    - inversion Hattrs; subst attrs. exists w2. split.
      + rewrite (bind_ok _ _ w2 w2 false); reflexivity.
      + split; [apply wrote_members_refl|]. cbn [fold_left]. unfold dict_update.
        cbn [fold_left]. auto. }
  destruct Hparse as [w' [Hrun [[Hlen [Hother _]] [Hself [Hdict [Hres Hreq]]]]]].
  exists w', (set_members (fold_left (fun m ka => dict_set m (fst ka) (Accessor q (fst ka)))
                                     attrs []) o0).
  split; [|split; [exact Hself|]].
  - unfold bind_proxy. rewrite (bind_ok _ _ w w c); [|unfold lift; rewrite Hc; reflexivity].
    unfold construct. cbn [dict_mem dict_get orb andb].
    rewrite (bind_ok _ _ w w tt); [|destruct c, b; reflexivity].
    rewrite (bind_ok _ _ w (fst (alloc_dict [] w)) d); [|reflexivity].
    rewrite (bind_ok _ _ _ w2 q); [|reflexivity].
    rewrite (bind_ok _ _ _ _ _ Hrun). reflexivity.
  - cbn [p_cls _link _binding _kwargs p_members p_attributes set_members o0].
    repeat split; auto.
    + intros prop. rewrite accessors_get. reflexivity.
    + intros i Hi. rewrite Hother by (unfold q; lia).
      cbn [w2 proxies]. apply nth_error_app1. exact Hi.
Qed.

Lemma bind_builds_accessors_witness :
  exists w' o',
    bind_proxy R0 instances (BType item_type) empty_world = (w', Ok 0)
    /\ nth_error (proxies w') 0 = Some o'
    /\ p_cls o' = ListLinkProxy_cls /\ _link o' = instances
    /\ _binding o' = BType item_type /\ _kwargs o' = []
    /\ dict_get (p_members o') "per_page" = Some (Accessor 0 "per_page")
    /\ dict_get (p_members o') "next" = None.
Proof.
  assert (H1 : LinkProxy_return_type instances = Ok ListLinkProxy_cls)
    by (vm_compute; reflexivity).
  assert (H2 : link_attributes R0 instances = Ok paging) by (vm_compute; reflexivity).
  assert (H3 : forallb (fun ka => negb (reserved_name (fst ka))) paging = true)
    by (vm_compute; reflexivity).
  destruct (bind_builds_accessors R0 empty_world instances (BType item_type) _ _ H1 H2 H3)
    as [w' [o' [Hrun [Ho [Hc [Hl [Hb [Hk [Hm _]]]]]]]]].
  exists w', o'.
  split; [exact Hrun|]. split; [exact Ho|]. split; [exact Hc|]. split; [exact Hl|].
  split; [exact Hb|]. split; [exact Hk|]. split; rewrite Hm; reflexivity.
Defined.
